(** * Time-entry workflow of app/main.py: week dates, weekly submit, approvals

    A shallow embedding of the FastAPI prototype [app/main.py]: the ISO week
    calculator [iso_week_dates], the default-person query
    [pick_default_person_id], and the handlers working on [v2_time_entries]
    ([time_add], [time_delete], [time_submit_week], [approvals_approve],
    [approvals_reject], [my_week]).

    Python's [datetime.date] is embedded from the reference implementation of
    the standard library (Lib/_pydatetime.py): a date is the triple
    (year, month, day), arithmetic goes through the proleptic Gregorian
    ordinal.  The SQL statements are embedded as functions on the rows of the
    three v2 tables.  Python's [float] is the binary64 of the standard
    library's [SpecFloat]; the hours of an entry are a NUMERIC(5,2), and the
    float of the form is cast to it as PostgreSQL casts a float8. *)

From Stdlib Require Import ZArith List String Bool Lia Permutation Sorted.
From Stdlib Require Import Floats.SpecFloat.
Import ListNotations.

#[local] Open Scope string_scope.
#[local] Open Scope list_scope.
#[local] Open Scope Z_scope.

(* ================================================================== *)
(** ** Exceptions and results *)

(** What Python's [ValueError] of [date.fromisocalendar] complains about. *)
Inductive value_error : Type :=
| YearOutOfRange (year : Z)         (* "Year is out of range: {year}" *)
| InvalidWeek (week : Z)            (* "Invalid week: {week}" *)
| InvalidWeekday (day : Z).         (* "Invalid weekday: {day} (range is [1, 7])" *)

(** The exceptions the modelled code can raise.  The last six are
    psycopg.errors classes, raised by [cur.execute]. *)
Inductive exn : Type :=
| ValueError (why : value_error)
| OverflowError (msg : string)
| RuntimeError (msg : string)
| KeyError
| InvalidDatetimeFormat             (* text that is no date *)
| DatetimeFieldOverflow             (* a date that does not exist *)
| NumericValueOutOfRange
| CheckViolation (constraint : string)
| UniqueViolation (constraint : string)
| ForeignKeyViolation (constraint : string).

Inductive result (A : Type) : Type :=
| Ok (a : A)
| Raise (e : exn).

Arguments Ok {A} a.
Arguments Raise {A} e.

Definition bind {A B : Type} (r : result A) (k : A -> result B) : result B :=
  match r with
  | Ok a => k a
  | Raise e => Raise e
  end.

Notation "x <- r ;; k" := (bind r (fun x => k))
  (at level 61, r at next level, right associativity).

(* ================================================================== *)
(** ** datetime.date *)

Module datetime.

Definition MINYEAR : Z := 1.
Definition MAXYEAR : Z := 9999.

(** [_DAYS_IN_MONTH], indexed from 1; index 0 holds the placeholder -1. *)
Definition _DAYS_IN_MONTH : list Z :=
  [-1; 31; 28; 31; 30; 31; 30; 31; 31; 30; 31; 30; 31].

(** [_DAYS_BEFORE_MONTH], built by the module-level loop
    [dbm = 0; for dim in _DAYS_IN_MONTH[1:]: append(dbm); dbm += dim]. *)
Definition _DAYS_BEFORE_MONTH : list Z :=
  -1 :: fst (fold_left (fun '(acc, dbm) dim => (acc ++ [dbm], dbm + dim))
                       (tl _DAYS_IN_MONTH) ([], 0)).

(** List indexing by a month number known to be in range. *)
Definition idx (l : list Z) (i : Z) : Z := nth (Z.to_nat i) l 0.

Definition b2z (b : bool) : Z := if b then 1 else 0.

(** [year % 4 == 0 and (year % 100 != 0 or year % 400 == 0)] *)
Definition _is_leap (year : Z) : bool :=
  (year mod 4 =? 0) && (negb (year mod 100 =? 0) || (year mod 400 =? 0)).

(** [y = year - 1; return y*365 + y//4 - y//100 + y//400] *)
Definition _days_before_year (year : Z) : Z :=
  let y := year - 1 in
  y * 365 + y / 4 - y / 100 + y / 400.

Definition _days_in_month (year month : Z) : Z :=
  if (month =? 2) && _is_leap year then 29 else idx _DAYS_IN_MONTH month.

Definition _days_before_month (year month : Z) : Z :=
  idx _DAYS_BEFORE_MONTH month + b2z ((2 <? month) && _is_leap year).

(** The two [assert]s of [_ymd2ord] (month in 1..12, day in
    1..[_days_in_month]) hold for every date object; they return nothing. *)
Definition _ymd2ord (year month day : Z) : Z :=
  _days_before_year year + _days_before_month year month + day.

Definition _DI400Y : Z := Eval cbv in _days_before_year 401.
Definition _DI100Y : Z := Eval cbv in _days_before_year 101.
Definition _DI4Y : Z := Eval cbv in _days_before_year 5.

(** [_ord2ymd(n)]: ordinal to (year, month, day), with 0001-01-01 as day 1.
    Python's [divmod] on integers is floor division, as [Z.div] and
    [Z.modulo] are for a positive divisor; [>> 5] is [Z.shiftr _ 5]. *)
Definition _ord2ymd (n : Z) : Z * Z * Z :=
  let n := n - 1 in
  let n400 := n / _DI400Y in
  let n := n mod _DI400Y in
  let year := n400 * 400 + 1 in
  let n100 := n / _DI100Y in
  let n := n mod _DI100Y in
  let n4 := n / _DI4Y in
  let n := n mod _DI4Y in
  let n1 := n / 365 in
  let n := n mod 365 in
  let year := year + (n100 * 100 + n4 * 4 + n1) in
  if (n1 =? 4) || (n100 =? 4) then (year - 1, 12, 31)
  else
    let leapyear := (n1 =? 3) && (negb (n4 =? 24) || (n100 =? 3)) in
    let month := Z.shiftr (n + 50) 5 in
    let preceding := idx _DAYS_BEFORE_MONTH month + b2z ((2 <? month) && leapyear) in
    let '(month, preceding) :=
      if n <? preceding
      then (month - 1,
            preceding - (idx _DAYS_IN_MONTH (month - 1)
                         + b2z ((month - 1 =? 2) && leapyear)))
      else (month, preceding) in
    (year, month, n - preceding + 1).

(** A [date] object: the fields [_year], [_month], [_day]. *)
Record date : Type := mkdate { year : Z; month : Z; day : Z }.

Definition _MAXORDINAL : Z := Eval cbv in _ymd2ord 9999 12 31.

Definition toordinal (d : date) : Z := _ymd2ord (year d) (month d) (day d).

Definition fromordinal (n : Z) : date :=
  let '(y, m, d) := _ord2ymd n in mkdate y m d.

(** [date.weekday()]: Monday is 0, Sunday is 6. *)
Definition weekday (d : date) : Z := (toordinal d + 6) mod 7.

(** [_isoweek1monday(year)]: ordinal of the Monday starting ISO week 1. *)
Definition _isoweek1monday (year : Z) : Z :=
  let THURSDAY := 3 in
  let firstday := _ymd2ord year 1 1 in
  let firstweekday := (firstday + 6) mod 7 in
  let week1monday := firstday - firstweekday in
  if THURSDAY <? firstweekday then week1monday + 7 else week1monday.

(** [_isoweek_to_gregorian(year, week, day)], the body of
    [date.fromisocalendar]. *)
Definition _isoweek_to_gregorian (year week day : Z) : result (Z * Z * Z) :=
  if negb ((MINYEAR <=? year) && (year <=? MAXYEAR))
  then Raise (ValueError (YearOutOfRange year))
  else
    let out_of_range :=
      if negb ((0 <? week) && (week <? 53)) then
        if week =? 53 then
          let first_weekday := _ymd2ord year 1 1 mod 7 in
          if (first_weekday =? 4) || ((first_weekday =? 3) && _is_leap year)
          then false else true
        else true
      else false in
    if out_of_range then Raise (ValueError (InvalidWeek week))
    else if negb ((0 <? day) && (day <? 8))
    then Raise (ValueError (InvalidWeekday day))
    else
      let day_offset := (week - 1) * 7 + (day - 1) in
      let day_1 := _isoweek1monday year in
      let ord_day := day_1 + day_offset in
      Ok (_ord2ymd ord_day).

Definition fromisocalendar (year week day : Z) : result date :=
  ymd <- _isoweek_to_gregorian year week day ;;
  let '(y, m, d) := ymd in Ok (mkdate y m d).

(** [date.__add__] with a [timedelta] of [days] whole days. *)
Definition add_days (d : date) (days : Z) : result date :=
  let o := toordinal d + days in
  if (0 <? o) && (o <=? _MAXORDINAL) then Ok (fromordinal o)
  else Raise (OverflowError "result out of range").

(** [date.isocalendar()], the (ISO year, ISO week) part. *)
Definition isocalendar (d : date) : Z * Z :=
  let year := year d in
  let week1monday := _isoweek1monday year in
  let today := toordinal d in
  let week := (today - week1monday) / 7 in
  if week <? 0 then
    let year := year - 1 in
    let week1monday := _isoweek1monday year in
    (year, (today - week1monday) / 7 + 1)
  else if (52 <=? week) && (_isoweek1monday (year + 1) <=? today)
  then (year + 1, 1)
  else (year, week + 1).

(** Comparison of dates, [_cmp] on the (year, month, day) triples. *)
Definition date_leb (a b : date) : bool :=
  (year a <? year b)
  || ((year a =? year b)
      && ((month a <? month b)
          || ((month a =? month b) && (day a <=? day b)))).

Definition date_eqb (a b : date) : bool :=
  (year a =? year b) && (month a =? month b) && (day a =? day b).

End datetime.

Import datetime.

(* ================================================================== *)
(** ** The week calculator *)

(** The list comprehension [[f(i) for i in range(n)]] where [f] may raise:
    elements are built left to right, the first exception ends it. *)
Fixpoint comprehension {A : Type} (f : Z -> result A) (range : list Z)
  : result (list A) :=
  match range with
  | [] => Ok []
  | i :: rest =>
      a <- f i ;;
      l <- comprehension f rest ;;
      Ok (a :: l)
  end.

Definition range7 : list Z := [0; 1; 2; 3; 4; 5; 6].

(** [monday = date.fromisocalendar(year, week, 1)
     return [monday + timedelta(days=i) for i in range(7)]] *)
Definition iso_week_dates (year week : Z) : result (list date) :=
  monday <- fromisocalendar year week 1 ;;
  comprehension (fun i => add_days monday i) range7.

(* ================================================================== *)
(** ** Python floats and NUMERIC(5,2) *)

(** A Python [float] is an IEEE 754 binary64 (53 bits of precision,
    exponents below 1024); [x + y] and [float(n)] round to nearest, ties
    to even. *)
Definition float : Type := spec_float.

Definition float_add (x y : float) : float := SFadd 53 1024 x y.

Definition float_of_int (n : Z) : float := binary_normalize 53 1024 n 0 false.

(** A value of a NUMERIC(5,2) column, and the [Decimal] psycopg loads it
    as: a number of hundredths, or NaN. *)
Inductive numeric : Type :=
| Num (hundredths : Z)
| NumericNaN.

(** [float(d)] for a [Decimal]: the binary64 nearest to the decimal, ties
    to even.  The hundredths of a NUMERIC(5,2) and 100 are binary64 values
    themselves, and the IEEE division of the two rounds the quotient that
    way. *)
Definition float_of_decimal (d : numeric) : float :=
  match d with
  | Num h => SFdiv 53 1024 (float_of_int h) (float_of_int 100)
  | NumericNaN => S754_nan
  end.

(** [float(hours or 0)]: a [Decimal] is falsy when it is zero, and then
    [float(0)] is taken; NaN is truthy.  The column is NOT NULL. *)
Definition float_hours_or_0 (hours : numeric) : float :=
  match hours with
  | Num 0 => float_of_int 0
  | _ => float_of_decimal hours
  end.

(** *** The cast of a float8 parameter to NUMERIC(5,2)

    psycopg sends a Python float as a float8.  To store it in the column
    PostgreSQL casts it to numeric ([float8_numeric]: the float is printed
    with [snprintf("%.15g")], 15 significant decimal digits, and the text
    is read as a numeric) and then to the column's precision and scale
    (the number is rounded at two decimals, half away from zero, and must
    stay below 10^3). *)

(** The decimal exponent of a positive [n/d]: the [k] with
    [10^k <= n/d < 10^(k+1)], counted up from [n/d >= 10] and down from
    [n/d < 1]. *)
Fixpoint exp10_up (fuel : nat) (n d : Z) : Z :=
  match fuel with
  | O => 0
  | S fuel => if 10 * d <=? n then exp10_up fuel n (10 * d) + 1 else 0
  end.

Fixpoint exp10_down (fuel : nat) (n d : Z) : Z :=
  match fuel with
  | O => 0
  | S fuel => if n <? d then exp10_down fuel (10 * n) d - 1 else 0
  end.

Definition exp10 (n d : Z) : Z :=
  if d <=? n then exp10_up (S (Z.to_nat (Z.log2 n))) n d
  else exp10_down (S (Z.to_nat (Z.log2 d))) n d.

(** [n/d] rounded to an integer: to the nearest, a tie to the even one;
    and to the nearest, a tie upwards. *)
Definition round_half_even (n d : Z) : Z :=
  let q := n / d in
  match 2 * (n mod d) ?= d with
  | Lt => q
  | Eq => if Z.even q then q else q + 1
  | Gt => q + 1
  end.

Definition round_half_up (n d : Z) : Z := (2 * n + d) / (2 * d).

(** ["%.15g"] of a positive [n/d]: the 15 significant digits [D] and the
    exponent [q] of the last one; the text stands for [D * 10^q]. *)
Definition printf_15g (n d : Z) : Z * Z :=
  let k := exp10 n d in
  (if k <=? 14 then round_half_even (n * 10 ^ (14 - k)) d
   else round_half_even n (d * 10 ^ (k - 14)),
   k - 14).

(** [D * 10^q] at the scale of the column: the hundredths, half a
    hundredth rounded away from zero. *)
Definition round_scale_2 (D q : Z) : Z :=
  if -2 <=? q then D * 10 ^ (q + 2) else round_half_up D (10 ^ (- (q + 2))).

(** The magnitude [m * 2^e] of a finite float as a fraction [n/d]. *)
Definition magnitude (m : positive) (e : Z) : Z * Z :=
  if 0 <=? e then (Zpos m * 2 ^ e, 1) else (Zpos m, 2 ^ (- e)).

(** The hundredths of the magnitude of a finite float. *)
Definition hundredths_of (m : positive) (e : Z) : Z :=
  let '(n, d) := magnitude m e in
  let '(D, q) := printf_15g n d in
  round_scale_2 D q.

(** The cast.  NaN is a numeric; an infinity fits no column with a
    precision, and neither does a number that is 1000 or more after the
    rounding; a zero of either sign is 0.00. *)
Definition float8_to_numeric_5_2 (x : float) : result numeric :=
  match x with
  | S754_nan => Ok NumericNaN
  | S754_infinity _ => Raise NumericValueOutOfRange
  | S754_zero _ => Ok (Num 0)
  | S754_finite s m e =>
      let h := hundredths_of m e in
      if 100000 <=? h then Raise NumericValueOutOfRange
      else Ok (Num (if s then - h else h))
  end.

(** [hours >= 0] on a numeric: NaN counts as greater than every number. *)
Definition numeric_ge_0 (v : numeric) : bool :=
  match v with
  | Num h => 0 <=? h
  | NumericNaN => true
  end.

(** What fits a BIGINT.  psycopg sends a Python int beyond that as a
    numeric, and the cast to the column raises. *)
Definition bigint (n : Z) : bool := (- 2 ^ 63 <=? n) && (n <? 2 ^ 63).

(* ================================================================== *)
(** ** The three v2 tables

    Rows carry the columns the handlers read or write; [created_at]
    (TIMESTAMPTZ DEFAULT now()) is set by the server clock and never read by
    the modelled code, so it is left out.  A DATE is a day count on the scale
    of Python's ordinals (0001-01-01 is day 1); PostgreSQL's range is wider
    than Python's.  [hours] is NUMERIC(5,2): a whole number of hundredths,
    or NaN. *)

Record v2_people_row : Type := mk_person {
  pe_id : Z;
  pe_name : string;
  pe_email : option string
}.

Record v2_projects_row : Type := mk_project {
  pj_id : Z;
  pj_code : option string;
  pj_name : string;
  pj_is_active : bool
}.

Record v2_time_entries_row : Type := mk_entry {
  te_id : Z;
  te_person_id : Z;
  te_project_id : option Z;
  te_work_date : Z;
  te_hours : numeric;
  te_notes : option string;
  te_status : string
}.

(** The database: the rows of each table and the last value each BIGSERIAL
    sequence handed out. *)
Record database : Type := mk_database {
  v2_people : list v2_people_row;
  v2_projects : list v2_projects_row;
  v2_time_entries : list v2_time_entries_row;
  v2_people_id_seq : Z;
  v2_projects_id_seq : Z;
  v2_time_entries_id_seq : Z
}.

Definition with_time_entries (d : database) (rows : list v2_time_entries_row)
  : database :=
  mk_database (v2_people d) (v2_projects d) rows
              (v2_people_id_seq d) (v2_projects_id_seq d)
              (v2_time_entries_id_seq d).

Definition with_time_entries_id_seq (d : database) (v : Z) : database :=
  mk_database (v2_people d) (v2_projects d) (v2_time_entries d)
              (v2_people_id_seq d) (v2_projects_id_seq d) v.

Definition set_status (status : string) (r : v2_time_entries_row)
  : v2_time_entries_row :=
  mk_entry (te_id r) (te_person_id r) (te_project_id r) (te_work_date r)
           (te_hours r) (te_notes r) status.

(** [UPDATE v2_time_entries SET status=... WHERE cond] *)
Definition update_status (cond : v2_time_entries_row -> bool) (status : string)
    (rows : list v2_time_entries_row) : list v2_time_entries_row :=
  map (fun r => if cond r then set_status status r else r) rows.

(** [DELETE FROM v2_time_entries WHERE cond] *)
Definition delete_where (cond : v2_time_entries_row -> bool)
    (rows : list v2_time_entries_row) : list v2_time_entries_row :=
  filter (fun r => negb (cond r)) rows.

(** [x BETWEEN lo AND hi] *)
Definition between (x lo hi : Z) : bool := (lo <=? x) && (x <=? hi).

(** [ORDER BY]: a stable insertion sort under the order [leb]. *)
Section OrderBy.

Context {A : Type} (leb : A -> A -> bool).

Fixpoint insert_sorted (a : A) (l : list A) : list A :=
  match l with
  | [] => [a]
  | b :: l' => if leb a b then a :: l else b :: insert_sorted a l'
  end.

Definition order_by (l : list A) : list A :=
  fold_right insert_sorted [] l.

End OrderBy.

(** The aggregates [BOOL_AND] and [BOOL_OR] are NULL over no rows. *)
Definition BOOL_AND (l : list bool) : option bool :=
  match l with
  | [] => None
  | _ => Some (forallb (fun b => b) l)
  end.

Definition BOOL_OR (l : list bool) : option bool :=
  match l with
  | [] => None
  | _ => Some (existsb (fun b => b) l)
  end.

Definition COALESCE {A : Type} (v : option A) (default : A) : A :=
  match v with
  | Some a => a
  | None => default
  end.

(** The tables as [CREATE TABLE IF NOT EXISTS] leaves them in a database
    that had none of them. *)
Definition empty_database : database := mk_database [] [] [] 0 0 0.

(** [ensure_v2_schema]: the tables exist already in a [database]; what is
    left is the seeding of one project and one person into empty tables. *)
Definition ensure_v2_schema (d : database) : database :=
  let d :=
    if (Z.of_nat (List.length (v2_projects d)) =? 0) then
      let id := v2_projects_id_seq d + 1 in
      mk_database (v2_people d)
                  (v2_projects d ++ [mk_project id (Some "INT") "Internal" true])
                  (v2_time_entries d)
                  (v2_people_id_seq d) id (v2_time_entries_id_seq d)
    else d in
  if (Z.of_nat (List.length (v2_people d)) =? 0) then
    let id := v2_people_id_seq d + 1 in
    mk_database (v2_people d
                 ++ [mk_person id "Ada Lovelace" (Some "ada@example.com")])
                (v2_projects d) (v2_time_entries d)
                id (v2_projects_id_seq d) (v2_time_entries_id_seq d)
  else d.

(* ================================================================== *)
(** ** Responses *)

(** Where a redirect points: [/my-week?year=..&week=..&person_id=..] or
    [/approvals]. *)
Inductive location : Type :=
| my_week_url (year week person_id : Z)
| approvals_url.

(** A row of the my-week query: the entry's columns, its work date loaded
    as a Python [date], and the columns of the joined project (NULL when
    the LEFT JOIN finds none). *)
Record week_row : Type := mk_week_row {
  r_id : Z;
  r_work_date : date;
  r_hours : numeric;
  r_notes : option string;
  r_status : string;
  r_project_id : option Z;
  r_project_name : option string;
  r_project_code : option string
}.

(** The template context of my_week.html, without ["request"], ["people"]
    and ["projects"] (the menus of the page). *)
Record my_week_ctx : Type := mk_ctx {
  c_year : Z;
  c_week : Z;
  c_days : list date;
  c_by_day : list (date * list week_row);
  c_person_id : Z;
  c_total_hours : float;
  c_status_hint : string
}.

Inductive response : Type :=
| RedirectResponse (url : location)               (* 303 See Other *)
| render_or_fallback (tpl : string) (ctx : my_week_ctx)
| html_error (msg : string) (err : exn).          (* status_code=500 *)

(* ================================================================== *)
(** ** Python dicts keyed by dates

    A dict keeps its keys in insertion order; [by_day] is read by key. *)
Definition dict (V : Type) : Type := list (date * V).

Fixpoint dict_get {V : Type} (d : dict V) (k : date) : result V :=
  match d with
  | [] => Raise KeyError
  | (k', v) :: d' => if date_eqb k' k then Ok v else dict_get d' k
  end.

Fixpoint dict_set {V : Type} (d : dict V) (k : date) (v : V) : dict V :=
  match d with
  | [] => [(k, v)]
  | (k', v') :: d' =>
      if date_eqb k' k then (k', v) :: d' else (k', v') :: dict_set d' k v
  end.

(** [x or y] on an optional integer parameter: [None] and [0] are falsy. *)
Definition py_or (x : option Z) (y : Z) : Z :=
  match x with
  | Some v => if v =? 0 then y else v
  | None => y
  end.

(** [l[0]] and [l[-1]] raise IndexError on an empty list; the lists indexed
    here are results of [iso_week_dates], which have seven elements. *)
Definition first_of (l : list date) : date := hd (mkdate 0 0 0) l.
Definition last_of (l : list date) : date := last l (mkdate 0 0 0).

(* ================================================================== *)
(** ** Queries and handlers *)

(** [SELECT id FROM v2_people ORDER BY id LIMIT 1], then [fetchone()]. *)
Definition pick_default_person_id (conn : database) : result Z :=
  let rows := firstn 1 (order_by Z.leb (map pe_id (v2_people conn))) in
  match rows with
  | [] => Raise (RuntimeError "No v2_people in DB")
  | row :: _ => Ok row
  end.

(** [te LEFT JOIN v2_projects p ON p.id = te.project_id]: every entry with
    each project of that id, or once with NULLs when there is none. *)
Definition left_join_projects (entries : list v2_time_entries_row)
    (projects : list v2_projects_row)
  : list (v2_time_entries_row * option v2_projects_row) :=
  flat_map
    (fun te =>
       match filter (fun p => match te_project_id te with
                              | Some k => pj_id p =? k
                              | None => false
                              end) projects with
       | [] => [(te, None)]
       | ps => map (fun p => (te, Some p)) ps
       end)
    entries.

(** [WHERE person_id=%s AND work_date BETWEEN %s AND %s] *)
Definition in_week (person_id start end_ : Z) (te : v2_time_entries_row)
  : bool :=
  (te_person_id te =? person_id) && between (te_work_date te) start end_.

(** [ORDER BY te.work_date, te.id] *)
Definition by_work_date_id
    (a b : v2_time_entries_row * option v2_projects_row) : bool :=
  (te_work_date (fst a) <? te_work_date (fst b))
  || ((te_work_date (fst a) =? te_work_date (fst b))
      && (te_id (fst a) <=? te_id (fst b))).

(** The SELECT list of the my-week query, as psycopg's [dict_row] loads it. *)
Definition to_week_row (j : v2_time_entries_row * option v2_projects_row)
  : week_row :=
  let te := fst j in
  mk_week_row (te_id te) (fromordinal (te_work_date te)) (te_hours te)
              (te_notes te) (te_status te)
              (option_map pj_id (snd j))
              (option_map pj_name (snd j))
              (match snd j with Some p => pj_code p | None => None end).

Definition select_week_rows (conn : database) (person_id : Z)
    (start end_ : date) : list week_row :=
  map to_week_row
    (order_by by_work_date_id
       (filter (fun j => in_week person_id (toordinal start) (toordinal end_)
                                 (fst j))
               (left_join_projects (v2_time_entries conn) (v2_projects conn)))).

(** [SELECT COALESCE(BOOL_AND(status='approved'), FALSE),
            COALESCE(BOOL_OR(status='submitted'), FALSE) ... WHERE ...] *)
Definition select_week_flags (conn : database) (person_id : Z)
    (start end_ : date) : bool * bool :=
  let rows := filter (in_week person_id (toordinal start) (toordinal end_))
                     (v2_time_entries conn) in
  (COALESCE (BOOL_AND (map (fun te => te_status te =? "approved")%string rows))
            false,
   COALESCE (BOOL_OR (map (fun te => te_status te =? "submitted")%string rows))
            false).

(** The loop [for r in rows: by_day[r["work_date"]].append(r);
    total += float(r["hours"] or 0)]. *)
Fixpoint group_rows (rows : list week_row)
    (by_day : dict (list week_row)) (total : float)
  : result (dict (list week_row) * float) :=
  match rows with
  | [] => Ok (by_day, total)
  | r :: rows' =>
      l <- dict_get by_day (r_work_date r) ;;
      group_rows rows' (dict_set by_day (r_work_date r) (l ++ [r]))
                 (float_add total (float_hours_or_0 (r_hours r)))
  end.

(** GET /my-week.  [today] is [date.today()]; [total = 0.0] is
    [S754_zero false].  When [year] and [week] are
    both truthy the first [if] is skipped, and [year or y] is [year] then.
    [if not person_id] holds for a missing and for a zero [person_id]. *)
Definition my_week (conn : database) (today : date)
    (year week person_id : option Z) : response :=
  let body : result response :=
    let '(y, w) := isocalendar today in
    let year := py_or year y in
    let week := py_or week w in
    person_id <- match person_id with
                 | Some v => if v =? 0 then pick_default_person_id conn
                             else Ok v
                 | None => pick_default_person_id conn
                 end ;;
    days <- iso_week_dates year week ;;
    let start := first_of days in
    let end_ := last_of days in
    let rows := select_week_rows conn person_id start end_ in
    let by_day := fold_left (fun acc d => dict_set acc d []) days [] in
    grouped <- group_rows rows by_day (S754_zero false) ;;
    let '(by_day, total) := grouped in
    let '(all_approved, any_submitted) :=
      select_week_flags conn person_id start end_ in
    Ok (render_or_fallback "my_week.html"
          (mk_ctx year week days by_day person_id total
                  (if all_approved then "approved"
                   else if any_submitted then "submitted" else "draft")))
  in
  match body with
  | Ok r => r
  | Raise e => html_error "While rendering /my-week" e
  end.

Section Handlers.

(** PostgreSQL's reading of a text parameter as a DATE, on the day scale
    of the tables, or the error the server raises for the text
    ([InvalidDatetimeFormat] or [DatetimeFieldOverflow]). *)
Variable date_in : string -> result Z.

(** [INSERT INTO v2_time_entries (person_id, project_id, work_date, hours,
    notes, status) VALUES (%s, %s, %s, %s, %s, 'draft')] under the table's
    constraints.  The statement fails before it runs, and draws no id,
    when a parameter cannot be turned into a value of its column: the text
    of [work_date] is read as a date when the parameters are bound, and
    the casts of the parameters, constants by then, are evaluated when the
    statement is planned, in the order of the columns.  When it runs, the
    id is drawn from the sequence as the row is formed, and the sequence
    keeps its value when the statement fails later: on the CHECK, then the
    primary key, then the foreign keys. *)
Definition insert_time_entry (conn : database) (person_id : Z)
    (project_id : option Z) (work_date : string) (hours : float)
    (notes : option string) : database * result unit :=
  match date_in work_date with
  | Raise e => (conn, Raise e)
  | Ok wd =>
      if negb (bigint person_id)
      then (conn, Raise NumericValueOutOfRange)
      else if match project_id with
              | Some k => negb (bigint k)
              | None => false
              end
      then (conn, Raise NumericValueOutOfRange)
      else
      match float8_to_numeric_5_2 hours with
      | Raise e => (conn, Raise e)
      | Ok hours =>
      let id := v2_time_entries_id_seq conn + 1 in
      let conn := with_time_entries_id_seq conn id in
      if negb (numeric_ge_0 hours)
      then (conn, Raise (CheckViolation "v2_time_entries_hours_check"))
      else if existsb (fun r => te_id r =? id) (v2_time_entries conn)
      then (conn, Raise (UniqueViolation "v2_time_entries_pkey"))
      else if negb (existsb (fun p => pe_id p =? person_id) (v2_people conn))
      then (conn, Raise (ForeignKeyViolation "v2_time_entries_person_id_fkey"))
      else if match project_id with
              | Some k => negb (existsb (fun p => pj_id p =? k)
                                        (v2_projects conn))
              | None => false
              end
      then (conn, Raise (ForeignKeyViolation "v2_time_entries_project_id_fkey"))
      else (with_time_entries conn
              (v2_time_entries conn
               ++ [mk_entry id person_id project_id wd hours notes "draft"]),
            Ok tt)
      end
  end.

(** POST /time/add.  [hours: float = Form(...)] is any binary64, NaN and
    the infinities included. *)
Definition time_add (conn : database) (person_id : Z) (work_date : string)
    (project_id : option Z) (hours : float) (notes : option string)
    (year week : Z) : database * result response :=
  match insert_time_entry conn person_id project_id work_date hours notes with
  | (conn, Ok _) =>
      (conn, Ok (RedirectResponse (my_week_url year week person_id)))
  | (conn, Raise e) => (conn, Raise e)
  end.

(** POST /time/delete/{entry_id} *)
Definition time_delete (conn : database) (entry_id person_id year week : Z)
  : database * result response :=
  (with_time_entries conn
     (delete_where (fun r => te_id r =? entry_id) (v2_time_entries conn)),
   Ok (RedirectResponse (my_week_url year week person_id))).

(** POST /time/submit-week *)
Definition time_submit_week (conn : database) (person_id year week : Z)
  : database * result response :=
  match (d0 <- iso_week_dates year week ;;
         d1 <- iso_week_dates year week ;;
         Ok (first_of d0, last_of d1)) with
  | Raise e => (conn, Raise e)
  | Ok (start, end_) =>
      (with_time_entries conn
         (update_status
            (fun r => in_week person_id (toordinal start) (toordinal end_) r
                      && (te_status r =? "draft")%string)
            "submitted" (v2_time_entries conn)),
       Ok (RedirectResponse (my_week_url year week person_id)))
  end.

(** POST /approvals/approve/{entry_id} *)
Definition approvals_approve (conn : database) (entry_id : Z)
  : database * result response :=
  (with_time_entries conn
     (update_status (fun r => te_id r =? entry_id) "approved"
                    (v2_time_entries conn)),
   Ok (RedirectResponse approvals_url)).

(** POST /approvals/reject/{entry_id} *)
Definition approvals_reject (conn : database) (entry_id : Z)
  : database * result response :=
  (with_time_entries conn
     (update_status (fun r => te_id r =? entry_id) "draft"
                    (v2_time_entries conn)),
   Ok (RedirectResponse approvals_url)).

(** The workflow operations as requests, and the states they reach from a
    database whose v2_time_entries is as CREATE TABLE leaves it, whatever
    people and projects there are. *)
Inductive request : Type :=
| add_entry (person_id : Z) (work_date : string) (project_id : option Z)
            (hours : float) (notes : option string) (year week : Z)
| delete_entry (entry_id person_id year week : Z)
| submit_week (person_id year week : Z)
| approve (entry_id : Z)
| reject (entry_id : Z).

Definition handle (conn : database) (rq : request)
  : database * result response :=
  match rq with
  | add_entry p wd pj h n y w => time_add conn p wd pj h n y w
  | delete_entry e p y w => time_delete conn e p y w
  | submit_week p y w => time_submit_week conn p y w
  | approve e => approvals_approve conn e
  | reject e => approvals_reject conn e
  end.

Inductive reachable : database -> Prop :=
| reachable_init conn : v2_time_entries conn = [] -> reachable conn
| reachable_step conn rq :
    reachable conn -> reachable (fst (handle conn rq)).

End Handlers.

(* ================================================================== *)
(** ** The other handlers of app/main.py *)

(** Where the handlers below redirect to, and what they answer. *)
Inductive admin_url : Type :=
| people_url                              (* "/people" *)
| projects_url.                           (* "/projects" *)

Inductive other_response : Type :=
| SeeOther (url : admin_url)              (* RedirectResponse(url, 303) *)
| Found_my_week (year week : Z)           (* 302 to /my-week?year=..&week=.. *)
| PlainTextResponse (body : string).

(** GET /: [y, w, _ = date.today().isocalendar()], then the redirect. *)
Definition root_redirect (today : date) : other_response :=
  let '(y, w) := isocalendar today in
  Found_my_week y w.

(** [l LEFT JOIN r ON on]: every row of [l] with each matching row of [r],
    or once with NULLs when none matches. *)
Definition left_join {A B : Type} (on : A -> B -> bool) (l : list A)
    (r : list B) : list (A * option B) :=
  flat_map
    (fun a =>
       match filter (on a) r with
       | [] => [(a, None)]
       | bs => map (fun b => (a, Some b)) bs
       end)
    l.

(** What psycopg makes of a fetched DATE: a Python [date], or DataError
    for a day outside 0001-01-01 .. 9999-12-31. *)
Inductive loaded (A : Type) : Type :=
| Loaded (a : A)
| DataError (msg : string).

Arguments Loaded {A} a.
Arguments DataError {A} msg.

Definition load_date (n : Z) : loaded date :=
  if n <? 1 then DataError "date too small (before MINYEAR)"
  else if _MAXORDINAL <? n then DataError "date too large (after year 10K)"
  else Loaded (fromordinal n).

(** A row of the approvals query. *)
Record approvals_row : Type := mk_approvals_row {
  a_id : Z;
  a_person_id : Z;
  a_person_name : option string;
  a_work_date : date;
  a_hours : numeric;
  a_notes : option string;
  a_status : string;
  a_project_code : option string;
  a_project_name : option string
}.

Definition approvals_join : Type :=
  v2_time_entries_row * option v2_people_row * option v2_projects_row.

(** [ORDER BY te.person_id, te.work_date, te.id] *)
Definition by_person_date_id (a b : approvals_join) : bool :=
  let ta := fst (fst a) in
  let tb := fst (fst b) in
  (te_person_id ta <? te_person_id tb)
  || ((te_person_id ta =? te_person_id tb)
      && ((te_work_date ta <? te_work_date tb)
          || ((te_work_date ta =? te_work_date tb)
              && (te_id ta <=? te_id tb)))).

Definition load_approvals_row (j : approvals_join) : loaded approvals_row :=
  let te := fst (fst j) in
  match load_date (te_work_date te) with
  | DataError msg => DataError msg
  | Loaded d =>
      Loaded (mk_approvals_row
                (te_id te) (te_person_id te)
                (option_map pe_name (snd (fst j)))
                d (te_hours te) (te_notes te) (te_status te)
                (match snd j with Some p => pj_code p | None => None end)
                (option_map pj_name (snd j)))
  end.

(** [fetchall()]: the rows in order, the first one that does not load
    raises. *)
Fixpoint load_rows {A B : Type} (load : A -> loaded B) (l : list A)
  : loaded (list B) :=
  match l with
  | [] => Loaded []
  | a :: l' =>
      match load a with
      | DataError msg => DataError msg
      | Loaded b =>
          match load_rows load l' with
          | DataError msg => DataError msg
          | Loaded bs => Loaded (b :: bs)
          end
      end
  end.

(** The query of GET /approvals:
    [SELECT ... FROM v2_time_entries te
       LEFT JOIN v2_people pe ON pe.id = te.person_id
       LEFT JOIN v2_projects p ON p.id = te.project_id
      WHERE te.status='submitted'
      ORDER BY te.person_id, te.work_date, te.id] *)
Definition approvals_joined (conn : database) : list approvals_join :=
  order_by by_person_date_id
    (filter (fun j => (te_status (fst (fst j)) =? "submitted")%string)
       (left_join (fun j p => match te_project_id (fst j) with
                              | Some k => pj_id p =? k
                              | None => false
                              end)
          (left_join (fun te pe => pe_id pe =? te_person_id te)
                     (v2_time_entries conn) (v2_people conn))
          (v2_projects conn))).

(** GET /approvals: the rows of the context handed to approvals.html, as
    [fetchall()] loads them. *)
Definition approvals (conn : database) : loaded (list approvals_row) :=
  load_rows load_approvals_row (approvals_joined conn).

Section Admin.

(** Python's [str.strip()]. *)
Variable strip : string -> string.

(** POST /people/add:
    [INSERT INTO v2_people(name, email) VALUES (%s, %s)
     ON CONFLICT (email) DO UPDATE SET name=EXCLUDED.name] with
    [(name.strip(), email)].  The id is drawn from the sequence before the
    conflict is looked for; a NULL email conflicts with nothing. *)
Definition people_add (conn : database) (name : string)
    (email : option string) : database * result other_response :=
  let name := strip name in
  let id := v2_people_id_seq conn + 1 in
  let conflict (p : v2_people_row) : bool :=
    match email, pe_email p with
    | Some e, Some e' => (e' =? e)%string
    | _, _ => false
    end in
  if existsb conflict (v2_people conn) then
    (mk_database
       (map (fun p => if conflict p
                      then mk_person (pe_id p) name (pe_email p) else p)
            (v2_people conn))
       (v2_projects conn) (v2_time_entries conn)
       id (v2_projects_id_seq conn) (v2_time_entries_id_seq conn),
     Ok (SeeOther people_url))
  else if existsb (fun p => pe_id p =? id) (v2_people conn) then
    (mk_database (v2_people conn) (v2_projects conn) (v2_time_entries conn)
                 id (v2_projects_id_seq conn) (v2_time_entries_id_seq conn),
     Raise (UniqueViolation "v2_people_pkey"))
  else
    (mk_database (v2_people conn ++ [mk_person id name email])
                 (v2_projects conn) (v2_time_entries conn)
                 id (v2_projects_id_seq conn) (v2_time_entries_id_seq conn),
     Ok (SeeOther people_url)).

(** POST /projects/add:
    [INSERT INTO v2_projects(code, name, is_active)
     VALUES (NULLIF(%s,''), %s, TRUE)
     ON CONFLICT (code) DO UPDATE SET name=EXCLUDED.name, is_active=TRUE]
    with [(code, name.strip())]. *)
Definition projects_add (conn : database) (code : option string)
    (name : string) : database * result other_response :=
  let name := strip name in
  let code := match code with
              | Some c => if (c =? "")%string then None else Some c
              | None => None
              end in
  let id := v2_projects_id_seq conn + 1 in
  let conflict (p : v2_projects_row) : bool :=
    match code, pj_code p with
    | Some c, Some c' => (c' =? c)%string
    | _, _ => false
    end in
  if existsb conflict (v2_projects conn) then
    (mk_database
       (v2_people conn)
       (map (fun p => if conflict p
                      then mk_project (pj_id p) (pj_code p) name true else p)
            (v2_projects conn))
       (v2_time_entries conn)
       (v2_people_id_seq conn) id (v2_time_entries_id_seq conn),
     Ok (SeeOther projects_url))
  else if existsb (fun p => pj_id p =? id) (v2_projects conn) then
    (mk_database (v2_people conn) (v2_projects conn) (v2_time_entries conn)
                 (v2_people_id_seq conn) id (v2_time_entries_id_seq conn),
     Raise (UniqueViolation "v2_projects_pkey"))
  else
    (mk_database (v2_people conn)
                 (v2_projects conn ++ [mk_project id code name true])
                 (v2_time_entries conn)
                 (v2_people_id_seq conn) id (v2_time_entries_id_seq conn),
     Ok (SeeOther projects_url)).

End Admin.

(** POST /people/delete/{person_id}: [DELETE FROM v2_people WHERE id=%s];
    ON DELETE CASCADE removes the time entries of every deleted person. *)
Definition people_delete (conn : database) (person_id : Z)
  : database * result other_response :=
  let deleted := filter (fun p => pe_id p =? person_id) (v2_people conn) in
  (mk_database
     (filter (fun p => negb (pe_id p =? person_id)) (v2_people conn))
     (v2_projects conn)
     (filter (fun e => negb (existsb (fun p => pe_id p =? te_person_id e)
                                     deleted))
             (v2_time_entries conn))
     (v2_people_id_seq conn) (v2_projects_id_seq conn)
     (v2_time_entries_id_seq conn),
   Ok (SeeOther people_url)).

(** POST /projects/toggle/{project_id}:
    [UPDATE v2_projects SET is_active = NOT is_active WHERE id=%s] *)
Definition projects_toggle (conn : database) (project_id : Z)
  : database * result other_response :=
  (mk_database
     (v2_people conn)
     (map (fun p => if pj_id p =? project_id
                    then mk_project (pj_id p) (pj_code p) (pj_name p)
                                    (negb (pj_is_active p))
                    else p)
          (v2_projects conn))
     (v2_time_entries conn)
     (v2_people_id_seq conn) (v2_projects_id_seq conn)
     (v2_time_entries_id_seq conn),
   Ok (SeeOther projects_url)).

(** POST /projects/delete/{project_id}: [DELETE FROM v2_projects WHERE
    id=%s]; ON DELETE SET NULL clears the project_id of the time entries
    of every deleted project. *)
Definition projects_delete (conn : database) (project_id : Z)
  : database * result other_response :=
  let deleted := filter (fun p => pj_id p =? project_id) (v2_projects conn) in
  (mk_database
     (v2_people conn)
     (filter (fun p => negb (pj_id p =? project_id)) (v2_projects conn))
     (map (fun e =>
             match te_project_id e with
             | Some k =>
                 if existsb (fun p => pj_id p =? k) deleted
                 then mk_entry (te_id e) (te_person_id e) None
                               (te_work_date e) (te_hours e) (te_notes e)
                               (te_status e)
                 else e
             | None => e
             end)
          (v2_time_entries conn))
     (v2_people_id_seq conn) (v2_projects_id_seq conn)
     (v2_time_entries_id_seq conn),
   Ok (SeeOther projects_url)).

(** POST /v2/reset: the three tables are dropped with their sequences,
    then [ensure_v2_schema()] creates and seeds them again. *)
Definition v2_reset (conn : database) : database * result other_response :=
  (ensure_v2_schema empty_database,
   Ok (PlainTextResponse "v2 schema reset complete")).

Section AllHandlers.

Variable date_in : string -> result Z.
Variable strip : string -> string.

(** Every request that writes, and the states the application reaches
    from the database it sets up at import. *)
Inductive any_request : Type :=
| workflow (rq : request)
| add_person (name : string) (email : option string)
| delete_person (person_id : Z)
| add_project (code : option string) (name : string)
| toggle_project (project_id : Z)
| delete_project (project_id : Z)
| reset.

Definition handle_any (conn : database) (rq : any_request) : database :=
  match rq with
  | workflow rq => fst (handle date_in conn rq)
  | add_person name email => fst (people_add strip conn name email)
  | delete_person p => fst (people_delete conn p)
  | add_project code name => fst (projects_add strip conn code name)
  | toggle_project p => fst (projects_toggle conn p)
  | delete_project p => fst (projects_delete conn p)
  | reset => fst (v2_reset conn)
  end.

Inductive reachable_any : database -> Prop :=
| reachable_any_init : reachable_any (ensure_v2_schema empty_database)
| reachable_any_step conn rq :
    reachable_any conn -> reachable_any (handle_any conn rq).

End AllHandlers.

(* ================================================================== *)
(** ** ISO-8601 week numbering, in the words of the specification *)

(** The year's first Thursday: the first day from 1 January on whose
    weekday is 3 (Monday is 0). *)
Definition first_thursday (year : Z) : Z :=
  let jan1 := _ymd2ord year 1 1 in
  jan1 + (3 - (jan1 + 6) mod 7) mod 7.

(** Week 1 is the week with the year's first Thursday, so a week belongs to
    the year its Thursday falls in: the weeks of a year are those from its
    first Thursday up to the first Thursday of the next year. *)
Definition iso_weeks_in_year (year : Z) : Z :=
  (first_thursday (year + 1) - first_thursday year) / 7.

Definition valid_year_week (year week : Z) : Prop :=
  (MINYEAR <= year <= MAXYEAR) /\ (1 <= week <= iso_weeks_in_year year).

(** Each date is the day after the one before it. *)
Definition consecutive (days : list date) : Prop :=
  forall i d d', nth_error days i = Some d -> nth_error days (S i) = Some d' ->
                 toordinal d' = toordinal d + 1.

(* ================================================================== *)
(** ** Vocabulary of the workflow properties *)

(** The three lifecycle states. *)
Definition enumerated_status (s : string) : Prop :=
  s = "draft" \/ s = "submitted" \/ s = "approved".

Definition statuses_enumerated (conn : database) : Prop :=
  Forall (fun e => enumerated_status (te_status e)) (v2_time_entries conn).

(** [e'] is [e] with the status [s] and every other column as it was. *)
Definition moved_to (s : string) (e e' : v2_time_entries_row) : Prop :=
  e' = mk_entry (te_id e) (te_person_id e) (te_project_id e) (te_work_date e)
                (te_hours e) (te_notes e) s.

(** Everything of the database but the rows of v2_time_entries is the same
    in [conn] and [conn']. *)
Definition same_but_entries (conn conn' : database) : Prop :=
  v2_people conn' = v2_people conn
  /\ v2_projects conn' = v2_projects conn
  /\ v2_people_id_seq conn' = v2_people_id_seq conn
  /\ v2_projects_id_seq conn' = v2_projects_id_seq conn
  /\ v2_time_entries_id_seq conn' = v2_time_entries_id_seq conn.

(** The running total of a list of hours: [0.0 + h1 + h2 + ...] in
    binary64, every [h] turned into a float first. *)
Definition running_total (hours : list numeric) : float :=
  fold_left (fun total h => float_add total (float_hours_or_0 h)) hours
            (S754_zero false).

(** The order of [ORDER BY work_date, id] on the entries themselves. *)
Definition entries_by_work_date_id (a b : v2_time_entries_row) : bool :=
  (te_work_date a <? te_work_date b)
  || ((te_work_date a =? te_work_date b) && (te_id a <=? te_id b)).

(** The columns of an entry a row of the page shows, the work date as a
    Python date. *)
Definition entry_columns (e : v2_time_entries_row)
  : Z * date * numeric * option string * string :=
  (te_id e, fromordinal (te_work_date e), te_hours e, te_notes e, te_status e).

Definition row_columns (r : week_row)
  : Z * date * numeric * option string * string :=
  (r_id r, r_work_date r, r_hours r, r_notes r, r_status r).

(** The status hint the specification derives from the entries in range. *)
Definition aggregate_status (entries : list v2_time_entries_row) : string :=
  match entries with
  | [] => "draft"
  | _ =>
      if forallb (fun e => te_status e =? "approved")%string entries
      then "approved"
      else if existsb (fun e => te_status e =? "submitted")%string entries
           then "submitted"
           else "draft"
  end.

(** Every id in v2_time_entries was handed out by the table's sequence. *)
Definition ids_from_sequence (conn : database) : Prop :=
  Forall (fun e => te_id e <= v2_time_entries_id_seq conn)
         (v2_time_entries conn).

(** What makes the INSERT of [time_add] fail: a work date that is no
    date; a person_id or project_id that is no BIGINT; hours that do not
    fit the column (an infinity, or 1000 and more once rounded); hours
    that are negative once rounded; a person_id no person has; a
    project_id no project has. *)
Definition insert_rejected (date_in : string -> result Z) (conn : database)
    (person_id : Z) (work_date : string) (project_id : option Z)
    (hours : float) : Prop :=
  (exists e, date_in work_date = Raise e)
  \/ bigint person_id = false
  \/ (exists k, project_id = Some k /\ bigint k = false)
  \/ (exists e, float8_to_numeric_5_2 hours = Raise e)
  \/ (exists h, float8_to_numeric_5_2 hours = Ok (Num h) /\ h < 0)
  \/ ~ (exists p, In p (v2_people conn) /\ pe_id p = person_id)
  \/ (exists k, project_id = Some k
                /\ ~ exists p, In p (v2_projects conn) /\ pj_id p = k).

(** A reader of dates that knows one week, for the examples. *)
Definition demo_date_in (s : string) : result Z :=
  if (s =? "2024-01-01")%string then Ok (_ymd2ord 2024 1 1)
  else if (s =? "2024-01-02")%string then Ok (_ymd2ord 2024 1 2)
  else if (s =? "2024-01-03")%string then Ok (_ymd2ord 2024 1 3)
  else if (s =? "2024-02-30")%string then Raise DatetimeFieldOverflow
  else Raise InvalidDatetimeFormat.

(** The floats of the examples: 8.0, 6.0, 2.0, and the floats nearest to
    0.1, 0.2 and 0.3. *)
Definition float_8 : float := float_of_int 8.
Definition float_6 : float := float_of_int 6.
Definition float_2 : float := float_of_int 2.
Definition float_0_1 : float := float_of_decimal (Num 10).
Definition float_0_3 : float := float_of_decimal (Num 30).

(** The float nearest to a number of thousandths, as Python reads the
    literal. *)
Definition float_of_thousandths (n : Z) : float :=
  SFdiv 53 1024 (float_of_int n) (float_of_int 1000).

(** The week of the specification's example: person 1 enters 6 hours and
    2 hours on 2024-01-02 and submits the week, then the first entry is
    approved. *)
Definition example_week : database :=
  let c0 := ensure_v2_schema empty_database in
  let c1 := fst (time_add demo_date_in c0 1 "2024-01-02" (Some 1) float_6 None
                          2024 1) in
  let c2 := fst (time_add demo_date_in c1 1 "2024-01-02" None float_2 None
                          2024 1) in
  let c3 := fst (time_submit_week c2 1 2024 1) in
  fst (approvals_approve c3 1).


(** Three submitted entries, entered in another order than that of the
    approvals page: person 2 on the Monday, then person 1 on the Tuesday
    and on the Monday. *)
Definition example_queue : database :=
  let c0 := ensure_v2_schema empty_database in
  let c1 := fst (people_add (fun s => s) c0 "Grace Hopper" None) in
  let c2 := fst (time_add demo_date_in c1 2 "2024-01-01" None float_2 None
                          2024 1) in
  let c3 := fst (time_add demo_date_in c2 1 "2024-01-02" None float_6 None
                          2024 1) in
  let c4 := fst (time_add demo_date_in c3 1 "2024-01-01" (Some 1) float_8 None
                          2024 1) in
  let c5 := fst (time_submit_week c4 1 2024 1) in
  fst (time_submit_week c5 2 2024 1).

(** Two people are added and the seeded one is deleted: the people are 2
    and 3. *)
Definition example_people : database :=
  let c0 := ensure_v2_schema empty_database in
  let c1 := fst (people_add (fun s => s) c0 "Grace Hopper" None) in
  let c2 := fst (people_add (fun s => s) c1 "Alan Turing" None) in
  fst (people_delete c2 1).

(* ================================================================== *)
(** ** Vocabulary of the schema's constraints *)

(** The non-NULL values of a nullable column. *)
Definition non_null {A B : Type} (col : A -> option B) (rows : list A)
  : list B :=
  flat_map (fun r => match col r with Some v => [v] | None => [] end) rows.

(** PRIMARY KEY of the three tables, with every id handed out by the
    table's sequence, and UNIQUE of email and code (NULLs apart). *)
Definition keys_unique (conn : database) : Prop :=
  NoDup (map pe_id (v2_people conn))
  /\ Forall (fun i => i <= v2_people_id_seq conn) (map pe_id (v2_people conn))
  /\ NoDup (map pj_id (v2_projects conn))
  /\ Forall (fun i => i <= v2_projects_id_seq conn)
            (map pj_id (v2_projects conn))
  /\ NoDup (map te_id (v2_time_entries conn))
  /\ Forall (fun i => i <= v2_time_entries_id_seq conn)
            (map te_id (v2_time_entries conn))
  /\ NoDup (non_null pe_email (v2_people conn))
  /\ NoDup (non_null pj_code (v2_projects conn)).

(** REFERENCES v2_people(id) and REFERENCES v2_projects(id). *)
Definition references_hold (conn : database) : Prop :=
  Forall (fun e =>
            In (te_person_id e) (map pe_id (v2_people conn))
            /\ forall k, te_project_id e = Some k ->
                         In k (map pj_id (v2_projects conn)))
         (v2_time_entries conn).

(** NUMERIC(5,2) and CHECK (hours >= 0): NaN, or from 0.00 to 999.99. *)
Definition hours_checked (conn : database) : Prop :=
  Forall (fun e => match te_hours e with
                   | Num h => 0 <= h < 100000
                   | NumericNaN => True
                   end)
         (v2_time_entries conn).

(** The work date of every submitted entry is a day Python's [date] holds. *)
Definition submitted_loadable (conn : database) : Prop :=
  Forall (fun e => te_status e = "submitted" ->
                   1 <= te_work_date e <= _MAXORDINAL)
         (v2_time_entries conn).

(** A date object: what [date(year, month, day)] accepts. *)
Definition date_object (d : date) : Prop :=
  MINYEAR <= year d <= MAXYEAR
  /\ 1 <= month d <= 12
  /\ 1 <= day d <= _days_in_month (year d) (month d).

(** The columns of an entry a row of the approvals page shows. *)
Definition approvals_columns (r : approvals_row)
  : Z * Z * date * numeric * option string * string :=
  (a_id r, a_person_id r, a_work_date r, a_hours r, a_notes r, a_status r).

Definition submitted_columns (e : v2_time_entries_row)
  : Z * Z * date * numeric * option string * string :=
  (te_id e, te_person_id e, fromordinal (te_work_date e), te_hours e,
   te_notes e, te_status e).

(* ================================================================== *)
(** ** Auxiliary definitions of the calendar proofs *)

(** The tail of [_ord2ymd]: month and day from the day number [n] within the
    year (from 0) and the leap flag. *)
Definition month_day (n : Z) (leapyear : bool) : Z * Z :=
  let month := Z.shiftr (n + 50) 5 in
  let preceding :=
    idx _DAYS_BEFORE_MONTH month + b2z ((2 <? month) && leapyear) in
  let '(month, preceding) :=
    if n <? preceding
    then (month - 1,
          preceding - (idx _DAYS_IN_MONTH (month - 1)
                       + b2z ((month - 1 =? 2) && leapyear)))
    else (month, preceding) in
  (month, n - preceding + 1).

(** A (month, day) pair that exists in a year with the given leap flag. *)
Definition valid_md (leap : bool) (m d : Z) : bool :=
  (1 <=? m) && (m <=? 12) && (1 <=? d)
  && (d <=? (if (m =? 2) && leap then 29 else idx _DAYS_IN_MONTH m)).

Definition month_day_check (leap : bool) (n : Z) : bool :=
  let '(m, d) := month_day n leap in
  valid_md leap m d
  && (idx _DAYS_BEFORE_MONTH m + b2z ((2 <? m) && leap) + d =? n + 1).

Definition upto (k : nat) : list Z := map Z.of_nat (seq 0 k).

(* ================================================================== *)
(** ** The calendar: ordinals and (year, month, day) *)

Section Calendar.

Lemma in_upto k n : 0 <= n < Z.of_nat k -> In n (upto k).
Proof.
  intros H. unfold upto. rewrite <- (Z2Nat.id n) by lia.
  apply in_map, in_seq. lia.
Qed.

Lemma month_day_checked :
  forallb (month_day_check false) (upto 365) = true
  /\ forallb (month_day_check true) (upto 366) = true.
Proof. split; vm_compute; reflexivity. Qed.

Lemma month_day_ok leap n :
  0 <= n < 365 + b2z leap -> month_day_check leap n = true.
Proof.
  intros H. destruct month_day_checked as [H0 H1].
  destruct leap; cbn [b2z] in H.
  - rewrite forallb_forall in H1. apply H1, in_upto. lia.
  - rewrite forallb_forall in H0. apply H0, in_upto. lia.
Qed.

Lemma is_leap_spec y :
  _is_leap y = true <->
  y mod 4 = 0 /\ (y mod 100 <> 0 \/ y mod 400 = 0).
Proof.
  unfold _is_leap.
  rewrite andb_true_iff, orb_true_iff, negb_true_iff, !Z.eqb_eq, Z.eqb_neq.
  tauto.
Qed.

Lemma days_before_year_succ y :
  _days_before_year (y + 1) = _days_before_year y + 365 + b2z (_is_leap y).
Proof.
  unfold _days_before_year. cbv zeta.
  replace (y + 1 - 1) with y by lia.
  destruct (_is_leap y) eqn:E; cbn [b2z].
  - apply is_leap_spec in E. Z.div_mod_to_equations. lia.
  - assert (~ (y mod 4 = 0 /\ (y mod 100 <> 0 \/ y mod 400 = 0)))
      by (rewrite <- is_leap_spec; congruence).
    Z.div_mod_to_equations. lia.
Qed.

Lemma days_before_year_cycle n400 n100 n4 n1 :
  0 <= n100 <= 3 -> 0 <= n4 <= 24 -> 0 <= n1 <= 3 ->
  _days_before_year (n400 * 400 + 1 + (n100 * 100 + n4 * 4 + n1))
  = 146097 * n400 + 36524 * n100 + 1461 * n4 + 365 * n1.
Proof.
  intros. unfold _days_before_year. cbv zeta.
  Z.div_mod_to_equations. lia.
Qed.

Lemma is_leap_cycle n400 n100 n4 n1 :
  0 <= n100 <= 3 -> 0 <= n4 <= 24 -> 0 <= n1 <= 3 ->
  _is_leap (n400 * 400 + 1 + (n100 * 100 + n4 * 4 + n1))
  = (n1 =? 3) && (negb (n4 =? 24) || (n100 =? 3)).
Proof.
  intros H100 H4 H1.
  apply eq_true_iff_eq. rewrite is_leap_spec.
  rewrite andb_true_iff, orb_true_iff, negb_true_iff, !Z.eqb_eq, Z.eqb_neq.
  Z.div_mod_to_equations. lia.
Qed.

Lemma ord2ymd_spec n :
  let '(y, m, d) := _ord2ymd n in
  _ymd2ord y m d = n /\ valid_md (_is_leap y) m d = true.
Proof.
  unfold _ord2ymd, _DI400Y, _DI100Y, _DI4Y. cbv zeta.
  set (a := n - 1).
  set (n400 := a / 146097). set (r1 := a mod 146097).
  set (n100 := r1 / 36524). set (r2 := r1 mod 36524).
  set (n4 := r2 / 1461). set (r3 := r2 mod 1461).
  set (n1 := r3 / 365). set (r4 := r3 mod 365).
  assert (Ha : a = 146097 * n400 + r1 /\ 0 <= r1 < 146097)
    by (subst n400 r1; Z.div_mod_to_equations; lia).
  assert (H1 : r1 = 36524 * n100 + r2 /\ 0 <= r2 < 36524)
    by (subst n100 r2; Z.div_mod_to_equations; lia).
  assert (H2 : r2 = 1461 * n4 + r3 /\ 0 <= r3 < 1461)
    by (subst n4 r3; Z.div_mod_to_equations; lia).
  assert (H3 : r3 = 365 * n1 + r4 /\ 0 <= r4 < 365)
    by (subst n1 r4; Z.div_mod_to_equations; lia).
  clearbody n400 r1 n100 r2 n4 r3 n1 r4.
  assert (B100 : 0 <= n100 <= 4) by lia.
  assert (B4 : 0 <= n4 <= 24) by lia.
  assert (B1 : 0 <= n1 <= 4) by lia.
  destruct ((n1 =? 4) || (n100 =? 4)) eqn:Elast.
  - (* the last day of a leap year *)
    rewrite orb_true_iff, !Z.eqb_eq in Elast.
    assert (Hy : n400 * 400 + 1 + (n100 * 100 + n4 * 4 + n1) - 1
                 = n400 * 400 + 1 + ((n100 * 100 + n4 * 4 + n1 - 4) / 100 * 100
                                     + (n4 * 4 + n1 - 4) mod 100 / 4 * 4 + 3)).
    { Z.div_mod_to_equations. lia. }
    rewrite Hy.
    set (m100 := (n100 * 100 + n4 * 4 + n1 - 4) / 100).
    set (m4 := (n4 * 4 + n1 - 4) mod 100 / 4).
    assert (Hm100 : 0 <= m100 <= 3) by (subst m100; Z.div_mod_to_equations; lia).
    assert (Hm4 : 0 <= m4 <= 24) by (subst m4; Z.div_mod_to_equations; lia).
    unfold _ymd2ord, _days_before_month.
    rewrite is_leap_cycle, days_before_year_cycle by lia.
    replace (3 =? 3) with true by reflexivity.
    assert (Hleap : negb (m4 =? 24) || (m100 =? 3) = true).
    { rewrite orb_true_iff, negb_true_iff, Z.eqb_neq, Z.eqb_eq.
      subst m4 m100. Z.div_mod_to_equations. lia. }
    rewrite Hleap.
    change (idx _DAYS_BEFORE_MONTH 12) with 334.
    change (b2z ((2 <? 12) && (true && true))) with 1.
    split; [ | reflexivity ].
    subst m4 m100 a. Z.div_mod_to_equations. lia.
  - rewrite orb_false_iff, !Z.eqb_neq in Elast.
    set (leap := (n1 =? 3) && (negb (n4 =? 24) || (n100 =? 3))).
    assert (Hr4 : 0 <= r4 < 365 + b2z leap) by (destruct leap; cbn; lia).
    pose proof (month_day_ok leap r4 Hr4) as Hmd.
    unfold month_day_check, month_day in Hmd. cbv zeta in Hmd.
    match goal with
    | |- context [if r4 <? ?p then _ else _] => destruct (r4 <? p)
    end;
      unfold _ymd2ord, _days_before_month;
      rewrite is_leap_cycle, days_before_year_cycle by lia;
      fold leap;
      apply andb_true_iff in Hmd; destruct Hmd as [Hv He];
      apply Z.eqb_eq in He; (split; [ subst a; lia | exact Hv ]).
Qed.

Lemma toordinal_fromordinal n : toordinal (fromordinal n) = n.
Proof.
  unfold toordinal, fromordinal. pose proof (ord2ymd_spec n) as H.
  destruct (_ord2ymd n) as [[y m] d]. cbn. apply H.
Qed.

Lemma ymd2ord_jan1 y : _ymd2ord y 1 1 = _days_before_year y + 1.
Proof.
  unfold _ymd2ord, _days_before_month.
  change (idx _DAYS_BEFORE_MONTH 1) with 0.
  change ((2 <? 1) && _is_leap y) with false. cbn [b2z]. lia.
Qed.

Lemma days_before_year_mono y1 y2 :
  y1 <= y2 -> _days_before_year y1 <= _days_before_year y2.
Proof.
  intros H. unfold _days_before_year. cbv zeta.
  Z.div_mod_to_equations. lia.
Qed.

Ltac month_cases m Hlo Hhi :=
  assert (m = 1 \/ m = 2 \/ m = 3 \/ m = 4 \/ m = 5 \/ m = 6 \/ m = 7
          \/ m = 8 \/ m = 9 \/ m = 10 \/ m = 11 \/ m = 12) as Hcases by lia;
  clear Hlo Hhi;
  repeat (destruct Hcases as [Hcases | Hcases]; [ subst m | ]);
  [ .. | subst m ].

Ltac eval_idx :=
  repeat match goal with
    | |- context [idx ?l ?k] =>
        let v := eval vm_compute in (idx l k) in
        progress change (idx l k) with v
    | H : context [idx ?l ?k] |- _ =>
        let v := eval vm_compute in (idx l k) in
        progress change (idx l k) with v in H
    end.

Lemma valid_md_inv leap m d :
  valid_md leap m d = true ->
  1 <= m <= 12 /\ 1 <= d
  /\ d <= (if (m =? 2) && leap then 29 else idx _DAYS_IN_MONTH m).
Proof.
  unfold valid_md. rewrite !andb_true_iff, !Z.leb_le. tauto.
Qed.

(** The day number within the year, from 1. *)
Lemma day_of_year_bounds leap m d :
  valid_md leap m d = true ->
  1 <= idx _DAYS_BEFORE_MONTH m + b2z ((2 <? m) && leap) + d <= 365 + b2z leap.
Proof.
  intros H. apply valid_md_inv in H. destruct H as ([Hlo Hhi] & Hd & Hdim).
  month_cases m Hlo Hhi; destruct leap; eval_idx;
    cbn -[Z.add] in Hdim |- *; lia.
Qed.

Lemma day_of_year_lex leap m1 d1 m2 d2 :
  valid_md leap m1 d1 = true -> valid_md leap m2 d2 = true ->
  idx _DAYS_BEFORE_MONTH m1 + b2z ((2 <? m1) && leap) + d1
  <= idx _DAYS_BEFORE_MONTH m2 + b2z ((2 <? m2) && leap) + d2 ->
  m1 < m2 \/ (m1 = m2 /\ d1 <= d2).
Proof.
  intros H1 H2. apply valid_md_inv in H1, H2.
  destruct H1 as ([Hlo1 Hhi1] & Hd1 & Hdim1).
  destruct H2 as ([Hlo2 Hhi2] & Hd2 & Hdim2).
  month_cases m1 Hlo1 Hhi1; month_cases m2 Hlo2 Hhi2;
    destruct leap; eval_idx; cbn -[Z.add] in Hdim1, Hdim2 |- *; lia.
Qed.

Lemma ymd_lex_le y1 m1 d1 y2 m2 d2 :
  valid_md (_is_leap y1) m1 d1 = true ->
  valid_md (_is_leap y2) m2 d2 = true ->
  _ymd2ord y1 m1 d1 <= _ymd2ord y2 m2 d2 ->
  date_leb (mkdate y1 m1 d1) (mkdate y2 m2 d2) = true.
Proof.
  intros V1 V2 Hle. unfold date_leb. cbn [year month day].
  unfold _ymd2ord, _days_before_month in Hle.
  pose proof (day_of_year_bounds _ _ _ V1) as B1.
  pose proof (day_of_year_bounds _ _ _ V2) as B2.
  destruct (Z.lt_trichotomy y1 y2) as [Hlt | [Heq | Hgt]].
  - apply Z.ltb_lt in Hlt. now rewrite Hlt.
  - subst y2.
    destruct (day_of_year_lex _ _ _ _ _ V1 V2) as [Hm | [Hm Hd]]; [ lia | | ].
    + apply Z.ltb_lt in Hm. rewrite Hm. now rewrite Z.eqb_refl, orb_true_r.
    + subst m2. apply Z.leb_le in Hd.
      now rewrite Hd, !Z.eqb_refl, !orb_true_r.
  - exfalso.
    pose proof (days_before_year_mono (y2 + 1) y1 ltac:(lia)) as Hm.
    rewrite days_before_year_succ in Hm. lia.
Qed.

Lemma fromordinal_mono a b :
  a <= b -> date_leb (fromordinal a) (fromordinal b) = true.
Proof.
  intros H. unfold fromordinal.
  pose proof (ord2ymd_spec a) as Ha. pose proof (ord2ymd_spec b) as Hb.
  destruct (_ord2ymd a) as [[y1 m1] d1], (_ord2ymd b) as [[y2 m2] d2].
  destruct Ha as [Ha Va], Hb as [Hb Vb].
  apply ymd_lex_le; auto. lia.
Qed.

Lemma first_thursday_spec y :
  _ymd2ord y 1 1 <= first_thursday y < _ymd2ord y 1 1 + 7
  /\ (first_thursday y + 6) mod 7 = 3.
Proof.
  unfold first_thursday. cbv zeta. Z.div_mod_to_equations. lia.
Qed.

Example first_thursday_2024 :
  fromordinal (first_thursday 2024) = mkdate 2024 1 4
  /\ iso_weeks_in_year 2024 = 52 /\ iso_weeks_in_year 2020 = 53.
Proof. vm_compute. repeat split. Qed.

Lemma isoweek1monday_thursday y : _isoweek1monday y + 3 = first_thursday y.
Proof.
  unfold _isoweek1monday, first_thursday. cbv zeta.
  destruct (3 <? _) eqn:E; [ apply Z.ltb_lt in E | apply Z.ltb_ge in E ];
    Z.div_mod_to_equations; lia.
Qed.

Lemma iso_weeks_in_year_cases y :
  iso_weeks_in_year y
  = if (_ymd2ord y 1 1 mod 7 =? 4)
       || ((_ymd2ord y 1 1 mod 7 =? 3) && _is_leap y)
    then 53 else 52.
Proof.
  unfold iso_weeks_in_year, first_thursday. cbv zeta.
  rewrite !ymd2ord_jan1, days_before_year_succ.
  set (j := _days_before_year y). clearbody j.
  destruct (_is_leap y); cbn [b2z];
    destruct (_ =? 4) eqn:E4; destruct (_ =? 3) eqn:E3; cbn [orb andb];
    rewrite ?Z.eqb_eq, ?Z.eqb_neq in E4, E3;
    Z.div_mod_to_equations; lia.
Qed.

Lemma iso_weeks_in_year_range y : 52 <= iso_weeks_in_year y <= 53.
Proof.
  rewrite iso_weeks_in_year_cases. destruct (_ || _); lia.
Qed.

Lemma isoweek1monday_succ y :
  _isoweek1monday (y + 1) = _isoweek1monday y + 7 * iso_weeks_in_year y.
Proof.
  pose proof (isoweek1monday_thursday y).
  pose proof (isoweek1monday_thursday (y + 1)).
  pose proof (first_thursday_spec y) as [_ H3].
  pose proof (first_thursday_spec (y + 1)) as [_ H4].
  unfold iso_weeks_in_year. Z.div_mod_to_equations. lia.
Qed.

Lemma isoweek1monday_bounds y :
  _days_before_year y - 2 <= _isoweek1monday y <= _days_before_year y + 4.
Proof.
  unfold _isoweek1monday. cbv zeta. rewrite ymd2ord_jan1.
  destruct (3 <? _) eqn:E; [ apply Z.ltb_lt in E | apply Z.ltb_ge in E ];
    Z.div_mod_to_equations; lia.
Qed.

Lemma isoweek1monday_positive y : MINYEAR <= y -> 1 <= _isoweek1monday y.
Proof.
  unfold MINYEAR, _isoweek1monday. cbv zeta. rewrite ymd2ord_jan1.
  unfold _days_before_year. cbv zeta. intros Hy.
  destruct (3 <? _) eqn:E; [ apply Z.ltb_lt in E | apply Z.ltb_ge in E ];
    Z.div_mod_to_equations; lia.
Qed.

Lemma isoweek1monday_monday y : (_isoweek1monday y + 6) mod 7 = 0.
Proof.
  unfold _isoweek1monday. cbv zeta.
  destruct (3 <? _) eqn:E; [ apply Z.ltb_lt in E | apply Z.ltb_ge in E ];
    Z.div_mod_to_equations; lia.
Qed.

End Calendar.

(* ================================================================== *)
(** ** The week calculator *)

Section WeekDates.

Lemma fromisocalendar_monday year week :
  valid_year_week year week ->
  fromisocalendar year week 1
  = Ok (fromordinal (_isoweek1monday year + (week - 1) * 7)).
Proof.
  intros [Hy Hw]. unfold MINYEAR, MAXYEAR in Hy.
  rewrite iso_weeks_in_year_cases in Hw.
  unfold fromisocalendar, _isoweek_to_gregorian, MINYEAR, MAXYEAR.
  assert (E1 : (1 <=? year) && (year <=? 9999) = true)
    by (apply andb_true_iff; split; apply Z.leb_le; lia).
  rewrite E1. cbn [negb].
  assert (E2 : (if negb ((0 <? week) && (week <? 53))
                then if week =? 53
                     then if (_ymd2ord year 1 1 mod 7 =? 4)
                             || ((_ymd2ord year 1 1 mod 7 =? 3)
                                 && _is_leap year)
                          then false else true
                     else true
                else false) = false).
  { destruct (Z.ltb_spec 0 week); [ | lia ].
    destruct (Z.ltb_spec week 53); cbn [andb negb]; [ reflexivity | ].
    destruct (Z.eqb_spec week 53);
      destruct (_ || _); try reflexivity; lia. }
  cbv zeta. rewrite E2.
  change (negb ((0 <? 1) && (1 <? 8))) with false. cbn [bind].
  replace (_isoweek1monday year + ((week - 1) * 7 + (1 - 1)))
    with (_isoweek1monday year + (week - 1) * 7) by lia.
  unfold fromordinal.
  destruct (_ord2ymd _) as [[y m] d]. reflexivity.
Qed.

Lemma add_days_fromordinal o i :
  0 < o + i <= _MAXORDINAL ->
  add_days (fromordinal o) i = Ok (fromordinal (o + i)).
Proof.
  intros H. unfold add_days. cbv zeta. rewrite toordinal_fromordinal.
  destruct (Z.ltb_spec 0 (o + i)); [ | lia ].
  destruct (Z.leb_spec (o + i) _MAXORDINAL); [ reflexivity | lia ].
Qed.

(** The seven dates from the ordinal [o] on. *)
Lemma week_from_ordinal o :
  0 < o -> o + 6 <= _MAXORDINAL ->
  comprehension (fun i => add_days (fromordinal o) i) range7
  = Ok (map (fun i => fromordinal (o + i)) range7).
Proof.
  intros Hlo Hhi. unfold range7. cbn [comprehension map].
  rewrite !add_days_fromordinal by lia. reflexivity.
Qed.

Lemma last_week_fits year week :
  valid_year_week year week -> (year, week) <> (9999, 52) ->
  _isoweek1monday year + (week - 1) * 7 + 6 <= _MAXORDINAL.
Proof.
  intros [Hy Hw] Hne. unfold MINYEAR, MAXYEAR in Hy.
  pose proof (isoweek1monday_succ year) as Hs.
  destruct (Z.eq_dec year 9999) as [-> | Hy'].
  - assert (E : iso_weeks_in_year 9999 = 52) by (vm_compute; reflexivity).
    assert (week <> 52) by congruence.
    assert (E1 : _isoweek1monday 9999 = 3651698) by (vm_compute; reflexivity).
    rewrite E1. change _MAXORDINAL with 3652059. lia.
  - pose proof (isoweek1monday_bounds (year + 1)) as Hb.
    pose proof (days_before_year_mono (year + 1) 9999 ltac:(lia)) as Hm.
    change (_days_before_year 9999) with 3651694 in Hm.
    change _MAXORDINAL with 3652059. lia.
Qed.

Lemma iso_week_dates_eq year week :
  valid_year_week year week -> (year, week) <> (9999, 52) ->
  iso_week_dates year week
  = Ok (map (fun i => fromordinal (_isoweek1monday year + (week - 1) * 7 + i))
            range7).
Proof.
  intros Hv Hne. unfold iso_week_dates.
  rewrite fromisocalendar_monday by assumption. cbn [bind].
  pose proof (isoweek1monday_positive year (proj1 (proj1 Hv))).
  apply week_from_ordinal; [ destruct Hv as [_ ?]; lia | ].
  now apply last_week_fits.
Qed.

Lemma consecutive_week o :
  consecutive (map (fun i => fromordinal (o + i)) range7).
Proof.
  unfold consecutive, range7. intros i d d' H1 H2.
  do 7 (destruct i as [ | i];
        [ cbn in H1, H2; try discriminate;
          injection H1 as <-; injection H2 as <-;
          rewrite !toordinal_fromordinal; lia | ]).
  destruct i; discriminate.
Qed.

Lemma isoweek_to_gregorian_ordinal year week d ymd :
  _isoweek_to_gregorian year week d = Ok ymd -> exists o, ymd = _ord2ymd o.
Proof.
  unfold _isoweek_to_gregorian. cbv zeta.
  repeat match goal with
    | |- context [if ?c then _ else _] => destruct c
    end; try discriminate.
  all: intros E; injection E as <-; eauto.
Qed.

Lemma add_days_ordinal d i d' :
  add_days d i = Ok d' -> d' = fromordinal (toordinal d + i).
Proof.
  unfold add_days. cbv zeta. destruct (_ && _); [ | discriminate ].
  now intros E; injection E as <-.
Qed.

Lemma comprehension_map {A : Type} (f : Z -> result A) (g : Z -> A) range l :
  (forall i a, f i = Ok a -> a = g i) ->
  comprehension f range = Ok l -> l = map g range.
Proof.
  intros Hfg. revert l. induction range as [ | i range IH]; intros l; cbn.
  - now intros E; injection E as <-.
  - destruct (f i) as [a | e] eqn:Ei; cbn [bind]; [ | discriminate ].
    destruct (comprehension f range) as [l' | e]; cbn [bind];
      [ | discriminate ].
    intros E. injection E as <-.
    rewrite (Hfg i a Ei), (IH l' eq_refl). reflexivity.
Qed.

(** Whenever [iso_week_dates] returns, it returns the dates of seven
    ordinals in a row. *)
Lemma iso_week_dates_ordinals year week days :
  iso_week_dates year week = Ok days ->
  exists o, days = map (fun i => fromordinal (o + i)) range7.
Proof.
  unfold iso_week_dates, fromisocalendar.
  destruct (_isoweek_to_gregorian year week 1) as [[[y m] d] | e] eqn:E;
    cbn [bind]; [ | discriminate ].
  apply isoweek_to_gregorian_ordinal in E. destruct E as [o E].
  assert (Hm : mkdate y m d = fromordinal o)
    by (unfold fromordinal; now rewrite <- E).
  rewrite Hm. intros Hc. exists o.
  apply (comprehension_map _ (fun i => fromordinal (o + i))) in Hc;
    [ assumption | ].
  intros i a Ha. apply add_days_ordinal in Ha.
  now rewrite toordinal_fromordinal in Ha.
Qed.

Lemma week_first_last o :
  toordinal (first_of (map (fun i => fromordinal (o + i)) range7)) = o
  /\ toordinal (last_of (map (fun i => fromordinal (o + i)) range7)) = o + 6.
Proof.
  unfold first_of, last_of, range7. cbn [map hd last].
  rewrite !toordinal_fromordinal. lia.
Qed.

Lemma fromordinal_inj a b : fromordinal a = fromordinal b -> a = b.
Proof.
  intros H. apply (f_equal toordinal) in H.
  now rewrite !toordinal_fromordinal in H.
Qed.

Lemma week_nodup o : NoDup (map (fun i => fromordinal (o + i)) range7).
Proof.
  unfold range7. cbn [map].
  repeat (constructor;
          [ cbn [In]; intros H;
            repeat (destruct H as [H | H];
                    [ apply fromordinal_inj in H; lia | ]);
            exact H | ]).
  constructor.
Qed.

Lemma week_covers o wd :
  o <= wd <= o + 6 ->
  In (fromordinal wd) (map (fun i => fromordinal (o + i)) range7).
Proof.
  intros H. apply in_map_iff. exists (wd - o). split; [ f_equal; lia | ].
  unfold range7. cbn [In]. lia.
Qed.

End WeekDates.

(* ================================================================== *)
(** ** SQL statements on v2_time_entries *)

Section Statements.

Lemma with_time_entries_same conn :
  with_time_entries conn (v2_time_entries conn) = conn.
Proof. destruct conn; reflexivity. Qed.


Lemma update_status_pointwise (cond : v2_time_entries_row -> bool) s rows :
  Forall2 (fun e e' : v2_time_entries_row => if cond e then moved_to s e e' else e' = e)
          rows (update_status cond s rows).
Proof.
  induction rows as [ | e rows IH]; cbn; constructor; auto.
  destruct (cond e); reflexivity.
Qed.

(** An UPDATE whose WHERE matches no row changes nothing. *)
Lemma update_status_none cond s rows :
  Forall (fun e => cond e = false) rows -> update_status cond s rows = rows.
Proof.
  induction 1 as [ | e rows He _ IH]; cbn; [ reflexivity | ].
  rewrite He. f_equal. exact IH.
Qed.

(** An UPDATE that takes its rows out of its own WHERE clause changes
    nothing when it is run again. *)
Lemma update_status_again cond s rows :
  (forall e, cond e = true -> cond (set_status s e) = false) ->
  update_status cond s (update_status cond s rows) = update_status cond s rows.
Proof.
  intros Hout. unfold update_status. rewrite map_map. apply map_ext.
  intros e. destruct (cond e) eqn:E.
  - now rewrite Hout.
  - now rewrite E.
Qed.

Lemma update_status_enumerated cond s rows :
  enumerated_status s ->
  Forall (fun e => enumerated_status (te_status e)) rows ->
  Forall (fun e => enumerated_status (te_status e)) (update_status cond s rows).
Proof.
  intros Hs. induction 1 as [ | e rows He _ IH]; cbn; constructor; auto.
  destruct (cond e); auto.
Qed.

Lemma delete_where_none cond rows :
  Forall (fun e => cond e = false) rows -> delete_where cond rows = rows.
Proof.
  induction 1 as [ | e rows He _ IH]; cbn; [ reflexivity | ].
  rewrite He. cbn. f_equal. exact IH.
Qed.

Lemma delete_where_again cond rows :
  delete_where cond (delete_where cond rows) = delete_where cond rows.
Proof.
  unfold delete_where. induction rows as [ | e rows IH]; cbn; auto.
  destruct (cond e) eqn:E; cbn; rewrite ?E; cbn; now rewrite ?IH.
Qed.

Lemma delete_where_enumerated cond rows :
  Forall (fun e => enumerated_status (te_status e)) rows ->
  Forall (fun e => enumerated_status (te_status e)) (delete_where cond rows).
Proof.
  unfold delete_where. induction 1 as [ | e rows He _ IH]; cbn; auto.
  destruct (cond e); cbn; auto.
Qed.

Lemma no_such_id entry_id rows :
  Forall (fun e => te_id e <> entry_id) rows ->
  Forall (fun e => (te_id e =? entry_id) = false) rows.
Proof.
  apply Forall_impl. intros e. apply Z.eqb_neq.
Qed.

Lemma existsb_id {A : Type} (key : A -> Z) k l :
  existsb (fun a => key a =? k) l = true <-> exists a, In a l /\ key a = k.
Proof.
  rewrite existsb_exists. split; intros (a & Hin & Ha); exists a;
    (split; [ assumption | ]); now apply Z.eqb_eq.
Qed.

Lemma fresh_id conn :
  ids_from_sequence conn ->
  existsb (fun r => te_id r =? v2_time_entries_id_seq conn + 1)
          (v2_time_entries conn) = false.
Proof.
  intros H. apply not_true_iff_false. rewrite existsb_id.
  intros (e & Hin & He). unfold ids_from_sequence in H.
  rewrite Forall_forall in H. specialize (H e Hin). lia.
Qed.

End Statements.

(* ================================================================== *)
(** ** Queries: ORDER BY, the join, the aggregates *)

Section Queries.

Lemma insert_sorted_perm {A : Type} (leb : A -> A -> bool) a l :
  Permutation (insert_sorted leb a l) (a :: l).
Proof.
  induction l as [ | b l IH]; cbn; [ reflexivity | ].
  destruct (leb a b); [ reflexivity | ].
  rewrite IH. apply perm_swap.
Qed.

Lemma order_by_perm {A : Type} (leb : A -> A -> bool) l :
  Permutation (order_by leb l) l.
Proof.
  induction l as [ | a l IH]; cbn; [ reflexivity | ].
  rewrite insert_sorted_perm. now constructor.
Qed.

(** The first row of [ORDER BY id] holds the least id. *)
Lemma order_by_least l :
  match order_by Z.leb l with
  | [] => l = []
  | x :: _ => In x l /\ forall y, In y l -> x <= y
  end.
Proof.
  induction l as [ | a l IH]; cbn [order_by fold_right]; [ reflexivity | ].
  fold (order_by Z.leb l).
  destruct (order_by Z.leb l) as [ | x rest]; cbn [insert_sorted].
  - subst l. split; [ now left | ]. intros y [<- | []]. lia.
  - destruct IH as [Hin Hmin].
    destruct (Z.leb_spec a x).
    + split; [ now left | ].
      intros y [<- | Hy]; [ lia | ]. specialize (Hmin y Hy). lia.
    + split; [ now right | ].
      intros y [<- | Hy]; [ lia | ]. now apply Hmin.
Qed.

Lemma pick_default_person_id_least conn :
  match pick_default_person_id conn with
  | Ok pid =>
      (exists p, In p (v2_people conn) /\ pe_id p = pid)
      /\ forall p, In p (v2_people conn) -> pid <= pe_id p
  | Raise e =>
      v2_people conn = [] /\ e = RuntimeError "No v2_people in DB"
  end.
Proof.
  unfold pick_default_person_id.
  pose proof (order_by_least (map pe_id (v2_people conn))) as H.
  destruct (order_by Z.leb (map pe_id (v2_people conn))) as [ | x rest];
    cbn [firstn].
  - split; [ | reflexivity ]. now apply map_eq_nil in H.
  - destruct H as [Hin Hmin]. split.
    + apply in_map_iff in Hin. destruct Hin as (p & Hp & Hin). eauto.
    + intros p Hp. apply Hmin. now apply in_map.
Qed.

Lemma filter_perm {A : Type} (f : A -> bool) l l' :
  Permutation l l' -> Permutation (filter f l) (filter f l').
Proof.
  induction 1 as [ | x l l' _ IH | x y l | l l' l'' _ IH1 _ IH2]; cbn.
  - constructor.
  - destruct (f x); [ now constructor | assumption ].
  - destruct (f x), (f y); try reflexivity. apply perm_swap.
  - now transitivity (filter f l').
Qed.

(** Sorting by a key of the rows is sorting the keys. *)
Lemma insert_sorted_map {A B : Type} (f : A -> B) (leb : B -> B -> bool) a l :
  map f (insert_sorted (fun x y => leb (f x) (f y)) a l)
  = insert_sorted leb (f a) (map f l).
Proof.
  induction l as [ | b l IH]; cbn [insert_sorted map]; [ reflexivity | ].
  destruct (leb (f a) (f b)); cbn [map]; [ reflexivity | now rewrite IH ].
Qed.

Lemma order_by_map {A B : Type} (f : A -> B) (leb : B -> B -> bool) l :
  map f (order_by (fun x y => leb (f x) (f y)) l) = order_by leb (map f l).
Proof.
  unfold order_by. induction l as [ | a l IH]; cbn [fold_right map];
    [ reflexivity | ].
  now rewrite insert_sorted_map, IH.
Qed.

Lemma filter_map_comm {A B : Type} (h : A -> B) (g : B -> bool) l :
  filter g (map h l) = map h (filter (fun a => g (h a)) l).
Proof.
  induction l as [ | a l IH]; cbn; [ reflexivity | ].
  destruct (g (h a)); cbn; now rewrite IH.
Qed.

Lemma filter_none {A : Type} (f : A -> bool) l :
  (forall a, In a l -> f a = false) -> filter f l = [].
Proof.
  induction l as [ | a l IH]; cbn; [ reflexivity | ]. intros H.
  rewrite (H a) by now left. apply IH. intros b Hb. apply H. now right.
Qed.

(** Under the primary key of v2_projects at most one project has an id. *)
Lemma one_project_per_id projects k :
  NoDup (map pj_id projects) ->
  (List.length (filter (fun p => (pj_id p =? k)%Z) projects) <= 1)%nat.
Proof.
  induction projects as [ | p projects IH]; cbn; [ lia | ].
  intros Hnd. inversion Hnd as [ | ? ? Hnotin Hnd']; subst.
  destruct (Z.eqb_spec (pj_id p) k) as [<- | Hne]; [ | now apply IH ].
  cbn. rewrite filter_none; [ cbn; lia | ].
  intros q Hq. apply Z.eqb_neq.
  intros Heq. apply Hnotin. rewrite <- Heq. now apply in_map.
Qed.

(** So the LEFT JOIN yields each entry once. *)
Lemma left_join_projects_entries entries projects :
  NoDup (map pj_id projects) ->
  map fst (left_join_projects entries projects) = entries.
Proof.
  intros Hnd. unfold left_join_projects.
  induction entries as [ | te entries IH]; [ reflexivity | ].
  match goal with
  | |- map fst (flat_map ?f _) = _ =>
      change (map fst (f te ++ flat_map f entries) = te :: entries)
  end.
  rewrite map_app, IH. clear IH.
  destruct (te_project_id te) as [k | ].
  - pose proof (one_project_per_id projects k Hnd) as Hone.
    destruct (filter (fun p => pj_id p =? k) projects) as [ | p [ | q ps]];
      cbn in Hone |- *; try reflexivity. lia.
  - rewrite filter_none by reflexivity. reflexivity.
Qed.

Lemma row_columns_to_week_row j :
  row_columns (to_week_row j) = entry_columns (fst j).
Proof. reflexivity. Qed.

Lemma forallb_map {A : Type} (f : A -> bool) l :
  forallb (fun b => b) (map f l) = forallb f l.
Proof. induction l as [ | a l IH]; cbn; [ reflexivity | now rewrite IH ]. Qed.

Lemma existsb_map {A : Type} (f : A -> bool) l :
  existsb (fun b => b) (map f l) = existsb f l.
Proof. induction l as [ | a l IH]; cbn; [ reflexivity | now rewrite IH ]. Qed.

(** The two aggregates give the status hint of the specification. *)
Lemma select_week_flags_hint conn person_id start end_ :
  (let '(all_approved, any_submitted) :=
     select_week_flags conn person_id start end_ in
   if all_approved then "approved"
   else if any_submitted then "submitted" else "draft")
  = aggregate_status
      (filter (in_week person_id (toordinal start) (toordinal end_))
              (v2_time_entries conn)).
Proof.
  unfold select_week_flags. cbv zeta.
  destruct (filter _ (v2_time_entries conn)) as [ | e rows];
    [ reflexivity | ].
  unfold BOOL_AND, BOOL_OR, COALESCE, aggregate_status.
  cbn [map forallb existsb]. now rewrite forallb_map, existsb_map.
Qed.

(** The rows of the page are those entries in the order of work date and
    id: the LEFT JOIN and the sort go entry by entry. *)
Lemma select_week_rows_ordered conn person_id start end_ :
  NoDup (map pj_id (v2_projects conn)) ->
  map row_columns (select_week_rows conn person_id start end_)
  = map entry_columns
        (order_by entries_by_work_date_id
           (filter (in_week person_id (toordinal start) (toordinal end_))
                   (v2_time_entries conn))).
Proof.
  intros Hnd. unfold select_week_rows.
  rewrite map_map.
  rewrite (map_ext _ (fun j => entry_columns (fst j)) row_columns_to_week_row).
  rewrite <- (map_map fst entry_columns). f_equal.
  change by_work_date_id
    with (fun a b : v2_time_entries_row * option v2_projects_row =>
            entries_by_work_date_id (fst a) (fst b)).
  rewrite order_by_map. f_equal.
  rewrite <- (left_join_projects_entries (v2_time_entries conn)
                (v2_projects conn) Hnd) at 2.
  now rewrite filter_map_comm.
Qed.


End Queries.

(* ================================================================== *)
(** ** The dict [by_day] and the grouping loop *)

Section Grouping.

Lemma date_eqb_eq a b : date_eqb a b = true <-> a = b.
Proof.
  unfold date_eqb. rewrite !andb_true_iff, !Z.eqb_eq.
  destruct a, b; cbn. split.
  - intros [[-> ->] ->]. reflexivity.
  - intros H. injection H as -> -> ->. auto.
Qed.

Lemma date_eqb_refl a : date_eqb a a = true.
Proof. now apply date_eqb_eq. Qed.

Lemma date_eqb_neq a b : a <> b -> date_eqb a b = false.
Proof.
  intros H. apply not_true_iff_false. now rewrite date_eqb_eq.
Qed.

Lemma dict_get_map {V : Type} (f : date -> V) days k :
  In k days -> dict_get (map (fun d => (d, f d)) days) k = Ok (f k).
Proof.
  induction days as [ | d days IH]; cbn; [ intros [] | ].
  intros Hin. destruct (date_eqb d k) eqn:E.
  - apply date_eqb_eq in E. now subst.
  - destruct Hin as [-> | Hin]; [ now rewrite date_eqb_refl in E | auto ].
Qed.

Lemma dict_set_map {V : Type} (f : date -> V) days k v :
  NoDup days -> In k days ->
  dict_set (map (fun d => (d, f d)) days) k v
  = map (fun d => (d, if date_eqb d k then v else f d)) days.
Proof.
  induction days as [ | d days IH]; cbn; [ intros _ [] | ].
  intros Hnd Hin. inversion Hnd as [ | ? ? Hnotin Hnd']; subst.
  destruct (date_eqb d k) eqn:E.
  - apply date_eqb_eq in E. subst d. f_equal.
    apply map_ext_in. intros d Hd.
    rewrite date_eqb_neq; [ reflexivity | ]. intros ->. contradiction.
  - destruct Hin as [-> | Hin]; [ now rewrite date_eqb_refl in E | ].
    f_equal. now apply IH.
Qed.

Lemma dict_set_new {V : Type} (f : date -> V) days k v :
  ~ In k days ->
  dict_set (map (fun d => (d, f d)) days) k v
  = map (fun d => (d, f d)) days ++ [(k, v)].
Proof.
  induction days as [ | d days IH]; cbn; [ reflexivity | ].
  intros Hnotin. rewrite date_eqb_neq by (intros ->; apply Hnotin; now left).
  f_equal. apply IH. intros Hin. apply Hnotin. now right.
Qed.

(** [{d: [] for d in days}] *)
Lemma dict_of_days {V : Type} (v : V) days seen :
  NoDup (seen ++ days) ->
  fold_left (fun acc d => dict_set acc d v) days
            (map (fun d => (d, v)) seen)
  = map (fun d => (d, v)) (seen ++ days).
Proof.
  revert seen. induction days as [ | d days IH]; intros seen Hnd; cbn.
  - now rewrite app_nil_r.
  - rewrite (dict_set_new (fun _ => v)).
    + change [(d, v)] with (map (fun d => (d, v)) [d]).
      rewrite <- map_app, IH; rewrite <- app_assoc; [ reflexivity | exact Hnd ].
    + apply NoDup_remove_2 in Hnd. intros Hin. apply Hnd.
      apply in_or_app. now left.
Qed.

(** The loop over the rows: every day ends with the rows of that day, in
    the order of the rows, and the total is the running total of the
    rows' hours, in their order. *)
Lemma group_rows_spec days rows :
  NoDup days ->
  forall (f : date -> list week_row) total,
    (forall r, In r rows -> In (r_work_date r) days) ->
    group_rows rows (map (fun d => (d, f d)) days) total
    = Ok (map (fun d =>
                 (d, f d ++ filter (fun r => date_eqb (r_work_date r) d) rows))
              days,
          fold_left (fun total h => float_add total (float_hours_or_0 h))
                    (map r_hours rows) total).
Proof.
  intros Hnd. induction rows as [ | r rows IH]; intros f total Hin.
  - cbn. f_equal. f_equal.
    apply map_ext. intros d. now rewrite app_nil_r.
  - cbn [group_rows].
    assert (Hr : In (r_work_date r) days) by (apply Hin; now left).
    rewrite dict_get_map by assumption. cbn [bind].
    rewrite dict_set_map by assumption.
    rewrite IH by (intros r' Hr'; apply Hin; now right).
    f_equal. f_equal.
    apply map_ext. intros d. cbn [filter].
    destruct (date_eqb d (r_work_date r)) eqn:E.
    + apply date_eqb_eq in E. subst d. rewrite date_eqb_refl.
      now rewrite <- app_assoc.
    + rewrite date_eqb_neq; [ reflexivity | ].
      intros Heq. rewrite Heq, date_eqb_refl in E. discriminate.
Qed.

End Grouping.

(* ================================================================== *)
(** ** Properties of the week calculator *)

(** C1 (as amended): for every valid (year, week) pair other than
    (9999, 52), [iso_week_dates] returns exactly seven consecutive dates;
    the first is a Monday and it is the Monday of the ISO week asked for
    (its Thursday is the [week]-th Thursday of the year, week 1 being the
    week of the first Thursday); the first date is not after the last; and
    [iso_week_dates 2024 1] is 2024-01-01 .. 2024-01-07. *)
Theorem iso_week_dates_seven_days year week :
  valid_year_week year week -> (year, week) <> (9999, 52) ->
  exists days,
    iso_week_dates year week = Ok days
    /\ List.length days = 7%nat
    /\ consecutive days
    /\ weekday (first_of days) = 0
    /\ toordinal (first_of days) + 3 = first_thursday year + 7 * (week - 1)
    /\ date_leb (first_of days) (last_of days) = true
    /\ (year = 2024 -> week = 1 ->
        days = [mkdate 2024 1 1; mkdate 2024 1 2; mkdate 2024 1 3;
                mkdate 2024 1 4; mkdate 2024 1 5; mkdate 2024 1 6;
                mkdate 2024 1 7]).
Proof.
  intros Hv Hne. eexists. split; [ now apply iso_week_dates_eq | ].
  set (o := _isoweek1monday year + (week - 1) * 7).
  split; [ reflexivity | ].
  split; [ apply consecutive_week | ].
  unfold first_of, last_of, range7, weekday. cbn [map hd last].
  rewrite !toordinal_fromordinal.
  pose proof (isoweek1monday_monday year) as Hm.
  pose proof (isoweek1monday_thursday year) as Ht.
  repeat split.
  - subst o. Z.div_mod_to_equations. lia.
  - subst o. lia.
  - apply fromordinal_mono. lia.
  - intros -> ->. subst o. vm_compute. reflexivity.
Qed.

Lemma iso_week_dates_seven_days_witness :
  exists days,
    iso_week_dates 2020 53 = Ok days
    /\ List.length days = 7%nat
    /\ consecutive days
    /\ weekday (first_of days) = 0
    /\ toordinal (first_of days) + 3 = first_thursday 2020 + 7 * (53 - 1)
    /\ date_leb (first_of days) (last_of days) = true
    /\ (2020 = 2024 -> 53 = 1 ->
        days = [mkdate 2024 1 1; mkdate 2024 1 2; mkdate 2024 1 3;
                mkdate 2024 1 4; mkdate 2024 1 5; mkdate 2024 1 6;
                mkdate 2024 1 7]).
Proof.
  apply (iso_week_dates_seven_days 2020 53).
  - split; [ unfold MINYEAR, MAXYEAR; lia | ].
    change (iso_weeks_in_year 2020) with 53. lia.
  - discriminate.
Defined.

(** C1, as stated, fails at the last week of the last year [date] can
    hold: (9999, 52) is a valid pair, its Monday 9999-12-27 exists, but
    Saturday and Sunday of that week lie past 9999-12-31 and
    [monday + timedelta(days=5)] raises OverflowError. *)
Lemma iso_week_dates_9999_52 :
  valid_year_week 9999 52
  /\ fromisocalendar 9999 52 1 = Ok (mkdate 9999 12 27)
  /\ iso_week_dates 9999 52 = Raise (OverflowError "result out of range").
Proof.
  split; [ | split; vm_compute; reflexivity ].
  split; [ unfold MINYEAR, MAXYEAR; lia | ].
  change (iso_weeks_in_year 9999) with 52. lia.
Qed.

(** C7: for every year, a week outside 1 .. the number of ISO weeks of that
    year makes [iso_week_dates] raise a ValueError instead of returning
    dates; for a year [date] supports it is "Invalid week". *)
Theorem iso_week_dates_invalid_week year week :
  ~ (1 <= week <= iso_weeks_in_year year) ->
  exists why,
    iso_week_dates year week = Raise (ValueError why)
    /\ (MINYEAR <= year <= MAXYEAR -> why = InvalidWeek week).
Proof.
  intros Hw. rewrite iso_weeks_in_year_cases in Hw.
  unfold iso_week_dates, fromisocalendar, _isoweek_to_gregorian,
    MINYEAR, MAXYEAR.
  destruct ((1 <=? year) && (year <=? 9999)) eqn:Ey; cbn [negb].
  - exists (InvalidWeek week). split; [ | reflexivity ].
    cbv zeta.
    destruct (Z.ltb_spec 0 week); cbn [andb negb].
    + destruct (Z.ltb_spec week 53); cbn [negb].
      * exfalso. destruct (_ || _); lia.
      * destruct (Z.eqb_spec week 53); [ | reflexivity ].
        destruct (_ || _); [ exfalso; lia | reflexivity ].
    + destruct (Z.eqb_spec week 53); [ lia | reflexivity ].
  - exists (YearOutOfRange year). split; [ reflexivity | ].
    intros [H1 H2]. apply andb_false_iff in Ey.
    destruct Ey as [Ey | Ey]; apply Z.leb_gt in Ey; lia.
Qed.

Lemma iso_week_dates_invalid_week_witness :
  exists why,
    iso_week_dates 2021 53 = Raise (ValueError why)
    /\ (MINYEAR <= 2021 <= MAXYEAR -> why = InvalidWeek 53).
Proof.
  apply (iso_week_dates_invalid_week 2021 53).
  change (iso_weeks_in_year 2021) with 52. lia.
Defined.

(* ================================================================== *)
(** ** Properties of the workflow handlers *)


(** C6: [time_submit_week] is idempotent: a second call with the same
    person, year and week gives the same database and the same response as
    the first call alone. *)
Theorem time_submit_week_idempotent conn person_id year week :
  time_submit_week (fst (time_submit_week conn person_id year week))
                   person_id year week
  = time_submit_week conn person_id year week.
Proof.
  unfold time_submit_week.
  destruct (iso_week_dates year week) as [days | e]; cbn [bind fst]; auto.
  f_equal. unfold with_time_entries. cbn [v2_people v2_projects v2_time_entries
    v2_people_id_seq v2_projects_id_seq v2_time_entries_id_seq].
  f_equal. apply update_status_again.
  intros e _. cbn [set_status te_status te_person_id te_work_date in_week].
  apply andb_false_r.
Qed.

(** C5: for every entry id, [approvals_approve] sets the status of the
    entry with that id to 'approved' and [approvals_reject] sets it to
    'draft', whatever the status was; the other columns of that entry,
    every other entry and the rest of the database stay as they were. *)
Theorem approve_reject_effect conn entry_id :
  (snd (approvals_approve conn entry_id) = Ok (RedirectResponse approvals_url)
   /\ same_but_entries conn (fst (approvals_approve conn entry_id))
   /\ Forall2 (fun e e' : v2_time_entries_row => if te_id e =? entry_id
                           then moved_to "approved" e e' else e' = e)
              (v2_time_entries conn)
              (v2_time_entries (fst (approvals_approve conn entry_id))))
  /\ (snd (approvals_reject conn entry_id) = Ok (RedirectResponse approvals_url)
      /\ same_but_entries conn (fst (approvals_reject conn entry_id))
      /\ Forall2 (fun e e' : v2_time_entries_row => if te_id e =? entry_id
                              then moved_to "draft" e e' else e' = e)
                 (v2_time_entries conn)
                 (v2_time_entries (fst (approvals_reject conn entry_id)))).
Proof.
  unfold approvals_approve, approvals_reject. cbn [fst snd].
  repeat split; apply update_status_pointwise.
Qed.

(** C9: when no entry has the id, [time_delete], [approvals_approve] and
    [approvals_reject] answer with their redirect, raise nothing and leave
    the database as it is; and deleting twice is deleting once. *)
Theorem missing_entry_no_op conn entry_id person_id year week :
  (Forall (fun e => te_id e <> entry_id) (v2_time_entries conn) ->
   time_delete conn entry_id person_id year week
   = (conn, Ok (RedirectResponse (my_week_url year week person_id)))
   /\ approvals_approve conn entry_id
      = (conn, Ok (RedirectResponse approvals_url))
   /\ approvals_reject conn entry_id
      = (conn, Ok (RedirectResponse approvals_url)))
  /\ time_delete (fst (time_delete conn entry_id person_id year week))
                 entry_id person_id year week
     = time_delete conn entry_id person_id year week.
Proof.
  split.
  - intros H. apply no_such_id in H.
    unfold time_delete, approvals_approve, approvals_reject.
    rewrite delete_where_none, !update_status_none by assumption.
    now rewrite with_time_entries_same.
  - unfold time_delete. cbn [fst]. f_equal.
    unfold with_time_entries. cbn [v2_people v2_projects v2_time_entries
      v2_people_id_seq v2_projects_id_seq v2_time_entries_id_seq].
    f_equal. apply delete_where_again.
Qed.

(** *** The cast of a float8 to NUMERIC(5,2) *)

(** The decimal exponent is counted with enough fuel. *)
Lemma exp10_up_spec fuel : forall n d,
  0 < d -> d <= n -> n < d * 10 ^ Z.of_nat fuel ->
  0 <= exp10_up fuel n d
  /\ d * 10 ^ exp10_up fuel n d <= n < d * 10 ^ (exp10_up fuel n d + 1).
Proof.
  induction fuel as [ | fuel IH]; intros n d Hd Hle Hlt.
  - cbn in Hlt. lia.
  - cbn [exp10_up]. destruct (Z.leb_spec (10 * d) n) as [H | H].
    + destruct (IH n (10 * d)) as (Hk & Hlo & Hhi); try lia.
      { rewrite Nat2Z.inj_succ, Z.pow_succ_r in Hlt by lia. lia. }
      split; [ lia | ].
      rewrite (Z.pow_add_r 10 (exp10_up fuel n (10 * d) + 1) 1) by lia.
      rewrite (Z.pow_add_r 10 (exp10_up fuel n (10 * d)) 1) in * by lia.
      change (10 ^ 1) with 10 in *. lia.
    + cbn. lia.
Qed.

Lemma exp10_down_spec fuel : forall n d,
  0 < n -> n < d -> d <= n * 10 ^ Z.of_nat fuel ->
  exp10_down fuel n d < 0
  /\ d <= n * 10 ^ (- exp10_down fuel n d) < 10 * d.
Proof.
  induction fuel as [ | fuel IH]; intros n d Hn Hlt Hle.
  - cbn in Hle. lia.
  - cbn [exp10_down]. destruct (Z.ltb_spec n d) as [_ | H]; [ | lia ].
    destruct (Z.lt_ge_cases (10 * n) d) as [H | H].
    + destruct (IH (10 * n) d) as (Hk & Hlo & Hhi); try lia.
      { rewrite Nat2Z.inj_succ, Z.pow_succ_r in Hle by lia. lia. }
      split; [ lia | ].
      replace (- (exp10_down fuel (10 * n) d - 1))
        with (- exp10_down fuel (10 * n) d + 1) by lia.
      rewrite Z.pow_add_r by lia. change (10 ^ 1) with 10.
      set (X := 10 ^ (- exp10_down fuel (10 * n) d)) in *. lia.
    + assert (E : exp10_down fuel (10 * n) d = 0).
      { destruct fuel; cbn [exp10_down]; [ reflexivity | ].
        destruct (Z.ltb_spec (10 * n) d); [ lia | reflexivity ]. }
      rewrite E. change (- (0 - 1)) with 1. change (10 ^ 1) with 10. lia.
Qed.

Lemma pow2_le_pow10 a : 0 <= a -> 2 ^ a <= 10 ^ a.
Proof. intros H. apply Z.pow_le_mono_l. lia. Qed.

(** The decimal exponent is the right one: the fuel suffices. *)
Lemma exp10_spec n d :
  0 < n -> 0 < d ->
  let k := exp10 n d in
  (0 <= k -> d * 10 ^ k <= n < d * 10 ^ (k + 1))
  /\ (k < 0 -> d <= n * 10 ^ (- k) < 10 * d).
Proof.
  intros Hn Hd. cbv zeta. unfold exp10.
  destruct (Z.leb_spec d n) as [H | H].
  - destruct (exp10_up_spec (S (Z.to_nat (Z.log2 n))) n d) as (Hk & Hb);
      try assumption.
    { rewrite Nat2Z.inj_succ, Z2Nat.id by apply Z.log2_nonneg.
      pose proof (Z.log2_spec n Hn) as [_ Hl].
      pose proof (pow2_le_pow10 (Z.succ (Z.log2 n))
                    ltac:(pose proof (Z.log2_nonneg n); lia)).
      nia. }
    split; [ intros _; exact Hb | lia ].
  - destruct (exp10_down_spec (S (Z.to_nat (Z.log2 d))) n d) as (Hk & Hb);
      try assumption.
    { rewrite Nat2Z.inj_succ, Z2Nat.id by apply Z.log2_nonneg.
      pose proof (Z.log2_spec d Hd) as [_ Hl].
      pose proof (pow2_le_pow10 (Z.succ (Z.log2 d))
                    ltac:(pose proof (Z.log2_nonneg d); lia)).
      nia. }
    split; [ lia | intros _; exact Hb ].
Qed.

Lemma round_half_even_ge n d N :
  0 < d -> N * d <= n -> N <= round_half_even n d.
Proof.
  intros Hd H. unfold round_half_even. cbv zeta.
  pose proof (Z.div_mod n d ltac:(lia)) as E.
  pose proof (Z.mod_pos_bound n d Hd) as B.
  assert (N <= n / d) by nia.
  destruct (2 * (n mod d) ?= d); [ destruct (Z.even (n / d)) | | ]; lia.
Qed.

Lemma round_half_even_le n d N :
  0 < d -> n <= N * d -> round_half_even n d <= N.
Proof.
  intros Hd H. unfold round_half_even. cbv zeta.
  pose proof (Z.div_mod n d ltac:(lia)) as E.
  pose proof (Z.mod_pos_bound n d Hd) as B.
  destruct (Z.eq_dec (n mod d) 0) as [E0 | E0].
  - rewrite E0. assert (n / d <= N) by nia.
    destruct (2 * 0 ?= d) eqn:C; try lia.
    + apply Z.compare_eq in C. lia.
    + apply Z.compare_gt_iff in C. lia.
  - assert (n / d + 1 <= N) by nia.
    destruct (2 * (n mod d) ?= d); [ destruct (Z.even (n / d)) | | ]; lia.
Qed.

(** The 15 digits of a positive [n/d] between integer bounds. *)
Lemma printf_15g_digits n d :
  0 < n -> 0 < d ->
  let k := exp10 n d in
  let D := fst (printf_15g n d) in
  snd (printf_15g n d) = k - 14
  /\ 10 ^ 14 <= D <= 10 ^ 15
  /\ (k = -3 -> forall N, N * d <= n * 10 ^ 17 -> N <= D)
  /\ (k = -3 -> forall N, n * 10 ^ 17 <= N * d -> D <= N)
  /\ (k = 2 -> forall N, n * 10 ^ 12 <= N * d -> D <= N).
Proof.
  intros Hn Hd. cbv zeta. unfold printf_15g. cbn [fst snd].
  pose proof (exp10_spec n d Hn Hd) as [Hpos Hneg]. cbv zeta in Hpos, Hneg.
  set (k := exp10 n d) in *.
  split; [ reflexivity | ].
  split; [ | split; [ | split ] ].
  - destruct (Z.leb_spec k 14) as [Hk | Hk].
    + destruct (Z.lt_ge_cases k 0) as [Hk0 | Hk0].
      * specialize (Hneg Hk0).
        replace (14 - k) with (- k + 14) by lia.
        rewrite Z.pow_add_r by lia.
        set (X := 10 ^ (- k)) in *.
        split; [ apply round_half_even_ge | apply round_half_even_le ];
          try assumption; nia.
      * specialize (Hpos Hk0).
        assert (E : 10 ^ k * 10 ^ (14 - k) = 10 ^ 14)
          by (rewrite <- Z.pow_add_r by lia; f_equal; lia).
        rewrite Z.pow_add_r in Hpos by lia. change (10 ^ 1) with 10 in Hpos.
        assert (0 < 10 ^ k) by (apply Z.pow_pos_nonneg; lia).
        assert (0 < 10 ^ (14 - k)) by (apply Z.pow_pos_nonneg; lia).
        set (X := 10 ^ k) in *. set (Y := 10 ^ (14 - k)) in *.
        split; [ apply round_half_even_ge | apply round_half_even_le ];
          try assumption.
        -- rewrite <- E. nia.
        -- change (10 ^ 15) with (10 ^ 14 * 10). rewrite <- E. nia.
    + specialize (Hpos ltac:(lia)).
      assert (E : 10 ^ 14 * 10 ^ (k - 14) = 10 ^ k)
        by (rewrite <- Z.pow_add_r by lia; f_equal; lia).
      rewrite Z.pow_add_r in Hpos by lia. change (10 ^ 1) with 10 in Hpos.
      rewrite <- E in Hpos.
      assert (0 < 10 ^ (k - 14)) by (apply Z.pow_pos_nonneg; lia).
      set (Y := 10 ^ (k - 14)) in *.
      change (10 ^ 15) with (10 ^ 14 * 10).
      split; [ apply round_half_even_ge | apply round_half_even_le ]; nia.
  - intros E N HN. rewrite E. change (-3 <=? 14) with true.
    change (14 - -3) with 17. now apply round_half_even_ge.
  - intros E N HN. rewrite E. change (-3 <=? 14) with true.
    change (14 - -3) with 17. now apply round_half_even_le.
  - intros E N HN. rewrite E. change (2 <=? 14) with true.
    change (14 - 2) with 12. now apply round_half_even_le.
Qed.

Lemma pow10_ge a b : 0 <= a <= b -> 10 ^ a <= 10 ^ b.
Proof. intros H. apply Z.pow_le_mono_r; lia. Qed.

(** Where the rounding of a positive [n/d] to hundredths falls. *)
Lemma round_scale_2_thresholds n d :
  0 < n -> 0 < d ->
  let h := round_scale_2 (fst (printf_15g n d)) (snd (printf_15g n d)) in
  (d <= 200 * n -> 1 <= h)
  /\ (250 * n <= d -> h = 0)
  /\ (1000 * d <= n -> 100000 <= h)
  /\ (100 * n <= 99999 * d -> h < 100000).
Proof.
  intros Hn Hd. cbv zeta.
  pose proof (printf_15g_digits n d Hn Hd) as (Hq & HD & Hge3 & Hle3 & Hle2).
  cbv zeta in *.
  pose proof (exp10_spec n d Hn Hd) as [Hpos Hneg]. cbv zeta in Hpos, Hneg.
  rewrite Hq.
  set (k := exp10 n d) in *. set (D := fst (printf_15g n d)) in *.
  change (10 ^ 14) with 100000000000000 in HD.
  change (10 ^ 15) with 1000000000000000 in HD.
  unfold round_scale_2, round_half_up.
  replace (k - 14 + 2) with (k - 12) by lia.
  replace (- (k - 12)) with (12 - k) by lia.
  assert (Hbig : 12 <= k -> 1 <= 10 ^ (k - 12))
    by (intros; apply (pow10_ge 0); lia).
  assert (Hp : k < 12 -> 0 < 10 ^ (12 - k))
    by (intros; apply Z.pow_pos_nonneg; lia).
  repeat split.
  - (* 0.005 and more *)
    intros Hx.
    assert (Hk : -3 <= k).
    { destruct (Z.lt_ge_cases k (-3)) as [Hlt | ]; [ | assumption ].
      specialize (Hneg ltac:(lia)).
      pose proof (pow10_ge 4 (- k) ltac:(lia)) as Hp4.
      change (10 ^ 4) with 10000 in Hp4. nia. }
    destruct (Z.leb_spec (-2) (k - 14)) as [Hc | Hc].
    + specialize (Hbig ltac:(lia)). nia.
    + specialize (Hp ltac:(lia)).
      apply Z.div_le_lower_bound; [ lia | ].
      destruct (Z.eq_dec k (-3)) as [E | E].
      * specialize (Hge3 E 500000000000000).
        change (10 ^ 17) with 100000000000000000 in Hge3.
        specialize (Hge3 ltac:(lia)).
        rewrite E. change (10 ^ (12 - -3)) with 1000000000000000. lia.
      * pose proof (pow10_ge (12 - k) 14 ltac:(lia)) as Hp14.
        change (10 ^ 14) with 100000000000000 in Hp14. lia.
  - (* 0.004 and less *)
    intros Hx.
    assert (Hk : k <= -3).
    { destruct (Z.lt_ge_cases (-3) k) as [Hlt | ]; [ | lia ].
      destruct (Z.lt_ge_cases k 0) as [Hk0 | Hk0].
      - specialize (Hneg Hk0).
        pose proof (pow10_ge (- k) 2 ltac:(lia)) as Hp2.
        change (10 ^ 2) with 100 in Hp2. nia.
      - specialize (Hpos Hk0).
        pose proof (pow10_ge 0 k ltac:(lia)) as Hp0.
        change (10 ^ 0) with 1 in Hp0. nia. }
    destruct (Z.leb_spec (-2) (k - 14)) as [Hc | Hc]; [ lia | ].
    specialize (Hp ltac:(lia)).
    apply Z.div_small. split; [ lia | ].
    destruct (Z.eq_dec k (-3)) as [E | E].
    + specialize (Hle3 E 400000000000000).
      change (10 ^ 17) with 100000000000000000 in Hle3.
      specialize (Hle3 ltac:(lia)).
      rewrite E. change (10 ^ (12 - -3)) with 1000000000000000. lia.
    + pose proof (pow10_ge 16 (12 - k) ltac:(lia)) as Hp16.
      change (10 ^ 16) with 10000000000000000 in Hp16. lia.
  - (* 1000 and more *)
    intros Hx.
    assert (Hk : 3 <= k).
    { destruct (Z.lt_ge_cases k 3) as [Hlt | ]; [ | assumption ].
      destruct (Z.lt_ge_cases k 0) as [Hk0 | Hk0].
      - specialize (Hneg Hk0).
        pose proof (pow10_ge 0 (- k) ltac:(lia)) as Hp0.
        change (10 ^ 0) with 1 in Hp0. nia.
      - specialize (Hpos Hk0).
        pose proof (pow10_ge (k + 1) 3 ltac:(lia)) as Hp3.
        change (10 ^ 3) with 1000 in Hp3. nia. }
    destruct (Z.leb_spec (-2) (k - 14)) as [Hc | Hc].
    + specialize (Hbig ltac:(lia)). nia.
    + specialize (Hp ltac:(lia)).
      apply Z.div_le_lower_bound; [ lia | ].
      pose proof (pow10_ge (12 - k) 9 ltac:(lia)) as Hp9.
      change (10 ^ 9) with 1000000000 in Hp9. lia.
  - (* 999.99 and less *)
    intros Hx.
    assert (Hk : k <= 2).
    { destruct (Z.lt_ge_cases 2 k) as [Hlt | ]; [ | lia ].
      specialize (Hpos ltac:(lia)).
      pose proof (pow10_ge 3 k ltac:(lia)) as Hp3.
      change (10 ^ 3) with 1000 in Hp3. nia. }
    destruct (Z.leb_spec (-2) (k - 14)) as [Hc | Hc]; [ lia | ].
    specialize (Hp ltac:(lia)).
    apply Z.div_lt_upper_bound; [ lia | ].
    destruct (Z.eq_dec k 2) as [E | E].
    + specialize (Hle2 E 999990000000000).
      change (10 ^ 12) with 1000000000000 in Hle2.
      specialize (Hle2 ltac:(lia)).
      rewrite E. change (10 ^ (12 - 2)) with 10000000000. lia.
    + pose proof (pow10_ge 11 (12 - k) ltac:(lia)) as Hp11.
      change (10 ^ 11) with 100000000000 in Hp11. lia.
Qed.

Lemma magnitude_pos m e :
  0 < fst (magnitude m e) /\ 0 < snd (magnitude m e).
Proof.
  unfold magnitude. destruct (Z.leb_spec 0 e); cbn [fst snd].
  - split; [ | lia ].
    apply Z.mul_pos_pos; [ lia | apply Z.pow_pos_nonneg; lia ].
  - split; [ lia | apply Z.pow_pos_nonneg; lia ].
Qed.

Lemma hundredths_of_eq m e :
  hundredths_of m e
  = round_scale_2 (fst (printf_15g (fst (magnitude m e))
                                   (snd (magnitude m e))))
                  (snd (printf_15g (fst (magnitude m e))
                                   (snd (magnitude m e)))).
Proof.
  unfold hundredths_of. destruct (magnitude m e) as [n d]. cbn [fst snd].
  now destruct (printf_15g n d).
Qed.

(** The hundredths of a magnitude are not negative. *)
Lemma hundredths_of_nonneg m e : 0 <= hundredths_of m e.
Proof.
  rewrite hundredths_of_eq.
  destruct (magnitude_pos m e) as [Hn Hd].
  set (n := fst (magnitude m e)) in *. set (d := snd (magnitude m e)) in *.
  pose proof (printf_15g_digits n d Hn Hd) as (_ & HD & _). cbv zeta in HD.
  assert (0 <= fst (printf_15g n d))
    by (pose proof (Z.pow_pos_nonneg 10 14); lia).
  unfold round_scale_2.
  destruct (Z.leb_spec (-2) (snd (printf_15g n d))).
  - apply Z.mul_nonneg_nonneg; [ assumption | apply Z.pow_nonneg; lia ].
  - unfold round_half_up.
    assert (0 < 10 ^ (- (snd (printf_15g n d) + 2)))
      by (apply Z.pow_pos_nonneg; lia).
    apply Z.div_pos; lia.
Qed.

(** The cast raises one error, and what it yields fits the column. *)
Lemma float8_to_numeric_5_2_cases x :
  match float8_to_numeric_5_2 x with
  | Raise e => e = NumericValueOutOfRange
  | Ok (Num h) => - 100000 < h < 100000
  | Ok NumericNaN => x = S754_nan
  end.
Proof.
  destruct x as [s | s | | s m e]; cbn; try reflexivity; try lia.
  pose proof (hundredths_of_nonneg m e).
  destruct (Z.leb_spec 100000 (hundredths_of m e)); [ reflexivity | ].
  destruct s; lia.
Qed.

(** Where the cast of a finite float falls: a magnitude of 1000 and more
    does not fit, one of 999.99 and less does; hours of -0.005 and below
    stay negative, and hours from -0.004 on do not. *)
Lemma float8_to_numeric_5_2_thresholds s m e :
  let n := fst (magnitude m e) in
  let d := snd (magnitude m e) in
  let cast := float8_to_numeric_5_2 (S754_finite s m e) in
  (1000 * d <= n -> cast = Raise NumericValueOutOfRange)
  /\ (100 * n <= 99999 * d -> exists h, cast = Ok (Num h))
  /\ (s = true -> d <= 200 * n -> forall h, cast = Ok (Num h) -> h < 0)
  /\ (s = false \/ 250 * n <= d -> forall h, cast = Ok (Num h) -> 0 <= h).
Proof.
  cbv zeta. cbn [float8_to_numeric_5_2].
  destruct (magnitude_pos m e) as [Hn Hd].
  pose proof (round_scale_2_thresholds _ _ Hn Hd) as (H5 & H4 & Hbig & Hfit).
  cbv zeta in *. rewrite <- hundredths_of_eq in *.
  pose proof (hundredths_of_nonneg m e) as H0.
  destruct (Z.leb_spec 100000 (hundredths_of m e)) as [Ho | Ho].
  - split; [ reflexivity | ].
    split; [ intros Hx; specialize (Hfit Hx); lia | ].
    split; intros; discriminate.
  - split; [ intros Hx; specialize (Hbig Hx); lia | ].
    split; [ intros _; eexists; reflexivity | ].
    split.
    + intros -> Hx h [= <-]. specialize (H5 Hx). lia.
    + intros [-> | Hx] h [= <-]; [ lia | ]. rewrite (H4 Hx).
      now destruct s.
Qed.

(** Whether a person has an id can be looked up. *)
Lemma classic_person conn person_id :
  (exists p, In p (v2_people conn) /\ pe_id p = person_id)
  \/ ~ (exists p, In p (v2_people conn) /\ pe_id p = person_id).
Proof.
  rewrite <- existsb_id.
  destruct (existsb (fun p => pe_id p =? person_id) (v2_people conn));
    [ now left | right; discriminate ].
Qed.

Section AddEntry.

Variable date_in : string -> result Z.

(** What [time_add] does to the database, whatever the database: it
    fails and leaves the tables as they are, or it appends one draft. *)
Lemma time_add_shape conn p wd pj h n y w :
  let r := time_add date_in conn p wd pj h n y w in
  v2_people (fst r) = v2_people conn
  /\ v2_projects (fst r) = v2_projects conn
  /\ v2_people_id_seq (fst r) = v2_people_id_seq conn
  /\ v2_projects_id_seq (fst r) = v2_projects_id_seq conn
  /\ (((exists e, snd r = Raise e)
       /\ v2_time_entries (fst r) = v2_time_entries conn
       /\ (v2_time_entries_id_seq (fst r) = v2_time_entries_id_seq conn
           \/ v2_time_entries_id_seq (fst r)
              = v2_time_entries_id_seq conn + 1))
      \/ (exists d v,
            date_in wd = Ok d
            /\ float8_to_numeric_5_2 h = Ok v
            /\ numeric_ge_0 v = true
            /\ In p (map pe_id (v2_people conn))
            /\ (forall k, pj = Some k -> In k (map pj_id (v2_projects conn)))
            /\ snd r = Ok (RedirectResponse (my_week_url y w p))
            /\ v2_time_entries (fst r)
               = v2_time_entries conn
                 ++ [mk_entry (v2_time_entries_id_seq conn + 1) p pj d v n
                              "draft"]
            /\ v2_time_entries_id_seq (fst r)
               = v2_time_entries_id_seq conn + 1)).
Proof.
  cbv zeta. unfold time_add, insert_time_entry.
  assert (Hfail : forall (c : database) (e : exn),
             v2_people c = v2_people conn ->
             v2_projects c = v2_projects conn ->
             v2_people_id_seq c = v2_people_id_seq conn ->
             v2_projects_id_seq c = v2_projects_id_seq conn ->
             v2_time_entries c = v2_time_entries conn ->
             v2_time_entries_id_seq c = v2_time_entries_id_seq conn
             \/ v2_time_entries_id_seq c = v2_time_entries_id_seq conn + 1 ->
             forall P : Prop,
               v2_people c = v2_people conn
               /\ v2_projects c = v2_projects conn
               /\ v2_people_id_seq c = v2_people_id_seq conn
               /\ v2_projects_id_seq c = v2_projects_id_seq conn
               /\ (((exists e', @Raise response e = Raise e')
                    /\ v2_time_entries c = v2_time_entries conn
                    /\ (v2_time_entries_id_seq c = v2_time_entries_id_seq conn
                        \/ v2_time_entries_id_seq c
                           = v2_time_entries_id_seq conn + 1))
                   \/ P)).
  { intros c e H1 H2 H3 H4 H5 H6 P. repeat (split; [ assumption | ]).
    left. split; [ now exists e | split; assumption ]. }
  destruct (date_in wd) as [d | e];
    [ | cbn [fst snd]; apply Hfail; auto ].
  destruct (bigint p); cbn [negb];
    [ | cbn [fst snd]; apply Hfail; auto ].
  destruct (match pj with Some k => negb (bigint k) | None => false end);
    [ cbn [fst snd]; apply Hfail; auto | ].
  destruct (float8_to_numeric_5_2 h) as [v | e];
    [ | cbn [fst snd]; apply Hfail; auto ].
  cbv zeta.
  destruct (numeric_ge_0 v) eqn:Ev; cbn [negb];
    [ | cbn [fst snd]; apply Hfail; auto ].
  destruct (existsb _ _);
    [ cbn [fst snd]; apply Hfail; auto | ].
  cbn [with_time_entries_id_seq v2_time_entries v2_people v2_projects].
  destruct (existsb (fun q => pe_id q =? p) (v2_people conn)) eqn:Ep;
    cbn [negb]; [ | cbn [fst snd]; apply Hfail; auto ].
  assert (Hp : In p (map pe_id (v2_people conn))).
  { apply existsb_id in Ep. destruct Ep as (q & Hq & <-). now apply in_map. }
  destruct pj as [k | ].
  - destruct (existsb (fun q => pj_id q =? k) (v2_projects conn)) eqn:Ek;
      cbn [negb]; [ | cbn [fst snd]; apply Hfail; auto ].
    cbn. repeat (split; [ reflexivity | ]). right. exists d, v.
    repeat split; try assumption.
    intros k' E. injection E as <-. apply existsb_id in Ek.
    destruct Ek as (q & Hq & <-). now apply in_map.
  - cbn. repeat (split; [ reflexivity | ]). right. exists d, v.
    repeat split; try assumption. discriminate.
Qed.

(** What [time_add] answers and leaves, case by case. *)
Lemma time_add_outcome conn person_id work_date project_id hours notes
    year week :
  ids_from_sequence conn ->
  let r := time_add date_in conn person_id work_date project_id hours notes
                    year week in
  let drawn :=
    with_time_entries_id_seq conn (v2_time_entries_id_seq conn + 1) in
  match date_in work_date with
  | Raise e => r = (conn, Raise e)
  | Ok wd =>
      if negb (bigint person_id
               && match project_id with Some k => bigint k | None => true end)
      then r = (conn, Raise NumericValueOutOfRange)
      else
        match float8_to_numeric_5_2 hours with
        | Raise e => r = (conn, Raise NumericValueOutOfRange)
        | Ok v =>
            if negb (numeric_ge_0 v)
            then r = (drawn, Raise (CheckViolation "v2_time_entries_hours_check"))
            else
              (~ (exists p, In p (v2_people conn) /\ pe_id p = person_id) ->
               r = (drawn, Raise (ForeignKeyViolation
                                    "v2_time_entries_person_id_fkey")))
              /\ ((exists p, In p (v2_people conn) /\ pe_id p = person_id) ->
                  (exists k, project_id = Some k
                     /\ ~ exists p, In p (v2_projects conn) /\ pj_id p = k) ->
                  r = (drawn, Raise (ForeignKeyViolation
                                       "v2_time_entries_project_id_fkey")))
              /\ ((exists p, In p (v2_people conn) /\ pe_id p = person_id) ->
                  ~ (exists k, project_id = Some k
                       /\ ~ exists p, In p (v2_projects conn) /\ pj_id p = k) ->
                  r = (with_time_entries drawn
                         (v2_time_entries conn
                          ++ [mk_entry (v2_time_entries_id_seq conn + 1)
                                       person_id project_id wd v notes
                                       "draft"]),
                       Ok (RedirectResponse
                             (my_week_url year week person_id))))
        end
  end.
Proof.
  intros Hids. cbv zeta. unfold time_add, insert_time_entry.
  destruct (date_in work_date) as [wd | e]; [ | reflexivity ].
  destruct (bigint person_id); cbn [negb andb]; [ | reflexivity ].
  destruct (match project_id with Some k => bigint k | None => true end)
    eqn:Ek; cbn [negb].
  2: { destruct project_id as [k | ]; [ | discriminate ].
       rewrite Ek. reflexivity. }
  replace (match project_id with Some k => negb (bigint k) | None => false end)
    with false by (destruct project_id as [k | ]; [ now rewrite Ek | easy ]).
  pose proof (float8_to_numeric_5_2_cases hours) as Hc.
  destruct (float8_to_numeric_5_2 hours) as [v | e];
    [ | now rewrite Hc ].
  cbv zeta.
  destruct (numeric_ge_0 v); cbn [negb]; [ | reflexivity ].
  cbn [with_time_entries_id_seq v2_time_entries v2_people v2_projects].
  rewrite fresh_id by assumption.
  destruct (existsb (fun p => pe_id p =? person_id) (v2_people conn)) eqn:Ep;
    cbn [negb].
  2: { split; [ reflexivity | ].
       assert (Hno : ~ exists p, In p (v2_people conn) /\ pe_id p = person_id)
         by (rewrite <- existsb_id; congruence).
       split; intros; contradiction. }
  apply existsb_id in Ep.
  split; [ intros; contradiction | ].
  destruct project_id as [k | ].
  - destruct (existsb (fun p => pj_id p =? k) (v2_projects conn)) eqn:Ej;
      cbn [negb].
    + apply existsb_id in Ej. split; [ | reflexivity ].
      intros _ (k' & Hk & Hno). injection Hk as <-. contradiction.
    + split; [ reflexivity | ].
      intros _ Hno. exfalso. apply Hno. exists k. split; [ reflexivity | ].
      rewrite <- existsb_id. congruence.
  - split; [ | reflexivity ].
    intros _ (k' & Hk & _). discriminate.
Qed.

(** The outcomes of [time_add] by the cause of the failure. *)
Lemma time_add_errors conn person_id work_date project_id hours notes
    year week :
  ids_from_sequence conn ->
  let r := time_add date_in conn person_id work_date project_id hours notes
                    year week in
  let drawn :=
    with_time_entries_id_seq conn (v2_time_entries_id_seq conn + 1) in
  let ids_fit :=
    bigint person_id = true
    /\ forall k, project_id = Some k -> bigint k = true in
  let person_known :=
    exists p, In p (v2_people conn) /\ pe_id p = person_id in
  let project_unknown :=
    exists k, project_id = Some k
              /\ ~ exists p, In p (v2_projects conn) /\ pj_id p = k in
  (insert_rejected date_in conn person_id work_date project_id hours ->
   (exists e, snd r = Raise e) /\ (fst r = conn \/ fst r = drawn))
  /\ (~ insert_rejected date_in conn person_id work_date project_id hours ->
      exists wd v,
        date_in work_date = Ok wd
        /\ float8_to_numeric_5_2 hours = Ok v
        /\ r = (with_time_entries drawn
                  (v2_time_entries conn
                   ++ [mk_entry (v2_time_entries_id_seq conn + 1) person_id
                                project_id wd v notes "draft"]),
                Ok (RedirectResponse (my_week_url year week person_id))))
  /\ (forall e, date_in work_date = Raise e -> r = (conn, Raise e))
  /\ (forall wd, date_in work_date = Ok wd ->
      ~ ids_fit \/ (exists e, float8_to_numeric_5_2 hours = Raise e) ->
      r = (conn, Raise NumericValueOutOfRange))
  /\ (forall wd h, date_in work_date = Ok wd -> ids_fit ->
      float8_to_numeric_5_2 hours = Ok (Num h) -> h < 0 ->
      r = (drawn, Raise (CheckViolation "v2_time_entries_hours_check")))
  /\ (forall wd v, date_in work_date = Ok wd -> ids_fit ->
      float8_to_numeric_5_2 hours = Ok v -> numeric_ge_0 v = true ->
      ~ person_known ->
      r = (drawn, Raise (ForeignKeyViolation "v2_time_entries_person_id_fkey")))
  /\ (forall wd v, date_in work_date = Ok wd -> ids_fit ->
      float8_to_numeric_5_2 hours = Ok v -> numeric_ge_0 v = true ->
      person_known -> project_unknown ->
      r = (drawn,
           Raise (ForeignKeyViolation "v2_time_entries_project_id_fkey"))).
Proof.
  intros Hids. cbv zeta.
  pose proof (time_add_outcome conn person_id work_date project_id hours
                notes year week Hids) as H.
  cbv zeta in H. unfold insert_rejected.
  set (r := time_add date_in conn person_id work_date project_id hours notes
                     year week) in *.
  assert (Hfit : bigint person_id
                 && match project_id with Some k => bigint k | None => true end
                 = true
                 <-> bigint person_id = true
                     /\ forall k, project_id = Some k -> bigint k = true).
  { rewrite andb_true_iff. split; intros [Hp Hk]; (split; [ exact Hp | ]).
    - intros k ->. exact Hk.
    - destruct project_id as [k | ]; [ now apply Hk | reflexivity ]. }
  destruct (date_in work_date) as [wd | e] eqn:Ed.
  2: { rewrite H. cbn [fst snd].
       split; [ intros _; split; [ now exists e | now left ] | ].
       split; [ intros Hn; exfalso; apply Hn; left; now exists e | ].
       split; [ now intros e' [= <-] | ].
       repeat split; intros; discriminate. }
  destruct (bigint person_id
            && match project_id with Some k => bigint k | None => true end)
    eqn:Ef; cbn [negb] in H.
  2: { assert (Hnf : ~ (bigint person_id = true
                        /\ forall k, project_id = Some k -> bigint k = true))
         by (intros X; apply Hfit in X; discriminate).
       rewrite H. cbn [fst snd].
       split; [ intros _; split; [ eauto | now left ] | ].
       split.
       { intros Hn. exfalso. apply Hn. right.
         destruct (bigint person_id) eqn:Ep; [ right; left | now left ].
         destruct project_id as [k | ]; [ | discriminate ].
         exists k. split; [ reflexivity | exact Ef ]. }
       split; [ intros; discriminate | ].
       split; [ reflexivity | ].
       repeat split; intros; contradiction. }
  destruct (proj1 Hfit eq_refl) as [Efp Efk].
  destruct (float8_to_numeric_5_2 hours) as [v | e] eqn:Ec.
  2: { rewrite H. cbn [fst snd].
       split; [ intros _; split; [ eauto | now left ] | ].
       split; [ intros Hn; exfalso; apply Hn; do 3 right; left; now exists e | ].
       split; [ intros; discriminate | ].
       split; [ reflexivity | ].
       repeat split; intros; discriminate. }
  destruct (numeric_ge_0 v) eqn:Ev; cbn [negb] in H.
  2: { rewrite H. cbn [fst snd].
       destruct v as [h | ]; [ | discriminate ].
       cbn in Ev. apply Z.leb_gt in Ev.
       split; [ intros _; split; [ eauto | now right ] | ].
       split; [ intros Hn; exfalso; apply Hn; do 4 right; left; eauto | ].
       split; [ intros; discriminate | ].
       split; [ intros wd' _ [Hn | [e He]]; [ tauto | discriminate ] | ].
       split; [ reflexivity | ].
       split; intros wd' v' _ _ [= <-] Hge; cbn in Hge;
         apply Z.leb_le in Hge; lia. }
  destruct H as (Hperson & Hproject & Hok).
  assert (Hneg : forall h, v = Num h -> ~ h < 0).
  { intros h ->. cbn in Ev. apply Z.leb_le in Ev. lia. }
  split.
  { intros [[e He] | [Hp | [(k & Hk & Hb) | [[e He] | [(h & Hh & Hlt)
            | [Hno | Hunk]]]]]]; try discriminate; try congruence.
    - rewrite (Efk k Hk) in Hb. discriminate.
    - injection Hh as ->. now apply Hneg in Hlt.
    - rewrite (Hperson Hno). cbn [fst snd]. split; [ eauto | now right ].
    - destruct (classic_person conn person_id) as [Hyes | Hno].
      + rewrite (Hproject Hyes Hunk). cbn [fst snd].
        split; [ eauto | now right ].
      + rewrite (Hperson Hno). cbn [fst snd]. split; [ eauto | now right ]. }
  split.
  { intros Hn. exists wd, v. repeat split. apply Hok.
    - destruct (classic_person conn person_id) as [Hyes | Hno];
        [ exact Hyes | ].
      exfalso. apply Hn. do 5 right. now left.
    - intros Hunk. apply Hn. do 6 right. exact Hunk. }
  split; [ intros; discriminate | ].
  split; [ intros wd' _ [Hn | [e He]]; [ tauto | discriminate ] | ].
  split.
  { intros wd' h _ _ [= ->] Hlt. now apply Hneg in Hlt. }
  split.
  { intros wd' v' _ _ _ _ Hno. now apply Hperson. }
  intros wd' v' _ _ _ _ Hyes Hunk. now apply Hproject.
Qed.

(** C4 (as amended): in a database whose entry ids were drawn from the id
    sequence, [time_add] raises the database's error, which the handler
    does not catch, and creates no entry when the work date is no date,
    person_id or project_id is no BIGINT, the hours do not fit
    NUMERIC(5,2) or are negative once the database has rounded them to two
    decimals, person_id references no person, or a project_id is given
    that references no project; in every other case it appends one entry
    with status 'draft' and the rounded hours and redirects to the week.
    The error is that of the date text, NumericValueOutOfRange for an id
    or hours that do not fit (no id is drawn then), a violation of the
    CHECK for negative hours, of the foreign key of person_id for an
    unknown person and of the foreign key of project_id for an unknown
    project.  Of the hours: NaN fits and an infinity does not; a magnitude
    of 1000 and more does not fit and one of 999.99 and less does; hours
    of -0.005 and below are negative once rounded, hours from -0.004 on
    are not. *)
Theorem time_add_cases conn person_id work_date project_id hours notes
    year week :
  ids_from_sequence conn ->
  let r := time_add date_in conn person_id work_date project_id hours notes
                    year week in
  let drawn :=
    with_time_entries_id_seq conn (v2_time_entries_id_seq conn + 1) in
  let ids_fit :=
    bigint person_id = true
    /\ forall k, project_id = Some k -> bigint k = true in
  let person_known :=
    exists p, In p (v2_people conn) /\ pe_id p = person_id in
  let project_unknown :=
    exists k, project_id = Some k
              /\ ~ exists p, In p (v2_projects conn) /\ pj_id p = k in
  (insert_rejected date_in conn person_id work_date project_id hours ->
   (exists e, snd r = Raise e)
   /\ (fst r = conn \/ fst r = drawn)
   /\ v2_time_entries (fst r) = v2_time_entries conn)
  /\ (~ insert_rejected date_in conn person_id work_date project_id hours ->
      exists wd v,
        date_in work_date = Ok wd
        /\ float8_to_numeric_5_2 hours = Ok v
        /\ r = (with_time_entries drawn
                  (v2_time_entries conn
                   ++ [mk_entry (v2_time_entries_id_seq conn + 1) person_id
                                project_id wd v notes "draft"]),
                Ok (RedirectResponse (my_week_url year week person_id))))
  /\ (forall e, date_in work_date = Raise e -> r = (conn, Raise e))
  /\ (forall wd, date_in work_date = Ok wd ->
      ~ ids_fit \/ (exists e, float8_to_numeric_5_2 hours = Raise e) ->
      r = (conn, Raise NumericValueOutOfRange))
  /\ (forall wd h, date_in work_date = Ok wd -> ids_fit ->
      float8_to_numeric_5_2 hours = Ok (Num h) -> h < 0 ->
      r = (drawn, Raise (CheckViolation "v2_time_entries_hours_check")))
  /\ (forall wd v, date_in work_date = Ok wd -> ids_fit ->
      float8_to_numeric_5_2 hours = Ok v -> numeric_ge_0 v = true ->
      ~ person_known ->
      r = (drawn, Raise (ForeignKeyViolation "v2_time_entries_person_id_fkey")))
  /\ (forall wd v, date_in work_date = Ok wd -> ids_fit ->
      float8_to_numeric_5_2 hours = Ok v -> numeric_ge_0 v = true ->
      person_known -> project_unknown ->
      r = (drawn,
           Raise (ForeignKeyViolation "v2_time_entries_project_id_fkey")))
  /\ (forall s m e, hours = S754_finite s m e ->
      let n := fst (magnitude m e) in
      let d := snd (magnitude m e) in
      (1000 * d <= n ->
       float8_to_numeric_5_2 hours = Raise NumericValueOutOfRange)
      /\ (100 * n <= 99999 * d ->
          exists h, float8_to_numeric_5_2 hours = Ok (Num h))
      /\ (s = true -> d <= 200 * n ->
          forall h, float8_to_numeric_5_2 hours = Ok (Num h) -> h < 0)
      /\ (s = false \/ 250 * n <= d ->
          forall h, float8_to_numeric_5_2 hours = Ok (Num h) -> 0 <= h))
  /\ (hours = S754_nan -> float8_to_numeric_5_2 hours = Ok NumericNaN)
  /\ (forall s, hours = S754_infinity s ->
      float8_to_numeric_5_2 hours = Raise NumericValueOutOfRange).
Proof.
  intros Hids. cbv zeta.
  pose proof (time_add_errors conn person_id work_date project_id hours
                notes year week Hids) as H.
  cbv zeta in H.
  destruct H as (H1 & H2 & H3 & H4 & H5 & H6 & H7).
  split.
  { intros Hr. destruct (H1 Hr) as [He [Hc | Hc]];
      (split; [ exact He | ]); (split; [ auto | ]); now rewrite Hc. }
  split; [ exact H2 | ]. split; [ exact H3 | ].
  split; [ exact H4 | ]. split; [ exact H5 | ]. split; [ exact H6 | ].
  split; [ exact H7 | ].
  split; [ | split ].
  - intros s m e ->. apply float8_to_numeric_5_2_thresholds.
  - now intros ->.
  - now intros s ->.
Qed.

(** The statuses written by the handlers are the three enumerated ones. *)
Lemma handle_statuses conn rq :
  statuses_enumerated conn -> statuses_enumerated (fst (handle date_in conn rq)).
Proof.
  unfold statuses_enumerated. intros H.
  destruct rq as [p wd pj h n y w | e p y w | p y w | e | e]; cbn [handle].
  - destruct (time_add_shape conn p wd pj h n y w)
      as (_ & _ & _ & _ & [(_ & -> & _) | (d & v & _ & _ & _ & _ & _ & _
                                          & -> & _)]);
      [ exact H | ].
    apply Forall_app. split; [ exact H | ].
    constructor; [ | constructor ]. left. reflexivity.
  - cbn. now apply delete_where_enumerated.
  - unfold time_submit_week.
    destruct (_ <- iso_week_dates y w ;; _) as [[start end_] | ex];
      cbn; [ | exact H ].
    apply update_status_enumerated; [ right; left; reflexivity | exact H ].
  - cbn. apply update_status_enumerated; [ | exact H ].
    right; right; reflexivity.
  - cbn. apply update_status_enumerated; [ left; reflexivity | exact H ].
Qed.

(** C8: in every state reached by add_entry, delete_entry, submit_week,
    approve and reject from a database without time entries, every time
    entry has one of the statuses draft, submitted, approved. *)
Theorem reachable_statuses conn :
  reachable date_in conn -> statuses_enumerated conn.
Proof.
  induction 1 as [conn Hinit | conn rq _ IH].
  - unfold statuses_enumerated. rewrite Hinit. constructor.
  - now apply handle_statuses.
Qed.

(** The ids of the entries stay below the sequence. *)
Lemma handle_ids_from_sequence conn rq :
  ids_from_sequence conn -> ids_from_sequence (fst (handle date_in conn rq)).
Proof.
  unfold ids_from_sequence. intros H.
  destruct rq as [p wd pj h n y w | e p y w | p y w | e | e]; cbn [handle].
  - assert (H' : Forall (fun e => te_id e <= v2_time_entries_id_seq conn + 1)
                        (v2_time_entries conn))
      by (revert H; apply Forall_impl; intros; lia).
    destruct (time_add_shape conn p wd pj h n y w)
      as (_ & _ & _ & _ & [(_ & -> & [-> | ->])
                          | (d & v & _ & _ & _ & _ & _ & _ & -> & ->)]);
      [ exact H | exact H' | ].
    apply Forall_app. split; [ exact H' | ].
    constructor; [ cbn; lia | constructor ].
  - cbn. unfold delete_where. rewrite Forall_forall in *.
    intros x Hx. apply filter_In in Hx. now apply H.
  - unfold time_submit_week.
    destruct (_ <- iso_week_dates y w ;; _) as [[start end_] | ex];
      cbn; [ | exact H ].
    unfold update_status. rewrite Forall_map. revert H. apply Forall_impl.
    intros x Hx. now destruct (_ && _).
  - cbn. unfold update_status. rewrite Forall_map. revert H.
    apply Forall_impl. intros x Hx. now destruct (_ =? _).
  - cbn. unfold update_status. rewrite Forall_map. revert H.
    apply Forall_impl. intros x Hx. now destruct (_ =? _).
Qed.

Lemma handle_projects conn rq :
  v2_projects (fst (handle date_in conn rq)) = v2_projects conn.
Proof.
  destruct rq as [p wd pj h n y w | e p y w | p y w | e | e]; cbn [handle];
    try reflexivity.
  - apply time_add_shape.
  - unfold time_submit_week.
    now destruct (_ <- iso_week_dates y w ;; _) as [[start end_] | ex].
Qed.

(** What the theorem on [time_add] assumes of the database holds in every
    reachable state. *)
Lemma reachable_ids_from_sequence conn :
  reachable date_in conn -> ids_from_sequence conn.
Proof.
  induction 1 as [conn Hinit | conn rq _ IH].
  - unfold ids_from_sequence. rewrite Hinit. constructor.
  - now apply handle_ids_from_sequence.
Qed.

End AddEntry.

Lemma missing_entry_no_op_witness :
  time_delete example_week 5 1 2024 1
  = (example_week, Ok (RedirectResponse (my_week_url 2024 1 1)))
  /\ approvals_approve example_week 5
     = (example_week, Ok (RedirectResponse approvals_url))
  /\ approvals_reject example_week 5
     = (example_week, Ok (RedirectResponse approvals_url)).
Proof.
  apply (proj1 (missing_entry_no_op example_week 5 1 2024 1)).
  vm_compute. repeat constructor; discriminate.
Defined.

(** C4, as stated, fails when the person exists and hours are not negative
    but the project does not exist: the INSERT violates the foreign key of
    project_id and no entry is created. *)
Lemma time_add_unknown_project :
  let conn := ensure_v2_schema empty_database in
  let r := time_add demo_date_in conn 1 "2024-01-02" (Some 7) float_8 None
                    2024 1 in
  SFltb float_8 (S754_zero false) = false
  /\ (exists p, In p (v2_people conn) /\ pe_id p = 1)
  /\ snd r = Raise (ForeignKeyViolation "v2_time_entries_project_id_fkey")
  /\ v2_time_entries (fst r) = v2_time_entries conn.
Proof.
  cbv zeta. split; [ reflexivity | ]. split.
  - eexists. split; [ left; reflexivity | reflexivity ].
  - split; reflexivity.
Qed.

(** The hours the database stores are the float rounded to two decimals,
    so hours of -0.001 are no negative hours for the CHECK: the entry is
    created with 0.00.  Hours of -0.005 round to -0.01 and fail; NaN is
    stored as NaN; 999.995 rounds to 1000.00, which the column cannot
    hold, and neither can an infinity. *)
Example time_add_rounds_hours :
  let conn := ensure_v2_schema empty_database in
  let add hours :=
    time_add demo_date_in conn 1 "2024-01-02" None hours None 2024 1 in
  let stored hours :=
    (with_time_entries (with_time_entries_id_seq conn 1)
       [mk_entry 1 1 None 738887 hours None "draft"],
     Ok (RedirectResponse (my_week_url 2024 1 1))) in
  SFltb (float_of_thousandths (-1)) (S754_zero false) = true
  /\ add (float_of_thousandths (-1)) = stored (Num 0)
  /\ add (float_of_thousandths (-5))
     = (with_time_entries_id_seq conn 1,
        Raise (CheckViolation "v2_time_entries_hours_check"))
  /\ add S754_nan = stored NumericNaN
  /\ add (float_of_thousandths 999994) = stored (Num 99999)
  /\ add (float_of_thousandths 999995) = (conn, Raise NumericValueOutOfRange)
  /\ add (S754_infinity false) = (conn, Raise NumericValueOutOfRange)
  /\ add float_0_1 = stored (Num 10).
Proof. vm_compute. repeat split. Qed.

Lemma time_add_cases_witness :
  time_add demo_date_in example_week 1 "2024-01-03" (Some 1)
           (float_of_thousandths (-10)) None 2024 1
  = (with_time_entries_id_seq example_week 3,
     Raise (CheckViolation "v2_time_entries_hours_check"))
  /\ time_add demo_date_in example_week 1 "2024-01-03" (Some 7)
              float_8 None 2024 1
     = (with_time_entries_id_seq example_week 3,
        Raise (ForeignKeyViolation "v2_time_entries_project_id_fkey")).
Proof.
  assert (Hids : ids_from_sequence example_week)
    by (vm_compute; repeat constructor; discriminate).
  split.
  - apply (proj1 (proj2 (proj2 (proj2 (proj2
             (time_add_cases demo_date_in example_week 1 "2024-01-03"
                (Some 1) (float_of_thousandths (-10)) None 2024 1 Hids)))))
             738888 (-1)).
    + reflexivity.
    + split; [ reflexivity | intros k [= <-]; reflexivity ].
    + vm_compute. reflexivity.
    + lia.
  - apply (proj1 (proj2 (proj2 (proj2 (proj2 (proj2 (proj2
             (time_add_cases demo_date_in example_week 1 "2024-01-03"
                (Some 7) float_8 None 2024 1 Hids)))))))
             738888 (Num 800)).
    + reflexivity.
    + split; [ reflexivity | intros k [= <-]; reflexivity ].
    + vm_compute. reflexivity.
    + reflexivity.
    + vm_compute.
      exists (mk_person 1 "Ada Lovelace" (Some "ada@example.com")).
      split; [ left; reflexivity | reflexivity ].
    + exists 7. split; [ reflexivity | ].
      vm_compute. intros (p & [<- | []] & Hp). discriminate Hp.
Defined.

Lemma reachable_statuses_witness :
  statuses_enumerated
    (fst (handle demo_date_in
            (fst (handle demo_date_in (ensure_v2_schema empty_database)
                         (add_entry 1 "2024-01-02" None float_8 None 2024 1)))
            (approve 1))).
Proof.
  apply (reachable_statuses demo_date_in).
  apply reachable_step, reachable_step, reachable_init. reflexivity.
Defined.

(* ================================================================== *)
(** ** Properties of the my-week page *)

Section MyWeekPage.

(** The rows of the week all fall on one of its days. *)
Lemma select_week_rows_days conn pid days o :
  days = map (fun i => fromordinal (o + i)) range7 ->
  forall r, In r (select_week_rows conn pid (first_of days) (last_of days)) ->
            In (r_work_date r) days.
Proof.
  intros Ho r Hr. unfold select_week_rows in Hr.
  apply in_map_iff in Hr. destruct Hr as (j & <- & Hj).
  apply (Permutation_in _ (order_by_perm _ _)) in Hj.
  apply filter_In in Hj. destruct Hj as [_ Hj].
  unfold in_week, between in Hj.
  rewrite !andb_true_iff, !Z.leb_le in Hj.
  destruct (week_first_last o) as [Hf Hl]. rewrite <- Ho in Hf, Hl.
  cbn [to_week_row r_work_date]. rewrite Ho. apply week_covers. lia.
Qed.

(** What the page shows once the person and the dates are there: the
    grouping loop cannot fail. *)
Lemma my_week_rendered conn today year week person_id pid days :
  match person_id with
  | Some v => if v =? 0 then pick_default_person_id conn else Ok v
  | None => pick_default_person_id conn
  end = Ok pid ->
  iso_week_dates (py_or year (fst (isocalendar today)))
                 (py_or week (snd (isocalendar today))) = Ok days ->
  my_week conn today year week person_id
  = render_or_fallback "my_week.html"
      (mk_ctx (py_or year (fst (isocalendar today)))
              (py_or week (snd (isocalendar today)))
              days
              (map (fun d =>
                      (d, filter (fun r => date_eqb (r_work_date r) d)
                                 (select_week_rows conn pid (first_of days)
                                                   (last_of days))))
                   days)
              pid
              (running_total
                 (map r_hours
                      (select_week_rows conn pid (first_of days)
                                        (last_of days))))
              (aggregate_status
                 (filter (in_week pid (toordinal (first_of days))
                                  (toordinal (last_of days)))
                         (v2_time_entries conn)))).
Proof.
  intros Hp Hdays.
  destruct (iso_week_dates_ordinals _ _ _ Hdays) as [o Ho].
  unfold my_week. destruct (isocalendar today) as [y w]. cbn [fst snd] in *.
  rewrite Hp, Hdays. cbn [bind].
  assert (Hnd : NoDup days) by (rewrite Ho; apply week_nodup).
  change (@nil (date * list week_row))
    with (map (fun d : date => (d, @nil week_row)) []).
  rewrite (dict_of_days (@nil week_row) days []) by exact Hnd.
  cbn [app].
  rewrite (group_rows_spec days _ Hnd (fun _ => []))
    by (now apply (select_week_rows_days conn pid days o)).
  cbn [bind app].
  rewrite <- select_week_flags_hint.
  destruct (select_week_flags conn pid (first_of days) (last_of days))
    as [all_approved any_submitted].
  reflexivity.
Qed.

End MyWeekPage.

(** C10: without a person_id, GET /my-week takes the existing person with
    the smallest id: when the dates of the week are computed the page is
    rendered, for that person, and when they are not the error page shows
    the error of the dates.  When there is no person at all it answers
    with the error page of RuntimeError "No v2_people in DB" and renders
    no week. *)
Theorem my_week_default_person conn today year week :
  (v2_people conn = [] ->
   pick_default_person_id conn = Raise (RuntimeError "No v2_people in DB")
   /\ my_week conn today year week None
      = html_error "While rendering /my-week"
                   (RuntimeError "No v2_people in DB"))
  /\ (v2_people conn <> [] ->
      exists pid,
        pick_default_person_id conn = Ok pid
        /\ (exists p, In p (v2_people conn) /\ pe_id p = pid)
        /\ (forall p, In p (v2_people conn) -> pid <= pe_id p)
        /\ match iso_week_dates (py_or year (fst (isocalendar today)))
                                (py_or week (snd (isocalendar today))) with
           | Ok days =>
               exists ctx,
                 my_week conn today year week None
                 = render_or_fallback "my_week.html" ctx
                 /\ c_person_id ctx = pid
                 /\ c_days ctx = days
           | Raise e =>
               my_week conn today year week None
               = html_error "While rendering /my-week" e
           end
        /\ (forall tpl ctx,
              my_week conn today year week None = render_or_fallback tpl ctx ->
              c_person_id ctx = pid)).
Proof.
  pose proof (pick_default_person_id_least conn) as H.
  destruct (pick_default_person_id conn) as [pid | e] eqn:Epick.
  - destruct H as [Hin Hmin]. split.
    + intros Hnil. destruct Hin as (p & Hp & _). rewrite Hnil in Hp.
      destruct Hp.
    + intros _. exists pid.
      split; [ reflexivity | ]. split; [ assumption | ].
      split; [ assumption | ].
      destruct (iso_week_dates (py_or year (fst (isocalendar today)))
                               (py_or week (snd (isocalendar today))))
        as [days | e] eqn:Edays.
      * rewrite (my_week_rendered conn today year week None pid days Epick
                   Edays).
        split.
        -- eexists. split; [ reflexivity | ]. split; reflexivity.
        -- intros tpl ctx E. injection E as _ <-. reflexivity.
      * assert (Herr : my_week conn today year week None
                       = html_error "While rendering /my-week" e).
        { unfold my_week. destruct (isocalendar today) as [y w].
          cbn [fst snd] in Edays. rewrite Epick. cbn [bind].
          rewrite Edays. reflexivity. }
        rewrite Herr. split; [ reflexivity | ]. intros; discriminate.
  - destruct H as [Hnil ->]. split.
    + intros _. split; [ reflexivity | ].
      unfold my_week. destruct (isocalendar today) as [y w].
      rewrite Epick. reflexivity.
    + intros Hne. contradiction.
Qed.

Lemma my_week_default_person_witness :
  exists pid,
    pick_default_person_id example_people = Ok pid
    /\ (exists p, In p (v2_people example_people) /\ pe_id p = pid)
    /\ (forall p, In p (v2_people example_people) -> pid <= pe_id p)
    /\ match iso_week_dates
               (py_or None (fst (isocalendar (mkdate 2024 1 3))))
               (py_or None (snd (isocalendar (mkdate 2024 1 3)))) with
       | Ok days =>
           exists ctx,
             my_week example_people (mkdate 2024 1 3) None None None
             = render_or_fallback "my_week.html" ctx
             /\ c_person_id ctx = pid
             /\ c_days ctx = days
       | Raise e =>
           my_week example_people (mkdate 2024 1 3) None None None
           = html_error "While rendering /my-week" e
       end
    /\ (forall tpl ctx,
          my_week example_people (mkdate 2024 1 3) None None None
          = render_or_fallback tpl ctx ->
          c_person_id ctx = pid).
Proof.
  apply (proj2 (my_week_default_person example_people (mkdate 2024 1 3)
                                       None None)).
  vm_compute. discriminate.
Defined.

(** The default person of the example: the people are 2 and 3, and the
    page of the week of 2024-01-03 is rendered for person 2. *)
Example my_week_default_person_example :
  map pe_id (v2_people example_people) = [2; 3]
  /\ match my_week example_people (mkdate 2024 1 3) None None None with
     | render_or_fallback _ ctx =>
         c_person_id ctx = 2 /\ c_year ctx = 2024 /\ c_week ctx = 1
     | _ => False
     end.
Proof. vm_compute. repeat split. Qed.



(** The example of the specification: one approved entry of 6 hours and
    one submitted entry of 2 hours in the same week; the total is the
    float 8.0. *)
Example my_week_example :
  map te_status (v2_time_entries example_week) = ["approved"; "submitted"]
  /\ map te_hours (v2_time_entries example_week) = [Num 600; Num 200]
  /\ match my_week example_week (mkdate 2024 1 3) (Some 2024) (Some 1)
                   (Some 1) with
     | render_or_fallback _ ctx =>
         c_total_hours ctx = float_8 /\ c_status_hint ctx = "submitted"
     | _ => False
     end.
Proof. vm_compute. repeat split. Qed.


(** The example of the specification: an added entry becomes 'submitted'
    with the first submit of its week and stays so with the second. *)
Example submit_week_example :
  let c0 := ensure_v2_schema empty_database in
  let c1 := fst (time_add demo_date_in c0 1 "2024-01-02" None float_8 None
                          2024 1) in
  let c2 := fst (time_submit_week c1 1 2024 1) in
  let c3 := fst (time_submit_week c2 1 2024 1) in
  map te_status (v2_time_entries c1) = ["draft"]
  /\ map te_status (v2_time_entries c2) = ["submitted"]
  /\ map te_status (v2_time_entries c3) = ["submitted"].
Proof. vm_compute. repeat split. Qed.

(* ================================================================== *)
(** ** More on the calendar: date objects, today's week, adjacent weeks *)

Section TodayWeek.

Lemma date_object_valid_md d :
  date_object d -> valid_md (_is_leap (year d)) (month d) (day d) = true.
Proof.
  intros (Hy & Hm & Hd). unfold _days_in_month in Hd. unfold valid_md.
  rewrite !andb_true_iff, !Z.leb_le. lia.
Qed.

Lemma date_leb_antisym a b :
  date_leb a b = true -> date_leb b a = true -> a = b.
Proof.
  unfold date_leb. destruct a as [y1 m1 d1], b as [y2 m2 d2].
  cbn [year month day].
  rewrite !orb_true_iff, !andb_true_iff, !orb_true_iff, !andb_true_iff,
    !Z.ltb_lt, !Z.eqb_eq, !Z.leb_le.
  intros H1 H2. f_equal; lia.
Qed.

(** [fromordinal] undoes [toordinal] on date objects. *)
Lemma fromordinal_toordinal d :
  date_object d -> fromordinal (toordinal d) = d.
Proof.
  intros Hd. pose proof (date_object_valid_md d Hd) as Hv.
  unfold fromordinal, toordinal.
  pose proof (ord2ymd_spec (_ymd2ord (year d) (month d) (day d))) as Hs.
  destruct (_ord2ymd _) as [[y m] dd]. destruct Hs as [Ho Hv'].
  destruct d as [y0 m0 d0]. cbn [year month day] in *.
  apply date_leb_antisym; apply ymd_lex_le; auto; lia.
Qed.

Lemma toordinal_range d :
  date_object d -> 1 <= toordinal d <= _MAXORDINAL.
Proof.
  intros Hd. pose proof (date_object_valid_md d Hd) as Hv.
  destruct Hd as ([Hlo Hhi] & _). unfold MINYEAR, MAXYEAR in *.
  pose proof (day_of_year_bounds _ _ _ Hv) as Hb.
  unfold toordinal, _ymd2ord, _days_before_month.
  pose proof (days_before_year_mono 1 (year d) ltac:(lia)) as H1.
  pose proof (days_before_year_mono (year d + 1) 10000 ltac:(lia)) as H2.
  rewrite days_before_year_succ in H2.
  change (_days_before_year 1) with 0 in H1.
  change (_days_before_year 10000) with 3652059 in H2.
  change _MAXORDINAL with 3652059. lia.
Qed.

Lemma toordinal_year d :
  date_object d ->
  _days_before_year (year d) < toordinal d <= _days_before_year (year d + 1).
Proof.
  intros Hd. pose proof (date_object_valid_md d Hd) as Hv.
  pose proof (day_of_year_bounds _ _ _ Hv) as Hb.
  rewrite days_before_year_succ.
  unfold toordinal, _ymd2ord, _days_before_month. lia.
Qed.

(** What [isocalendar] returns: a week of the year it names, and the week
    the day lies in. *)
Lemma isocalendar_week d :
  date_object d ->
  let '(y, w) := isocalendar d in
  valid_year_week y w
  /\ _isoweek1monday y + (w - 1) * 7 <= toordinal d
     <= _isoweek1monday y + (w - 1) * 7 + 6.
Proof.
  intros Hd. pose proof (toordinal_year d Hd) as Ht.
  pose proof (toordinal_range d Hd) as Hr.
  destruct Hd as ([Hlo Hhi] & _). unfold MINYEAR, MAXYEAR in *.
  unfold isocalendar, valid_year_week, MINYEAR, MAXYEAR. cbv zeta.
  set (Y := year d) in *. set (t := toordinal d) in *. clearbody Y t.
  pose proof (isoweek1monday_bounds Y) as Bw.
  pose proof (isoweek1monday_bounds (Y + 1)) as Bw1.
  pose proof (isoweek1monday_succ Y) as Hs.
  pose proof (iso_weeks_in_year_range Y) as HK.
  destruct (Z.ltb_spec ((t - _isoweek1monday Y) / 7) 0) as [Hneg | Hpos].
  - (* the last week of the year before *)
    pose proof (isoweek1monday_succ (Y - 1)) as Hp.
    replace (Y - 1 + 1) with Y in Hp by lia.
    pose proof (iso_weeks_in_year_range (Y - 1)) as HK'.
    assert (Y <> 1).
    { intros ->. change (_isoweek1monday 1) with 1 in *.
      revert Hneg. Z.div_mod_to_equations. lia. }
    revert Hneg. Z.div_mod_to_equations. lia.
  - destruct (Z.leb_spec 52 ((t - _isoweek1monday Y) / 7)) as [H52 | H52];
      cbn [andb].
    + destruct (Z.leb_spec (_isoweek1monday (Y + 1)) t) as [Hnext | Hnext].
      * pose proof (iso_weeks_in_year_range (Y + 1)) as HK1.
        assert (Y <> 9999).
        { intros ->. change (_isoweek1monday (9999 + 1)) with 3652062 in *.
          change _MAXORDINAL with 3652059 in *. lia. }
        lia.
      * revert Hpos H52. Z.div_mod_to_equations. lia.
    + revert Hpos H52. Z.div_mod_to_equations. lia.
Qed.

Lemma fromisocalendar_ordinal year week monday :
  fromisocalendar year week 1 = Ok monday ->
  monday = fromordinal (_isoweek1monday year + (week - 1) * 7).
Proof.
  unfold fromisocalendar, _isoweek_to_gregorian. cbv zeta.
  replace (_isoweek1monday year + ((week - 1) * 7 + (1 - 1)))
    with (_isoweek1monday year + (week - 1) * 7) by lia.
  unfold fromordinal.
  repeat match goal with
    | |- context [if ?c then _ else _] => destruct c
    end; cbn [bind]; try discriminate.
  all: destruct (_ord2ymd _) as [[y m] dd]; intros E; now injection E as <-.
Qed.

(** The Monday [iso_week_dates] starts from, whenever it returns. *)
Lemma iso_week_dates_from year week days :
  iso_week_dates year week = Ok days ->
  days = map (fun i => fromordinal (_isoweek1monday year + (week - 1) * 7 + i))
             range7.
Proof.
  unfold iso_week_dates.
  destruct (fromisocalendar year week 1) as [monday | e] eqn:Em;
    cbn [bind]; [ | discriminate ].
  apply fromisocalendar_ordinal in Em. subst monday.
  apply comprehension_map. intros i a Ha. apply add_days_ordinal in Ha.
  now rewrite toordinal_fromordinal in Ha.
Qed.

End TodayWeek.

(** X1: for every date object [today], GET / redirects to a valid
    (ISO year, ISO week) pair, and unless that pair is (9999, 52) the week
    [iso_week_dates] computes for it contains [today]; the pair is
    (9999, 52) exactly from 9999-12-27 on. *)
Theorem root_redirect_today today :
  date_object today ->
  exists y w,
    root_redirect today = Found_my_week y w
    /\ valid_year_week y w
    /\ ((y, w) <> (9999, 52) ->
        exists days, iso_week_dates y w = Ok days /\ In today days)
    /\ ((y, w) = (9999, 52) <->
        date_leb (mkdate 9999 12 27) today = true).
Proof.
  intros Hd. pose proof (isocalendar_week today Hd) as H.
  pose proof (toordinal_range today Hd) as Hr.
  unfold root_redirect. destruct (isocalendar today) as [y w].
  destruct H as [Hv [Hlo Hhi]].
  exists y, w. split; [ reflexivity | ]. split; [ exact Hv | ]. split.
  - intros Hne. eexists. split; [ now apply iso_week_dates_eq | ].
    rewrite <- (fromordinal_toordinal today Hd). apply week_covers. lia.
  - assert (H27 : toordinal (mkdate 9999 12 27) = 3652055)
      by (vm_compute; reflexivity).
    assert (Hd27 : date_object (mkdate 9999 12 27))
      by (vm_compute; intuition discriminate).
    split.
    + intros E. injection E as -> ->.
      change (_isoweek1monday 9999) with 3651698 in *.
      rewrite <- (fromordinal_toordinal today Hd).
      rewrite <- (fromordinal_toordinal _ Hd27).
      apply fromordinal_mono. lia.
    + intros Hle.
      assert (Ht : 3652055 <= toordinal today).
      { destruct (Z.le_gt_cases 3652055 (toordinal today)) as [ | Hlt];
          [ assumption | exfalso ].
        assert (Hrev : date_leb today (mkdate 9999 12 27) = true).
        { rewrite <- (fromordinal_toordinal today Hd).
          rewrite <- (fromordinal_toordinal _ Hd27).
          apply fromordinal_mono. lia. }
        pose proof (date_leb_antisym _ _ Hle Hrev) as E.
        rewrite <- E in Hlt. lia. }
      destruct Hv as [[Hy1 Hy2] [Hw1 Hw2]]. unfold MINYEAR, MAXYEAR in *.
      change _MAXORDINAL with 3652059 in Hr.
      pose proof (isoweek1monday_succ y) as Hs.
      pose proof (isoweek1monday_bounds (y + 1)) as Hb.
      destruct (Z.eq_dec y 9999) as [-> | Hny].
      * change (_isoweek1monday 9999) with 3651698 in *.
        f_equal. lia.
      * exfalso.
        pose proof (days_before_year_mono (y + 1) 9999 ltac:(lia)) as Hm.
        change (_days_before_year 9999) with 3651694 in Hm. lia.
Qed.

Lemma root_redirect_today_witness :
  exists y w,
    root_redirect (mkdate 2024 1 3) = Found_my_week y w
    /\ valid_year_week y w
    /\ ((y, w) <> (9999, 52) ->
        exists days, iso_week_dates y w = Ok days
                     /\ In (mkdate 2024 1 3) days)
    /\ ((y, w) = (9999, 52) <->
        date_leb (mkdate 9999 12 27) (mkdate 2024 1 3) = true).
Proof.
  apply (root_redirect_today (mkdate 2024 1 3)).
  vm_compute. intuition discriminate.
Defined.

(** X2: the weeks [iso_week_dates] computes lie end to end: week + 1 of the
    same year, or week 1 of the next year after the last week of a year,
    starts the day after the week ends. *)
Theorem iso_week_dates_adjacent year week days days' :
  iso_week_dates year week = Ok days ->
  iso_week_dates year (week + 1) = Ok days'
  \/ (week = iso_weeks_in_year year
      /\ iso_week_dates (year + 1) 1 = Ok days') ->
  toordinal (first_of days') = toordinal (last_of days) + 1.
Proof.
  intros H [H' | [Hw H']];
    apply iso_week_dates_from in H; apply iso_week_dates_from in H';
    subst days days'.
  - destruct (week_first_last (_isoweek1monday year + (week - 1) * 7))
      as [_ ->].
    destruct (week_first_last (_isoweek1monday year + (week + 1 - 1) * 7))
      as [-> _].
    lia.
  - destruct (week_first_last (_isoweek1monday year + (week - 1) * 7))
      as [_ ->].
    destruct (week_first_last (_isoweek1monday (year + 1) + (1 - 1) * 7))
      as [-> _].
    rewrite isoweek1monday_succ. lia.
Qed.

Lemma iso_week_dates_adjacent_witness :
  toordinal (first_of [mkdate 2021 1 4; mkdate 2021 1 5; mkdate 2021 1 6;
                       mkdate 2021 1 7; mkdate 2021 1 8; mkdate 2021 1 9;
                       mkdate 2021 1 10])
  = toordinal (last_of [mkdate 2020 12 28; mkdate 2020 12 29;
                        mkdate 2020 12 30; mkdate 2020 12 31;
                        mkdate 2021 1 1; mkdate 2021 1 2; mkdate 2021 1 3])
    + 1.
Proof.
  apply (iso_week_dates_adjacent 2020 53).
  - vm_compute. reflexivity.
  - right. split; vm_compute; reflexivity.
Defined.

(** X3: GET /my-week answers with the rendered week or with its error
    page, never with anything else; the error page comes from exactly two
    causes: no person_id was given and there is no person, or the dates
    of the (year, week) cannot be computed.  In particular the grouping
    loop never raises KeyError. *)
Theorem my_week_outcomes conn today year week person_id :
  let no_person :=
    (person_id = None \/ person_id = Some 0) /\ v2_people conn = [] in
  let dates :=
    iso_week_dates (py_or year (fst (isocalendar today)))
                   (py_or week (snd (isocalendar today))) in
  match my_week conn today year week person_id with
  | render_or_fallback tpl ctx =>
      tpl = "my_week.html" /\ ~ no_person /\ dates = Ok (c_days ctx)
  | html_error msg e =>
      msg = "While rendering /my-week"
      /\ ((no_person /\ e = RuntimeError "No v2_people in DB")
          \/ (~ no_person /\ dates = Raise e))
  | RedirectResponse _ => False
  end.
Proof.
  cbv zeta.
  pose proof (pick_default_person_id_least conn) as Hpick.
  assert (Hres :
    (exists pid,
        match person_id with
        | Some v => if v =? 0 then pick_default_person_id conn else Ok v
        | None => pick_default_person_id conn
        end = Ok pid
        /\ ~ ((person_id = None \/ person_id = Some 0)
              /\ v2_people conn = []))
    \/ (match person_id with
        | Some v => if v =? 0 then pick_default_person_id conn else Ok v
        | None => pick_default_person_id conn
        end = Raise (RuntimeError "No v2_people in DB")
        /\ (person_id = None \/ person_id = Some 0)
        /\ v2_people conn = [])).
  { destruct person_id as [v | ]; [ destruct (Z.eqb_spec v 0) as [-> | Hv] | ].
    - destruct (pick_default_person_id conn) as [pid | e].
      + left. exists pid. split; [ reflexivity | ].
        intros [_ Hnil]. destruct Hpick as [(p & Hp & _) _].
        rewrite Hnil in Hp. destruct Hp.
      + destruct Hpick as [Hnil ->]. right. auto.
    - left. exists v. split; [ reflexivity | ].
      intros [[H | H] _]; [ discriminate | ]. injection H as ->. lia.
    - destruct (pick_default_person_id conn) as [pid | e].
      + left. exists pid. split; [ reflexivity | ].
        intros [_ Hnil]. destruct Hpick as [(p & Hp & _) _].
        rewrite Hnil in Hp. destruct Hp.
      + destruct Hpick as [Hnil ->]. right. auto. }
  destruct Hres as [(pid & Hp & Hno) | (Hp & Hfalsy & Hnil)].
  - destruct (iso_week_dates (py_or year (fst (isocalendar today)))
                             (py_or week (snd (isocalendar today))))
      as [days | e] eqn:Hdays.
    + rewrite (my_week_rendered conn today year week person_id pid days Hp
                 Hdays).
      cbn [c_days]. auto.
    + unfold my_week. destruct (isocalendar today) as [y w].
      cbn [fst snd] in Hdays. rewrite Hp, Hdays. cbn [bind].
      split; [ reflexivity | ]. right. auto.
  - unfold my_week. destruct (isocalendar today) as [y w].
    rewrite Hp. cbn [bind]. split; [ reflexivity | ]. left. auto.
Qed.

(* ================================================================== *)
(** ** Seeding, and deleting people and projects *)

Section SeedAndDelete.


Lemma pick_default_person_id_some conn :
  v2_people conn <> [] -> exists pid, pick_default_person_id conn = Ok pid.
Proof.
  intros Hne. pose proof (pick_default_person_id_least conn) as H.
  destruct (pick_default_person_id conn) as [pid | e]; [ eauto | ].
  now destruct H.
Qed.

Lemma pick_default_person_id_none conn :
  v2_people conn = [] ->
  pick_default_person_id conn = Raise (RuntimeError "No v2_people in DB").
Proof. intros H. unfold pick_default_person_id. now rewrite H. Qed.

Lemma ensure_v2_schema_people d :
  v2_people (ensure_v2_schema d)
  = match v2_people d with
    | [] => [mk_person (v2_people_id_seq d + 1) "Ada Lovelace"
                       (Some "ada@example.com")]
    | _ => v2_people d
    end.
Proof.
  unfold ensure_v2_schema.
  destruct d as [people projects entries s1 s2 s3].
  destruct projects, people; reflexivity.
Qed.

Lemma ensure_v2_schema_projects d :
  v2_projects (ensure_v2_schema d)
  = match v2_projects d with
    | [] => [mk_project (v2_projects_id_seq d + 1) (Some "INT") "Internal"
                        true]
    | _ => v2_projects d
    end.
Proof.
  unfold ensure_v2_schema.
  destruct d as [people projects entries s1 s2 s3].
  destruct projects, people; reflexivity.
Qed.

Lemma filter_keep {A : Type} (f : A -> bool) l :
  (forall a, In a l -> f a = true) -> filter f l = l.
Proof.
  induction l as [ | a l IH]; cbn; [ reflexivity | ]. intros H.
  rewrite (H a) by now left. f_equal. apply IH. intros b Hb. apply H.
  now right.
Qed.

Lemma existsb_filter_id {A : Type} (key : A -> Z) k k' l :
  existsb (fun a => key a =? k') (filter (fun a => key a =? k) l)
  = (k =? k') && existsb (fun a => key a =? k) l.
Proof.
  induction l as [ | a l IH]; cbn; [ now rewrite andb_false_r | ].
  destruct (Z.eqb_spec (key a) k) as [E | E]; cbn.
  - rewrite IH. subst k. destruct (Z.eqb_spec (key a) k'); cbn;
      [ reflexivity | ]. reflexivity.
  - exact IH.
Qed.

End SeedAndDelete.

(** X4: [ensure_v2_schema] is idempotent, touches no time entry, leaves a
    table that has rows as it is, and leaves no table of people or
    projects empty: it seeds one row into an empty one. *)
Theorem ensure_v2_schema_idempotent d :
  ensure_v2_schema (ensure_v2_schema d) = ensure_v2_schema d
  /\ v2_time_entries (ensure_v2_schema d) = v2_time_entries d
  /\ (v2_people d <> [] -> v2_people (ensure_v2_schema d) = v2_people d)
  /\ (v2_projects d <> [] ->
      v2_projects (ensure_v2_schema d) = v2_projects d)
  /\ (v2_people d = [] -> List.length (v2_people (ensure_v2_schema d)) = 1%nat)
  /\ (v2_projects d = [] ->
      List.length (v2_projects (ensure_v2_schema d)) = 1%nat).
Proof.
  unfold ensure_v2_schema.
  destruct d as [people projects entries s1 s2 s3].
  destruct people, projects; cbn; repeat split; congruence.
Qed.

Lemma ensure_v2_schema_idempotent_witness :
  v2_people (ensure_v2_schema example_week) = v2_people example_week.
Proof.
  apply (proj1 (proj2 (proj2 (ensure_v2_schema_idempotent example_week)))).
  vm_compute. discriminate.
Defined.

(** X5: after [ensure_v2_schema], so after the import of the module and
    after POST /v2/reset, there is a default person: GET /my-week without
    a person_id does not fail for want of people.  Deleting the only
    person brings that failure back. *)
Theorem default_person_seeded d today year week pid :
  (exists p, pick_default_person_id (ensure_v2_schema d) = Ok p)
  /\ pick_default_person_id (fst (v2_reset d)) = Ok 1
  /\ (Forall (fun p => pe_id p = pid) (v2_people d) ->
      my_week (fst (people_delete d pid)) today year week None
      = html_error "While rendering /my-week"
                   (RuntimeError "No v2_people in DB")).
Proof.
  split; [ | split ].
  - apply pick_default_person_id_some. rewrite ensure_v2_schema_people.
    destruct (v2_people d); discriminate.
  - reflexivity.
  - intros Hall. unfold my_week. destruct (isocalendar today) as [y w].
    rewrite pick_default_person_id_none; [ reflexivity | ].
    unfold people_delete. cbn [fst v2_people].
    apply filter_none. intros p Hp. rewrite Forall_forall in Hall.
    rewrite (Hall p Hp), Z.eqb_refl. reflexivity.
Qed.

Lemma default_person_seeded_witness :
  my_week (fst (people_delete (ensure_v2_schema empty_database) 1))
          (mkdate 2024 1 3) None None None
  = html_error "While rendering /my-week" (RuntimeError "No v2_people in DB").
Proof.
  apply (proj2 (proj2 (default_person_seeded (ensure_v2_schema empty_database)
                         (mkdate 2024 1 3) None None 1))).
  vm_compute. repeat constructor.
Defined.

(** X6: POST /people/delete removes the person and, when that person
    existed, exactly the time entries of that person (ON DELETE CASCADE);
    entries of other people, the projects and the sequences stay.  With
    the foreign key of person_id in force no time entry refers to the
    deleted id afterwards, whether the person existed or not. *)
Theorem people_delete_cascade conn person_id :
  let conn' := fst (people_delete conn person_id) in
  snd (people_delete conn person_id) = Ok (SeeOther people_url)
  /\ v2_people conn'
     = filter (fun p => negb (pe_id p =? person_id)) (v2_people conn)
  /\ ~ In person_id (map pe_id (v2_people conn'))
  /\ v2_projects conn' = v2_projects conn
  /\ (In person_id (map pe_id (v2_people conn)) ->
      v2_time_entries conn'
      = filter (fun e => negb (te_person_id e =? person_id))
               (v2_time_entries conn))
  /\ (~ In person_id (map pe_id (v2_people conn)) ->
      v2_time_entries conn' = v2_time_entries conn)
  /\ (references_hold conn ->
      Forall (fun e => te_person_id e <> person_id) (v2_time_entries conn')).
Proof.
  cbv zeta. unfold people_delete. cbn [fst snd v2_people v2_projects
    v2_time_entries].
  assert (Hex : forall e,
             existsb (fun p => pe_id p =? te_person_id e)
                     (filter (fun p => pe_id p =? person_id) (v2_people conn))
             = (person_id =? te_person_id e)
               && existsb (fun p => pe_id p =? person_id) (v2_people conn))
    by (intros e; apply existsb_filter_id).
  repeat split.
  - rewrite in_map_iff. intros (p & Hid & Hp). apply filter_In in Hp.
    destruct Hp as [_ Hp]. rewrite Hid, Z.eqb_refl in Hp. discriminate.
  - intros Hin. apply filter_ext. intros e. rewrite Hex.
    replace (existsb _ (v2_people conn)) with true.
    + now rewrite andb_true_r, Z.eqb_sym.
    + symmetry. apply existsb_id. apply in_map_iff in Hin.
      destruct Hin as (p & Hp & Hin). eauto.
  - intros Hnot. apply filter_keep. intros e _. rewrite Hex.
    replace (existsb _ (v2_people conn)) with false;
      [ now rewrite andb_false_r | ].
    symmetry. apply not_true_iff_false. rewrite existsb_id.
    intros (p & Hp & Hid). apply Hnot. rewrite <- Hid. now apply in_map.
  - intros Href. rewrite Forall_forall. intros e He.
    apply filter_In in He. destruct He as [He Hkeep].
    unfold references_hold in Href. rewrite Forall_forall in Href.
    destruct (Href e He) as [Hp _]. rewrite Hex in Hkeep.
    intros Heq. rewrite Heq in Hp.
    replace (existsb _ (v2_people conn)) with true in Hkeep.
    + rewrite Heq, Z.eqb_refl in Hkeep. discriminate.
    + symmetry. apply existsb_id. apply in_map_iff in Hp.
      destruct Hp as (p & Hid & Hp). eauto.
Qed.

Lemma people_delete_cascade_witness :
  v2_time_entries (fst (people_delete example_week 1))
  = filter (fun e => negb (te_person_id e =? 1)) (v2_time_entries example_week).
Proof.
  apply (proj1 (proj2 (proj2 (proj2 (proj2
           (people_delete_cascade example_week 1)))))).
  vm_compute. auto.
Defined.

(** X7: POST /projects/delete removes the project and deletes no time
    entry: when the project existed, the entries that referred to it keep
    every column but project_id, which becomes NULL (ON DELETE SET NULL),
    and all other entries stay as they are; people and sequences stay. *)
Theorem projects_delete_set_null conn project_id :
  let conn' := fst (projects_delete conn project_id) in
  snd (projects_delete conn project_id) = Ok (SeeOther projects_url)
  /\ v2_people conn' = v2_people conn
  /\ ~ In project_id (map pj_id (v2_projects conn'))
  /\ (forall p, In p (v2_projects conn') <->
                In p (v2_projects conn) /\ pj_id p <> project_id)
  /\ map te_id (v2_time_entries conn') = map te_id (v2_time_entries conn)
  /\ (In project_id (map pj_id (v2_projects conn)) ->
      Forall2 (fun e e' : v2_time_entries_row =>
                 if match te_project_id e with
                    | Some k => k =? project_id
                    | None => false
                    end
                 then e' = mk_entry (te_id e) (te_person_id e) None
                                    (te_work_date e) (te_hours e)
                                    (te_notes e) (te_status e)
                 else e' = e)
              (v2_time_entries conn) (v2_time_entries conn'))
  /\ (~ In project_id (map pj_id (v2_projects conn)) ->
      v2_time_entries conn' = v2_time_entries conn).
Proof.
  cbv zeta. unfold projects_delete. cbn [fst snd v2_people v2_projects
    v2_time_entries].
  assert (Hex : forall k,
             existsb (fun p => pj_id p =? k)
                     (filter (fun p => pj_id p =? project_id)
                             (v2_projects conn))
             = (project_id =? k)
               && existsb (fun p => pj_id p =? project_id) (v2_projects conn))
    by (intros k; apply existsb_filter_id).
  repeat split.
  - rewrite in_map_iff. intros (p & Hid & Hp). apply filter_In in Hp.
    destruct Hp as [_ Hp]. rewrite Hid, Z.eqb_refl in Hp. discriminate.
  - apply filter_In in H. tauto.
  - apply filter_In in H. destruct H as [_ H].
    apply negb_true_iff, Z.eqb_neq in H. exact H.
  - intros [Hin Hne]. apply filter_In. split; [ exact Hin | ].
    now apply negb_true_iff, Z.eqb_neq.
  - rewrite map_map. apply map_ext. intros e.
    destruct (te_project_id e) as [k | ]; [ | reflexivity ].
    match goal with
    | |- context [if ?c then _ else _] => destruct c
    end; reflexivity.
  - intros Hin.
    assert (Hthere : existsb (fun p => pj_id p =? project_id)
                             (v2_projects conn) = true).
    { apply existsb_id. apply in_map_iff in Hin.
      destruct Hin as (p & Hp & Hin). eauto. }
    induction (v2_time_entries conn) as [ | e rows IH]; cbn [map];
      constructor; [ | exact IH ].
    destruct (te_project_id e) as [k | ]; [ | reflexivity ].
    rewrite Hex, Hthere, andb_true_r, (Z.eqb_sym project_id k).
    destruct (k =? project_id); reflexivity.
  - intros Hnot.
    assert (Hgone : existsb (fun p => pj_id p =? project_id)
                            (v2_projects conn) = false).
    { apply not_true_iff_false. rewrite existsb_id.
      intros (p & Hp & Hid). apply Hnot. rewrite <- Hid. now apply in_map. }
    rewrite <- (map_id (v2_time_entries conn)) at 2.
    apply map_ext. intros e.
    destruct (te_project_id e) as [k | ]; [ | reflexivity ].
    now rewrite Hex, Hgone, andb_false_r.
Qed.

Lemma projects_delete_set_null_witness :
  Forall2 (fun e e' : v2_time_entries_row =>
             if match te_project_id e with
                | Some k => k =? 1
                | None => false
                end
             then e' = mk_entry (te_id e) (te_person_id e) None
                                (te_work_date e) (te_hours e)
                                (te_notes e) (te_status e)
             else e' = e)
          (v2_time_entries example_week)
          (v2_time_entries (fst (projects_delete example_week 1))).
Proof.
  apply (proj1 (proj2 (proj2 (proj2 (proj2 (proj2
           (projects_delete_set_null example_week 1))))))).
  vm_compute. auto.
Defined.



(* ================================================================== *)
(** ** Adding people and projects *)

Section Upserts.

Variable strip : string -> string.

Lemma in_non_null {A B : Type} (col : A -> option B) rows v :
  In v (non_null col rows) <-> exists r, In r rows /\ col r = Some v.
Proof.
  unfold non_null. rewrite in_flat_map. split.
  - intros (r & Hr & Hv). exists r. split; [ exact Hr | ].
    destruct (col r) as [v' | ]; [ | destruct Hv ].
    destruct Hv as [-> | []]. reflexivity.
  - intros (r & Hr & Hv). exists r. split; [ exact Hr | ].
    rewrite Hv. now left.
Qed.

Lemma existsb_conflict {A : Type} (col : A -> option string) rows v :
  existsb (fun r => match Some v, col r with
                    | Some e, Some e' => (e' =? e)%string
                    | _, _ => false
                    end) rows = true
  <-> In v (non_null col rows).
Proof.
  rewrite existsb_exists, in_non_null. split; intros (r & Hr & H);
    exists r; (split; [ exact Hr | ]).
  - destruct (col r) as [e' | ]; [ | discriminate ].
    apply String.eqb_eq in H. now subst.
  - rewrite H. apply String.eqb_refl.
Qed.

Lemma existsb_never {A : Type} (l : list A) :
  existsb (fun _ => false) l = false.
Proof. induction l; cbn; auto. Qed.

Lemma fresh_key {A : Type} (key : A -> Z) rows seq :
  Forall (fun i => i <= seq) (map key rows) ->
  existsb (fun r => key r =? seq + 1) rows = false.
Proof.
  intros H. apply not_true_iff_false. rewrite existsb_id.
  intros (r & Hr & Hk). rewrite Forall_forall in H.
  specialize (H (key r) (in_map key _ _ Hr)). lia.
Qed.

(** X9: POST /people/add never fails when the ids of the people came from
    the sequence.  With an email some person already has, it adds no row
    and only gives that person the stripped name; with a new email or
    without one it appends one person with the next id, the stripped name
    and the email.  Projects and time entries are not touched. *)
Theorem people_add_upsert conn name email :
  Forall (fun i => i <= v2_people_id_seq conn) (map pe_id (v2_people conn)) ->
  let conn' := fst (people_add strip conn name email) in
  let known :=
    exists e, email = Some e /\ In e (non_null pe_email (v2_people conn)) in
  snd (people_add strip conn name email) = Ok (SeeOther people_url)
  /\ v2_projects conn' = v2_projects conn
  /\ v2_time_entries conn' = v2_time_entries conn
  /\ (known ->
      Forall2 (fun p p' : v2_people_row =>
                 pe_id p' = pe_id p /\ pe_email p' = pe_email p
                 /\ pe_name p'
                    = match email, pe_email p with
                      | Some e, Some e' =>
                          if (e' =? e)%string then strip name else pe_name p
                      | _, _ => pe_name p
                      end)
              (v2_people conn) (v2_people conn'))
  /\ (~ known ->
      v2_people conn'
      = v2_people conn
        ++ [mk_person (v2_people_id_seq conn + 1) (strip name) email]).
Proof.
  intros Hids. cbv zeta. unfold people_add. cbv zeta.
  destruct (existsb _ (v2_people conn)) eqn:Econf.
  - assert (Hknown : exists e, email = Some e
                       /\ In e (non_null pe_email (v2_people conn))).
    { destruct email as [e | ].
      - exists e. split; [ reflexivity | ]. now apply existsb_conflict.
      - cbn in Econf. rewrite existsb_never in Econf. discriminate. }
    cbn [fst snd v2_people v2_projects v2_time_entries].
    do 3 (split; [ reflexivity | ]). split; [ | tauto ].
    intros _. clear. induction (v2_people conn) as [ | p l IH]; cbn [map];
      constructor; [ | exact IH ].
    destruct email as [e | ]; [ | auto ].
    destruct (pe_email p) as [e' | ] eqn:Ep; [ | rewrite ?Ep; auto ].
    destruct (e' =? e)%string; cbn; rewrite ?Ep; auto.
  - rewrite (fresh_key pe_id) by assumption.
    cbn [fst snd v2_people v2_projects v2_time_entries].
    do 3 (split; [ reflexivity | ]). split; [ | reflexivity ].
    intros (e & -> & Hin). apply existsb_conflict in Hin. congruence.
Qed.

(** X10: POST /projects/add never fails when the ids of the projects came
    from the sequence.  An empty code counts as no code and always adds a
    project; a code some project already has adds none, renames that
    project to the stripped name and makes it active again; any other code
    appends one active project with the next id. *)
Theorem projects_add_upsert conn code name :
  Forall (fun i => i <= v2_projects_id_seq conn)
         (map pj_id (v2_projects conn)) ->
  let conn' := fst (projects_add strip conn code name) in
  let known :=
    exists c, code = Some c /\ c <> ""
              /\ In c (non_null pj_code (v2_projects conn)) in
  snd (projects_add strip conn code name) = Ok (SeeOther projects_url)
  /\ v2_people conn' = v2_people conn
  /\ v2_time_entries conn' = v2_time_entries conn
  /\ (known ->
      Forall2 (fun p p' : v2_projects_row =>
                 pj_id p' = pj_id p /\ pj_code p' = pj_code p
                 /\ (pj_code p = code ->
                     pj_name p' = strip name /\ pj_is_active p' = true)
                 /\ (pj_code p <> code -> p' = p))
              (v2_projects conn) (v2_projects conn'))
  /\ (~ known ->
      v2_projects conn'
      = v2_projects conn
        ++ [mk_project (v2_projects_id_seq conn + 1)
                       (match code with
                        | Some "" => None
                        | _ => code
                        end)
                       (strip name) true]).
Proof.
  intros Hids. cbv zeta. unfold projects_add. cbv zeta.
  set (code' := match code with
                | Some c => if (c =? "")%string then None else Some c
                | None => None
                end).
  assert (Hcode' : code' = match code with Some "" => None | _ => code end).
  { subst code'. destruct code as [[ | a c] | ]; reflexivity. }
  destruct (existsb _ (v2_projects conn)) eqn:Econf.
  - assert (Hknown : exists c, code = Some c /\ c <> ""
                       /\ In c (non_null pj_code (v2_projects conn))).
    { destruct code' as [c | ] eqn:Ec.
      - exists c. subst code'. destruct code as [c0 | ]; [ | discriminate ].
        destruct (String.eqb_spec c0 ""); [ discriminate | ].
        injection Ec as ->. split; [ reflexivity | ].
        split; [ assumption | ]. now apply existsb_conflict.
      - cbn in Econf. rewrite existsb_never in Econf. discriminate. }
    cbn [fst snd v2_people v2_projects v2_time_entries].
    do 3 (split; [ reflexivity | ]). split; [ | tauto ].
    intros _. destruct Hknown as (c & -> & Hne & _).
    assert (Ec : code' = Some c).
    { subst code'. now destruct (String.eqb_spec c ""). }
    rewrite Ec. clear -Hne.
    induction (v2_projects conn) as [ | p l IH]; cbn [map];
      constructor; [ | exact IH ].
    destruct (pj_code p) as [c' | ] eqn:Ep.
    + destruct (String.eqb_spec c' c) as [-> | Hc];
        cbn [pj_id pj_code pj_name pj_is_active]; rewrite ?Ep;
        repeat split; congruence.
    + rewrite Ep. repeat split; congruence.
  - rewrite (fresh_key pj_id) by assumption.
    cbn [fst snd v2_people v2_projects v2_time_entries].
    do 3 (split; [ reflexivity | ]). split; [ | now rewrite Hcode' ].
    intros (c & -> & Hne & Hin).
    assert (Ec : code' = Some c).
    { subst code'. now destruct (String.eqb_spec c ""). }
    rewrite Ec in Econf. apply existsb_conflict in Hin. congruence.
Qed.

End Upserts.

Lemma people_add_upsert_witness :
  v2_people (fst (people_add (fun s => s) example_week "Grace"
                             (Some "grace@example.com")))
  = v2_people example_week
    ++ [mk_person (v2_people_id_seq example_week + 1) "Grace"
                  (Some "grace@example.com")].
Proof.
  apply (proj2 (proj2 (proj2 (proj2
           (people_add_upsert (fun s => s) example_week "Grace"
                              (Some "grace@example.com")
                              ltac:(vm_compute; repeat constructor;
                                    discriminate)))))).
  vm_compute. intros (e & He & [Hin | []]). congruence.
Defined.

Lemma projects_add_upsert_witness :
  v2_projects (fst (projects_add (fun s => s) example_week (Some "") "Misc"))
  = v2_projects example_week
    ++ [mk_project (v2_projects_id_seq example_week + 1) None "Misc" true].
Proof.
  apply (proj2 (proj2 (proj2 (proj2
           (projects_add_upsert (fun s => s) example_week (Some "") "Misc"
                                ltac:(vm_compute; repeat constructor;
                                      discriminate)))))).
  intros (c & He & Hne & _). injection He as <-. now apply Hne.
Defined.

(* ================================================================== *)
(** ** The constraints of the schema, over all handlers *)

Section Constraints.

Variable date_in : string -> result Z.
Variable strip : string -> string.

Lemma add_days_in_range d i d' :
  add_days d i = Ok d' -> 0 < toordinal d + i <= _MAXORDINAL.
Proof.
  unfold add_days. cbv zeta.
  destruct (Z.ltb_spec 0 (toordinal d + i)); cbn [andb]; [ | discriminate ].
  destruct (Z.leb_spec (toordinal d + i) _MAXORDINAL); [ | discriminate ].
  intros _. lia.
Qed.

Lemma comprehension_each {A : Type} (f : Z -> result A) range l :
  comprehension f range = Ok l ->
  forall i, In i range -> exists a, f i = Ok a.
Proof.
  revert l. induction range as [ | j range IH]; intros l; cbn;
    [ intros _ i [] | ].
  destruct (f j) as [a | e] eqn:Ej; cbn [bind]; [ | discriminate ].
  destruct (comprehension f range) as [l' | e]; cbn [bind];
    [ | discriminate ].
  intros _ i [<- | Hi]; [ eauto | ]. now apply (IH l').
Qed.

(** The dates [iso_week_dates] returns are days [date] holds. *)
Lemma iso_week_dates_range year week days :
  iso_week_dates year week = Ok days ->
  1 <= toordinal (first_of days) /\ toordinal (last_of days) <= _MAXORDINAL.
Proof.
  intros H. pose proof (iso_week_dates_from _ _ _ H) as Hd.
  revert H. unfold iso_week_dates.
  destruct (fromisocalendar year week 1) as [monday | e] eqn:Em;
    cbn [bind]; [ | discriminate ].
  apply fromisocalendar_ordinal in Em. subst monday. intros Hc.
  pose proof (comprehension_each _ _ _ Hc 0 ltac:(cbn; auto)) as [a0 H0].
  pose proof (comprehension_each _ _ _ Hc 6 ltac:(cbn; auto 10)) as [a6 H6].
  apply add_days_in_range in H0, H6.
  rewrite toordinal_fromordinal in H0, H6.
  destruct (week_first_last (_isoweek1monday year + (week - 1) * 7))
    as [Hf Hl].
  rewrite <- Hd in Hf, Hl. lia.
Qed.

(** What a workflow handler does to the database, in four shapes. *)
Lemma handle_shape conn rq :
  let conn' := fst (handle date_in conn rq) in
  v2_people conn' = v2_people conn
  /\ v2_projects conn' = v2_projects conn
  /\ v2_people_id_seq conn' = v2_people_id_seq conn
  /\ v2_projects_id_seq conn' = v2_projects_id_seq conn
  /\ ((v2_time_entries conn' = v2_time_entries conn
       /\ v2_time_entries_id_seq conn <= v2_time_entries_id_seq conn')
      \/ (exists new,
             v2_time_entries conn' = v2_time_entries conn ++ [new]
             /\ v2_time_entries_id_seq conn' = v2_time_entries_id_seq conn + 1
             /\ te_id new = v2_time_entries_id_seq conn + 1
             /\ te_status new = "draft"
             /\ match te_hours new with
                | Num h => 0 <= h < 100000
                | NumericNaN => True
                end
             /\ In (te_person_id new) (map pe_id (v2_people conn))
             /\ (forall k, te_project_id new = Some k ->
                           In k (map pj_id (v2_projects conn))))
      \/ (exists cond,
             v2_time_entries conn' = delete_where cond (v2_time_entries conn)
             /\ v2_time_entries_id_seq conn' = v2_time_entries_id_seq conn)
      \/ (exists cond s,
             v2_time_entries conn'
             = update_status cond s (v2_time_entries conn)
             /\ v2_time_entries_id_seq conn' = v2_time_entries_id_seq conn
             /\ enumerated_status s
             /\ (s = "submitted" ->
                 forall e, cond e = true ->
                           1 <= te_work_date e <= _MAXORDINAL))).
Proof.
  cbv zeta.
  destruct rq as [p wd pj h n y w | e p y w | p y w | e | e]; cbn [handle].
  - destruct (time_add_shape date_in conn p wd pj h n y w)
      as (H1 & H2 & H3 & H4 & H).
    repeat (split; [ assumption | ]).
    destruct H as [(_ & He & Hs) | (d & v & _ & Hv & Hge & Hp & Hk & _ & He
                                   & Hs)].
    + left. split; [ exact He | ]. destruct Hs as [-> | ->]; lia.
    + right. left. eexists. split; [ exact He | ].
      split; [ exact Hs | ]. cbn [te_id te_status te_hours te_person_id
                                  te_project_id].
      repeat split; try assumption.
      pose proof (float8_to_numeric_5_2_cases h) as Hc. rewrite Hv in Hc.
      destruct v as [hh | ]; [ | exact I ].
      cbn in Hge. apply Z.leb_le in Hge. lia.
  - cbn. repeat split. right. right. left. eauto.
  - unfold time_submit_week.
    destruct (iso_week_dates y w) as [days | ex] eqn:Ed; cbn [bind].
    2: { cbn. repeat split. left. split; [ reflexivity | lia ]. }
    cbn. repeat split. do 3 right. eexists. eexists.
    split; [ reflexivity | ]. split; [ reflexivity | ].
    split; [ right; left; reflexivity | ].
    intros _ x Hx. apply iso_week_dates_range in Ed.
    unfold in_week, between in Hx.
    rewrite !andb_true_iff, !Z.leb_le in Hx. lia.
  - cbn. repeat split. do 3 right. eexists. eexists.
    split; [ reflexivity | ]. split; [ reflexivity | ].
    split; [ right; right; reflexivity | discriminate ].
  - cbn. repeat split. do 3 right. eexists. eexists.
    split; [ reflexivity | ]. split; [ reflexivity | ].
    split; [ left; reflexivity | discriminate ].
Qed.

Lemma update_status_ids cond s rows :
  map te_id (update_status cond s rows) = map te_id rows.
Proof.
  unfold update_status. rewrite map_map. apply map_ext.
  intros e. now destruct (cond e).
Qed.

Lemma NoDup_map_filter {A B : Type} (key : A -> B) (f : A -> bool) l :
  NoDup (map key l) -> NoDup (map key (filter f l)).
Proof.
  induction l as [ | a l IH]; cbn; [ auto | ].
  intros H. inversion H as [ | ? ? Hnotin Hnd]; subst.
  destruct (f a); cbn; [ | auto ].
  constructor; [ | auto ].
  intros Hin. apply Hnotin. apply in_map_iff in Hin.
  destruct Hin as (b & Hb & Hin). apply filter_In in Hin.
  rewrite <- Hb. apply in_map. tauto.
Qed.

Lemma Forall_map_filter {A B : Type} (key : A -> B) (f : A -> bool)
    (P : B -> Prop) l :
  Forall P (map key l) -> Forall P (map key (filter f l)).
Proof.
  rewrite !Forall_forall. intros H b Hb. apply H.
  apply in_map_iff in Hb. destruct Hb as (a & <- & Ha).
  apply filter_In in Ha. apply in_map. tauto.
Qed.

Lemma NoDup_non_null_filter {A B : Type} (col : A -> option B)
    (f : A -> bool) l :
  NoDup (non_null col l) -> NoDup (non_null col (filter f l)).
Proof.
  unfold non_null. induction l as [ | a l IH]; cbn; [ auto | ].
  intros H. destruct (f a); cbn.
  - destruct (col a) as [v | ]; cbn in *; [ | auto ].
    inversion H as [ | ? ? Hnotin Hnd]; subst. constructor; [ | auto ].
    intros Hin. apply Hnotin.
    fold (non_null col (filter f l)) in Hin. fold (non_null col l).
    apply in_non_null in Hin. destruct Hin as (r & Hr & Hv).
    apply in_non_null. exists r. apply filter_In in Hr. tauto.
  - destruct (col a) as [v | ]; cbn in *; [ | auto ].
    inversion H; subst. auto.
Qed.

Lemma NoDup_snoc {A : Type} (l : list A) x :
  NoDup l -> ~ In x l -> NoDup (l ++ [x]).
Proof.
  intros Hnd Hx. apply NoDup_app; [ assumption | | ].
  - constructor; [ intros [] | constructor ].
  - intros y Hy [<- | []]. contradiction.
Qed.

Lemma Forall_le_weaken (l : list Z) a b :
  a <= b -> Forall (fun i => i <= a) l -> Forall (fun i => i <= b) l.
Proof. intros Hab. apply Forall_impl. intros; lia. Qed.

Lemma Forall_le_fresh (l : list Z) a : Forall (fun i => i <= a) l ->
  ~ In (a + 1) l.
Proof.
  intros H Hin. rewrite Forall_forall in H. specialize (H _ Hin). lia.
Qed.

End Constraints.

Section ConstraintsKept.

Variable date_in : string -> result Z.
Variable strip : string -> string.

(** A property of single entries that new drafts have, that a change of
    status keeps and that clearing project_id keeps, holds of all entries
    after any request if it held before. *)
Lemma entries_forall_step (P : v2_time_entries_row -> Prop) conn rq :
  (forall new, te_status new = "draft" ->
               match te_hours new with
               | Num h => 0 <= h < 100000
               | NumericNaN => True
               end ->
               P new) ->
  (forall e s, P e -> enumerated_status s ->
               (s = "submitted" -> 1 <= te_work_date e <= _MAXORDINAL) ->
               P (set_status s e)) ->
  (forall e, P e ->
             P (mk_entry (te_id e) (te_person_id e) None (te_work_date e)
                         (te_hours e) (te_notes e) (te_status e))) ->
  Forall P (v2_time_entries conn) ->
  Forall P (v2_time_entries (handle_any date_in strip conn rq)).
Proof.
  intros Hnew Hupd Hnull H.
  destruct rq as [rq | name email | p | code name | p | p | ];
    cbn [handle_any].
  - destruct (handle_shape date_in conn rq)
      as (_ & _ & _ & _ & [[-> _] | [(new & -> & _ & _ & Hs & Hh & _)
          | [(cond & -> & _) | (cond & s & -> & _ & Hs & Hl)]]]).
    + exact H.
    + apply Forall_app. split; [ exact H | ]. constructor; auto.
    + unfold delete_where. rewrite Forall_forall in *. intros e He.
      apply filter_In in He. now apply H.
    + unfold update_status. rewrite Forall_map. rewrite Forall_forall in *.
      intros e He. destruct (cond e) eqn:Ec; [ | now apply H ].
      apply Hupd; [ now apply H | exact Hs | ].
      intros ->. now apply Hl.
  - unfold people_add. cbv zeta.
    repeat match goal with
      | |- context [if ?c then _ else _] => destruct c
      end; exact H.
  - cbn. rewrite Forall_forall in *. intros e He.
    apply filter_In in He. now apply H.
  - unfold projects_add. cbv zeta.
    repeat match goal with
      | |- context [if ?c then _ else _] => destruct c
      end; exact H.
  - exact H.
  - cbn. rewrite Forall_map. revert H. apply Forall_impl. intros e He.
    destruct (te_project_id e) as [k | ] eqn:Ek; [ | exact He ].
    destruct (existsb _ _); [ now apply Hnull | exact He ].
  - constructor.
Qed.

Lemma hours_checked_step conn rq :
  hours_checked conn -> hours_checked (handle_any date_in strip conn rq).
Proof.
  apply entries_forall_step; auto.
Qed.

Lemma statuses_enumerated_step conn rq :
  statuses_enumerated conn ->
  statuses_enumerated (handle_any date_in strip conn rq).
Proof.
  apply entries_forall_step; cbn; auto.
  intros new ->. now left.
Qed.

Lemma submitted_loadable_step conn rq :
  submitted_loadable conn ->
  submitted_loadable (handle_any date_in strip conn rq).
Proof.
  apply entries_forall_step; cbn; auto.
  intros new -> _. discriminate.
Qed.

End ConstraintsKept.

Lemma people_delete_keeps conn person_id :
  v2_people (fst (people_delete conn person_id))
  = filter (fun p => negb (pe_id p =? person_id)) (v2_people conn)
  /\ v2_projects (fst (people_delete conn person_id)) = v2_projects conn
  /\ v2_time_entries (fst (people_delete conn person_id))
     = filter (fun e =>
                 negb (existsb (fun p => pe_id p =? te_person_id e)
                         (filter (fun p => pe_id p =? person_id)
                                 (v2_people conn))))
              (v2_time_entries conn).
Proof. repeat split. Qed.

Section KeysAndReferences.

Variable date_in : string -> result Z.
Variable strip : string -> string.

Lemma non_null_app {A B : Type} (col : A -> option B) l l' :
  non_null col (l ++ l') = non_null col l ++ non_null col l'.
Proof. unfold non_null. apply flat_map_app. Qed.

(** What POST /people/add does to the table, in two shapes. *)
Lemma people_add_shape conn name email :
  let conn' := fst (people_add strip conn name email) in
  v2_projects conn' = v2_projects conn
  /\ v2_time_entries conn' = v2_time_entries conn
  /\ v2_projects_id_seq conn' = v2_projects_id_seq conn
  /\ v2_time_entries_id_seq conn' = v2_time_entries_id_seq conn
  /\ v2_people_id_seq conn' = v2_people_id_seq conn + 1
  /\ ((map pe_id (v2_people conn') = map pe_id (v2_people conn)
       /\ non_null pe_email (v2_people conn')
          = non_null pe_email (v2_people conn))
      \/ (exists p,
             v2_people conn' = v2_people conn ++ [p]
             /\ pe_id p = v2_people_id_seq conn + 1
             /\ ~ In (pe_id p) (map pe_id (v2_people conn))
             /\ forall e, pe_email p = Some e ->
                          ~ In e (non_null pe_email (v2_people conn)))).
Proof.
  cbv zeta. unfold people_add. cbv zeta.
  destruct (existsb _ (v2_people conn)) eqn:Econf.
  - cbn. repeat split. left. split.
    + rewrite map_map. apply map_ext. intros p.
      match goal with |- context [if ?c then _ else _] => destruct c end;
        reflexivity.
    + unfold non_null. rewrite flat_map_concat_map, map_map.
      rewrite <- flat_map_concat_map. apply flat_map_ext. intros p.
      match goal with |- context [if ?c then _ else _] => destruct c end;
        reflexivity.
  - destruct (existsb (fun p => pe_id p =? v2_people_id_seq conn + 1) _)
      eqn:Eid.
    + cbn. repeat split. left. auto.
    + cbn. repeat split. right. eexists. split; [ reflexivity | ]. cbn.
      split; [ reflexivity | ]. split.
      * intros Hin. apply in_map_iff in Hin. destruct Hin as (q & Hq & Hin).
        assert (existsb (fun p => pe_id p =? v2_people_id_seq conn + 1)
                        (v2_people conn) = true)
          by (apply existsb_id; eauto).
        congruence.
      * intros e ->. intros Hin. apply existsb_conflict in Hin. congruence.
Qed.

Lemma projects_add_shape conn code name :
  let conn' := fst (projects_add strip conn code name) in
  v2_people conn' = v2_people conn
  /\ v2_time_entries conn' = v2_time_entries conn
  /\ v2_people_id_seq conn' = v2_people_id_seq conn
  /\ v2_time_entries_id_seq conn' = v2_time_entries_id_seq conn
  /\ v2_projects_id_seq conn' = v2_projects_id_seq conn + 1
  /\ ((map pj_id (v2_projects conn') = map pj_id (v2_projects conn)
       /\ non_null pj_code (v2_projects conn')
          = non_null pj_code (v2_projects conn))
      \/ (exists p,
             v2_projects conn' = v2_projects conn ++ [p]
             /\ pj_id p = v2_projects_id_seq conn + 1
             /\ ~ In (pj_id p) (map pj_id (v2_projects conn))
             /\ forall c, pj_code p = Some c ->
                          ~ In c (non_null pj_code (v2_projects conn)))).
Proof.
  cbv zeta. unfold projects_add. cbv zeta.
  set (code' := match code with
                | Some c => if (c =? "")%string then None else Some c
                | None => None
                end).
  clearbody code'.
  destruct (existsb _ (v2_projects conn)) eqn:Econf.
  - cbn. repeat split. left. split.
    + rewrite map_map. apply map_ext. intros p.
      match goal with |- context [if ?c then _ else _] => destruct c end;
        reflexivity.
    + unfold non_null. rewrite flat_map_concat_map, map_map.
      rewrite <- flat_map_concat_map. apply flat_map_ext. intros p.
      match goal with |- context [if ?c then _ else _] => destruct c end;
        reflexivity.
  - destruct (existsb (fun p => pj_id p =? v2_projects_id_seq conn + 1) _)
      eqn:Eid.
    + cbn. repeat split. left. auto.
    + cbn. repeat split. right. eexists. split; [ reflexivity | ]. cbn.
      split; [ reflexivity | ]. split.
      * intros Hin. apply in_map_iff in Hin. destruct Hin as (q & Hq & Hin).
        assert (existsb (fun p => pj_id p =? v2_projects_id_seq conn + 1)
                        (v2_projects conn) = true)
          by (apply existsb_id; eauto).
        congruence.
      * intros c ->. intros Hin. apply existsb_conflict in Hin. congruence.
Qed.

Lemma references_hold_step conn rq :
  references_hold conn -> references_hold (handle_any date_in strip conn rq).
Proof.
  unfold references_hold. intros H.
  destruct rq as [rq | name email | p | code name | p | p | ];
    cbn [handle_any].
  - destruct (handle_shape date_in conn rq)
      as (-> & -> & _ & _ & [[-> _] | [(new & -> & _ & _ & _ & _ & Hp & Hj)
          | [(cond & -> & _) | (cond & s & -> & _)]]]).
    + exact H.
    + apply Forall_app. split; [ exact H | ]. constructor; auto.
    + unfold delete_where. rewrite Forall_forall in *. intros e He.
      apply filter_In in He. now apply H.
    + unfold update_status. rewrite Forall_map. revert H.
      apply Forall_impl. intros e He. now destruct (cond e).
  - destruct (people_add_shape conn name email)
      as (-> & -> & _ & _ & _ & [[-> _] | (q & -> & _)]);
      [ exact H | ].
    revert H. apply Forall_impl. intros e [Hp Hj]. split; [ | exact Hj ].
    rewrite map_app. apply in_or_app. now left.
  - destruct (people_delete_keeps conn p) as (Hpe & Hpj & Hte).
    rewrite Hpj. rewrite Forall_forall in *. intros e He.
    rewrite Hte in He. apply filter_In in He. destruct He as [He Hkeep].
    destruct (H e He) as [Hp Hj]. split; [ | exact Hj ].
    rewrite Hpe. apply in_map_iff in Hp. destruct Hp as (q & Hq & Hin).
    apply in_map_iff. exists q. split; [ exact Hq | ].
    apply filter_In. split; [ exact Hin | ].
    apply negb_true_iff. apply not_true_iff_false. intros Eq.
    apply negb_true_iff in Hkeep. apply not_true_iff_false in Hkeep.
    apply Hkeep. apply existsb_exists. exists q. split.
    + apply filter_In. auto.
    + now apply Z.eqb_eq.
  - destruct (projects_add_shape conn code name)
      as (-> & -> & _ & _ & _ & [[-> _] | (q & -> & _)]);
      [ exact H | ].
    revert H. apply Forall_impl. intros e [Hp Hj]. split; [ exact Hp | ].
    intros k Hk. rewrite map_app. apply in_or_app. left. now apply Hj.
  - cbn. rewrite map_map.
    replace (map _ (v2_projects conn)) with (map pj_id (v2_projects conn));
      [ exact H | ].
    apply map_ext. intros q. now destruct (pj_id q =? p).
  - cbn. rewrite Forall_map. revert H. apply Forall_impl.
    intros e [Hp Hj].
    destruct (te_project_id e) as [k | ] eqn:Ek.
    + destruct (existsb _ _) eqn:Ex; cbn [te_person_id te_project_id].
      * split; [ exact Hp | discriminate ].
      * split; [ exact Hp | ]. rewrite Ek. intros k' E. injection E as <-.
        specialize (Hj k eq_refl). apply in_map_iff in Hj.
        destruct Hj as (q & Hq & Hin). apply in_map_iff. exists q.
        split; [ exact Hq | ]. apply filter_In. split; [ exact Hin | ].
        apply negb_true_iff. apply not_true_iff_false. intros Eq.
        apply not_true_iff_false in Ex. apply Ex.
        apply existsb_exists. exists q. split.
        -- apply filter_In. auto.
        -- now apply Z.eqb_eq.
    + split; [ exact Hp | ]. rewrite Ek. discriminate.
  - constructor.
Qed.

End KeysAndReferences.

Section KeysKept.

Variable date_in : string -> result Z.
Variable strip : string -> string.

Lemma keys_unique_step conn rq :
  keys_unique conn -> keys_unique (handle_any date_in strip conn rq).
Proof.
  unfold keys_unique.
  intros (Hp1 & Hp2 & Hj1 & Hj2 & He1 & He2 & Hm & Hc).
  destruct rq as [rq | name email | p | code name | p | p | ];
    cbn [handle_any].
  - destruct (handle_shape date_in conn rq)
      as (-> & -> & -> & -> & Hshape).
    do 4 (split; [ assumption | ]).
    enough (NoDup (map te_id (v2_time_entries (fst (handle date_in conn rq))))
            /\ Forall (fun i => i <= v2_time_entries_id_seq
                                       (fst (handle date_in conn rq)))
                      (map te_id
                           (v2_time_entries (fst (handle date_in conn rq)))))
      by tauto.
    destruct Hshape as [[-> Hs] | [(new & -> & -> & Hid & _)
          | [(cond & -> & ->) | (cond & s & -> & -> & _)]]].
    + split; [ assumption | ]. now apply (Forall_le_weaken _ _ _ Hs).
    + rewrite map_app. cbn [map]. rewrite Hid. split.
      * apply NoDup_snoc; [ assumption | ]. now apply Forall_le_fresh.
      * apply Forall_app. split.
        -- apply (Forall_le_weaken _ (v2_time_entries_id_seq conn)); [ lia | ].
           assumption.
        -- constructor; [ lia | constructor ].
    + unfold delete_where. split.
      * now apply NoDup_map_filter.
      * now apply Forall_map_filter.
    + rewrite update_status_ids. auto.
  - destruct (people_add_shape strip conn name email)
      as (-> & -> & -> & -> & -> & Hshape).
    enough (NoDup (map pe_id (v2_people (fst (people_add strip conn name
                                                         email))))
            /\ Forall (fun i => i <= v2_people_id_seq conn + 1)
                      (map pe_id (v2_people (fst (people_add strip conn name
                                                             email))))
            /\ NoDup (non_null pe_email
                        (v2_people (fst (people_add strip conn name email)))))
      by tauto.
    destruct Hshape as [[-> ->] | (q & -> & Hid & Hfresh & Hmail)].
    + split; [ assumption | ]. split; [ | assumption ].
      apply (Forall_le_weaken _ (v2_people_id_seq conn)); [ lia | ].
      assumption.
    + rewrite map_app, non_null_app. cbn [map]. split; [ | split ].
      * now apply NoDup_snoc.
      * apply Forall_app. split.
        -- apply (Forall_le_weaken _ (v2_people_id_seq conn)); [ lia | ].
           assumption.
        -- constructor; [ lia | constructor ].
      * unfold non_null at 2. cbn [flat_map].
        destruct (pe_email q) as [e | ] eqn:Eq; cbn [app].
        -- apply NoDup_snoc; [ assumption | ]. now apply Hmail.
        -- now rewrite app_nil_r.
  - cbn. repeat split; try assumption.
    + now apply NoDup_map_filter.
    + now apply Forall_map_filter.
    + now apply NoDup_map_filter.
    + now apply Forall_map_filter.
    + now apply NoDup_non_null_filter.
  - destruct (projects_add_shape strip conn code name)
      as (-> & -> & -> & -> & -> & Hshape).
    enough (NoDup (map pj_id (v2_projects (fst (projects_add strip conn code
                                                             name))))
            /\ Forall (fun i => i <= v2_projects_id_seq conn + 1)
                      (map pj_id (v2_projects (fst (projects_add strip conn
                                                                 code name))))
            /\ NoDup (non_null pj_code
                        (v2_projects (fst (projects_add strip conn code
                                                        name)))))
      by tauto.
    destruct Hshape as [[-> ->] | (q & -> & Hid & Hfresh & Hcode)].
    + split; [ assumption | ]. split; [ | assumption ].
      apply (Forall_le_weaken _ (v2_projects_id_seq conn)); [ lia | ].
      assumption.
    + rewrite map_app, non_null_app. cbn [map]. split; [ | split ].
      * now apply NoDup_snoc.
      * apply Forall_app. split.
        -- apply (Forall_le_weaken _ (v2_projects_id_seq conn)); [ lia | ].
           assumption.
        -- constructor; [ lia | constructor ].
      * unfold non_null at 2. cbn [flat_map].
        destruct (pj_code q) as [c | ] eqn:Eq; cbn [app].
        -- apply NoDup_snoc; [ assumption | ]. now apply Hcode.
        -- now rewrite app_nil_r.
  - unfold projects_toggle.
    cbn [fst v2_people v2_projects v2_time_entries v2_people_id_seq
         v2_projects_id_seq v2_time_entries_id_seq].
    assert (Hids : map pj_id
                     (map (fun q => if pj_id q =? p
                                    then mk_project (pj_id q) (pj_code q)
                                           (pj_name q) (negb (pj_is_active q))
                                    else q) (v2_projects conn))
                   = map pj_id (v2_projects conn)).
    { rewrite map_map. apply map_ext. intros q.
      now destruct (pj_id q =? p). }
    assert (Hcodes : non_null pj_code
                       (map (fun q => if pj_id q =? p
                                      then mk_project (pj_id q) (pj_code q)
                                             (pj_name q)
                                             (negb (pj_is_active q))
                                      else q) (v2_projects conn))
                     = non_null pj_code (v2_projects conn)).
    { unfold non_null. rewrite flat_map_concat_map, map_map.
      rewrite <- flat_map_concat_map. apply flat_map_ext. intros q.
      now destruct (pj_id q =? p). }
    rewrite Hids, Hcodes. tauto.
  - unfold projects_delete.
    cbn [fst v2_people v2_projects v2_time_entries v2_people_id_seq
         v2_projects_id_seq v2_time_entries_id_seq].
    assert (Hids : map te_id
                     (map (fun e =>
                             match te_project_id e with
                             | Some k =>
                                 if existsb (fun q => pj_id q =? k)
                                      (filter (fun q => pj_id q =? p)
                                              (v2_projects conn))
                                 then mk_entry (te_id e) (te_person_id e) None
                                        (te_work_date e) (te_hours e)
                                        (te_notes e) (te_status e)
                                 else e
                             | None => e
                             end) (v2_time_entries conn))
                   = map te_id (v2_time_entries conn)).
    { rewrite map_map. apply map_ext. intros e.
      destruct (te_project_id e) as [k | ]; [ | reflexivity ].
      match goal with |- context [if ?c then _ else _] => destruct c end;
        reflexivity. }
    rewrite Hids. repeat split; try assumption.
    + now apply NoDup_map_filter.
    + now apply Forall_map_filter.
    + now apply NoDup_non_null_filter.
  - cbn. repeat split; repeat constructor; cbn; try lia; intuition.
Qed.

End KeysKept.

(* ================================================================== *)
(** ** The approvals page *)

Section ApprovalsPage.

Lemma left_join_in_fst {A B : Type} (on : A -> B -> bool) l r j :
  In j (left_join on l r) -> In (fst j) l.
Proof.
  unfold left_join. rewrite in_flat_map. intros (a & Ha & Hj).
  destruct (filter (on a) r) as [ | b bs].
  - destruct Hj as [<- | []]. exact Ha.
  - apply in_map_iff in Hj. destruct Hj as (b' & <- & _). exact Ha.
Qed.

Lemma left_join_covers {A B : Type} (on : A -> B -> bool) l r a :
  In a l -> exists ob, In (a, ob) (left_join on l r).
Proof.
  intros Ha. unfold left_join.
  destruct (filter (on a) r) as [ | b bs] eqn:E.
  - exists None. apply in_flat_map. exists a. rewrite E. split; [ exact Ha | ].
    now left.
  - exists (Some b). apply in_flat_map. exists a. rewrite E.
    split; [ exact Ha | ]. now left.
Qed.

(** A LEFT JOIN on a key of the right table yields each left row once. *)
Lemma left_join_once {A B : Type} (on : A -> B -> bool) l r :
  (forall a, (List.length (filter (on a) r) <= 1)%nat) ->
  map fst (left_join on l r) = l.
Proof.
  intros Hone. unfold left_join.
  induction l as [ | a l IH]; [ reflexivity | ].
  match goal with
  | |- map fst (flat_map ?f _) = _ =>
      change (map fst (f a ++ flat_map f l) = a :: l)
  end.
  rewrite map_app, IH. specialize (Hone a).
  destruct (filter (on a) r) as [ | b [ | b' bs]]; cbn in Hone |- *;
    try reflexivity. lia.
Qed.

Lemma one_row_per_key {A : Type} (key : A -> Z) k l :
  NoDup (map key l) ->
  (List.length (filter (fun a => (key a =? k)%Z) l) <= 1)%nat.
Proof.
  induction l as [ | a l IH]; cbn; [ lia | ].
  intros Hnd. inversion Hnd as [ | ? ? Hnotin Hnd']; subst.
  destruct (Z.eqb_spec (key a) k) as [<- | Hne]; [ | now apply IH ].
  cbn. rewrite filter_none; [ cbn; lia | ].
  intros q Hq. apply Z.eqb_neq.
  intros Heq. apply Hnotin. rewrite <- Heq. now apply in_map.
Qed.

Lemma load_rows_loaded {A B : Type} (load : A -> loaded B) l rows :
  load_rows load l = Loaded rows <->
  Forall2 (fun a b => load a = Loaded b) l rows.
Proof.
  revert rows. induction l as [ | a l IH]; intros rows; cbn.
  - split.
    + intros E. injection E as <-. constructor.
    + intros H. now inversion H.
  - destruct (load a) as [b | msg] eqn:Ea.
    + destruct (load_rows load l) as [bs | msg] eqn:El.
      * split.
        -- intros E. injection E as <-. constructor; [ exact Ea | ].
           now apply IH.
        -- intros H. inversion H as [ | ? b' ? bs' Hb Hbs]; subst.
           apply IH in Hbs. congruence.
      * split; [ discriminate | ].
        intros H. inversion H as [ | ? b' ? bs' Hb Hbs]; subst.
        apply IH in Hbs. discriminate.
    + split; [ discriminate | ].
      intros H. inversion H as [ | ? b' ? bs' Hb Hbs]; subst. congruence.
Qed.

Lemma load_rows_total {A B : Type} (load : A -> loaded B) l :
  Forall (fun a => exists b, load a = Loaded b) l ->
  exists rows, load_rows load l = Loaded rows.
Proof.
  induction 1 as [ | a l [b Hb] _ [rows IH]]; cbn; [ eauto | ].
  rewrite Hb, IH. eauto.
Qed.

Lemma load_date_loaded n d :
  load_date n = Loaded d <-> 1 <= n <= _MAXORDINAL /\ d = fromordinal n.
Proof.
  unfold load_date.
  destruct (Z.ltb_spec n 1); [ split; [ discriminate | lia ] | ].
  destruct (Z.ltb_spec _MAXORDINAL n); [ split; [ discriminate | lia ] | ].
  split.
  - intros E. injection E as <-. split; [ lia | reflexivity ].
  - intros [_ ->]. reflexivity.
Qed.

Lemma load_approvals_row_loaded j r :
  load_approvals_row j = Loaded r ->
  1 <= te_work_date (fst (fst j)) <= _MAXORDINAL
  /\ approvals_columns r = submitted_columns (fst (fst j)).
Proof.
  unfold load_approvals_row. cbv zeta.
  destruct (load_date _) as [d | msg] eqn:Ed; [ | discriminate ].
  apply load_date_loaded in Ed. destruct Ed as [Hr ->].
  intros E. injection E as <-. split; [ exact Hr | reflexivity ].
Qed.

Lemma Forall2_in_left {A B : Type} (R : A -> B -> Prop) l l' a :
  Forall2 R l l' -> In a l -> exists b, In b l' /\ R a b.
Proof.
  induction 1 as [ | x y l l' Hxy _ IH]; [ intros [] | ].
  intros [<- | Ha]; [ exists y; split; [ now left | exact Hxy ] | ].
  destruct (IH Ha) as (b & Hb & Hab). exists b. split; [ now right | auto ].
Qed.

Lemma Forall2_in_right {A B : Type} (R : A -> B -> Prop) l l' b :
  Forall2 R l l' -> In b l' -> exists a, In a l /\ R a b.
Proof.
  induction 1 as [ | x y l l' Hxy _ IH]; [ intros [] | ].
  intros [<- | Hb]; [ exists x; split; [ now left | exact Hxy ] | ].
  destruct (IH Hb) as (a & Ha & Hab). exists a. split; [ now right | auto ].
Qed.

Lemma approvals_eq conn :
  approvals conn = load_rows load_approvals_row (approvals_joined conn).
Proof. reflexivity. Qed.

Lemma approvals_joined_in conn j :
  In j (approvals_joined conn) ->
  In (fst (fst j)) (v2_time_entries conn)
  /\ te_status (fst (fst j)) = "submitted".
Proof.
  unfold approvals_joined. intros Hj.
  apply (Permutation_in _ (order_by_perm _ _)) in Hj.
  apply filter_In in Hj. destruct Hj as [Hj Hs].
  apply String.eqb_eq in Hs. split; [ | exact Hs ].
  apply left_join_in_fst in Hj. now apply left_join_in_fst in Hj.
Qed.

Lemma approvals_joined_covers conn e :
  In e (v2_time_entries conn) -> te_status e = "submitted" ->
  exists j, In j (approvals_joined conn) /\ fst (fst j) = e.
Proof.
  intros He Hs.
  destruct (left_join_covers (fun te pe => pe_id pe =? te_person_id te)
              _ (v2_people conn) e He) as [ope H1].
  destruct (left_join_covers
              (fun (j : v2_time_entries_row * option v2_people_row) p =>
                 match te_project_id (fst j) with
                 | Some k => pj_id p =? k
                 | None => false
                 end)
              _ (v2_projects conn) _ H1) as [opj H2].
  exists (e, ope, opj). split; [ | reflexivity ].
  unfold approvals_joined.
  apply (Permutation_in _ (Permutation_sym (order_by_perm _ _))).
  apply filter_In. split; [ exact H2 | ]. cbn. rewrite Hs.
  apply String.eqb_refl.
Qed.

(** The page loads exactly when every submitted entry has a date Python
    holds. *)
Lemma approvals_loads conn :
  submitted_loadable conn <-> exists rows, approvals conn = Loaded rows.
Proof.
  rewrite approvals_eq. unfold submitted_loadable. split.
  - intros H. apply load_rows_total. rewrite Forall_forall in *.
    intros j Hj. apply approvals_joined_in in Hj. destruct Hj as [He Hs].
    specialize (H _ He Hs). unfold load_approvals_row. cbv zeta.
    destruct (load_date _) as [d | msg] eqn:Ed; [ eauto | ].
    assert (Hl : load_date (te_work_date (fst (fst j)))
                 = Loaded (fromordinal (te_work_date (fst (fst j)))))
      by (apply load_date_loaded; auto).
    congruence.
  - intros [rows Hrows]. apply load_rows_loaded in Hrows.
    rewrite Forall_forall. intros e He Hs.
    destruct (approvals_joined_covers conn e He Hs) as (j & Hj & <-).
    destruct (Forall2_in_left _ _ _ _ Hrows Hj) as (r & _ & Hr).
    now apply load_approvals_row_loaded in Hr.
Qed.

(** The ids the page lists are the ids of the submitted entries. *)
Lemma approvals_ids conn rows :
  approvals conn = Loaded rows ->
  forall i, In i (map a_id rows) <->
            exists e, In e (v2_time_entries conn)
                      /\ te_id e = i /\ te_status e = "submitted".
Proof.
  rewrite approvals_eq. intros Hrows. apply load_rows_loaded in Hrows.
  intros i. split.
  - intros Hi. apply in_map_iff in Hi. destruct Hi as (r & <- & Hr).
    destruct (Forall2_in_right _ _ _ _ Hrows Hr) as (j & Hj & Hl).
    apply approvals_joined_in in Hj. destruct Hj as [He Hs].
    apply load_approvals_row_loaded in Hl. destruct Hl as [_ Hc].
    exists (fst (fst j)). split; [ exact He | ]. split; [ | exact Hs ].
    unfold approvals_columns, submitted_columns in Hc. congruence.
  - intros (e & He & <- & Hs).
    destruct (approvals_joined_covers conn e He Hs) as (j & Hj & <-).
    destruct (Forall2_in_left _ _ _ _ Hrows Hj) as (r & Hr & Hl).
    apply load_approvals_row_loaded in Hl. destruct Hl as [_ Hc].
    apply in_map_iff. exists r. split; [ | exact Hr ].
    unfold approvals_columns, submitted_columns in Hc. congruence.
Qed.

End ApprovalsPage.

Section ApprovalsQueue.

(** With the primary keys of people and projects, the page has one row for
    each submitted entry, with that entry's columns. *)
Lemma approvals_rows conn rows :
  NoDup (map pe_id (v2_people conn)) ->
  NoDup (map pj_id (v2_projects conn)) ->
  approvals conn = Loaded rows ->
  Permutation
    (map approvals_columns rows)
    (map submitted_columns
         (filter (fun e => (te_status e =? "submitted")%string)
                 (v2_time_entries conn))).
Proof.
  intros Hpe Hpj Hrows. unfold approvals in Hrows.
  apply load_rows_loaded in Hrows.
  assert (Hcols : map approvals_columns rows
                  = map (fun j => submitted_columns (fst (fst j)))
                        (approvals_joined conn)).
  { induction Hrows as [ | j r js rs Hjr _ IH]; [ reflexivity | ].
    cbn [map]. apply load_approvals_row_loaded in Hjr.
    destruct Hjr as [_ ->]. now rewrite IH. }
  rewrite Hcols. unfold approvals_joined.
  set (J := left_join _ (left_join _ _ _) _).
  assert (HJ : map (fun j : approvals_join => fst (fst j)) J
               = v2_time_entries conn).
  { transitivity (map fst (map fst J)); [ symmetry; apply map_map | ].
    subst J. rewrite left_join_once.
    - apply left_join_once. intros te.
      now apply (one_row_per_key pe_id).
    - intros j. destruct (te_project_id (fst j)) as [k | ].
      + now apply (one_row_per_key pj_id).
      + rewrite filter_none by reflexivity. cbn. lia. }
  rewrite <- HJ.
  rewrite (filter_map_comm (fun j : approvals_join => fst (fst j))
             (fun e => (te_status e =? "submitted")%string) J).
  rewrite map_map. apply Permutation_map, order_by_perm.
Qed.

Lemma update_status_in cond s rows e' :
  In e' (update_status cond s rows) <->
  exists e, In e rows /\ e' = (if cond e then set_status s e else e).
Proof.
  unfold update_status. rewrite in_map_iff. split; intros (e & H1 & H2).
  - exists e. auto.
  - exists e. auto.
Qed.

End ApprovalsQueue.

(** X11: GET /approvals loads whenever every submitted entry has a work
    date Python's [date] holds, and then, with the primary keys of people
    and projects, lists exactly the submitted entries, each once, with
    that entry's id, person, date, hours, notes and status. *)
Theorem approvals_lists_submitted conn :
  submitted_loadable conn ->
  NoDup (map pe_id (v2_people conn)) ->
  NoDup (map pj_id (v2_projects conn)) ->
  exists rows,
    approvals conn = Loaded rows
    /\ Permutation
         (map approvals_columns rows)
         (map submitted_columns
              (filter (fun e => (te_status e =? "submitted")%string)
                      (v2_time_entries conn))).
Proof.
  intros Hl Hpe Hpj. apply approvals_loads in Hl. destruct Hl as [rows Hrows].
  exists rows. split; [ exact Hrows | ]. now apply approvals_rows.
Qed.

Lemma approvals_lists_submitted_witness :
  exists rows,
    approvals example_week = Loaded rows
    /\ Permutation
         (map approvals_columns rows)
         (map submitted_columns
              (filter (fun e => (te_status e =? "submitted")%string)
                      (v2_time_entries example_week))).
Proof.
  apply (approvals_lists_submitted example_week).
  - unfold submitted_loadable.
    change (v2_time_entries example_week)
      with [mk_entry 1 1 (Some 1) 738887 (Num 600) None "approved";
            mk_entry 2 1 None 738887 (Num 200) None "submitted"].
    change _MAXORDINAL with 3652059.
    repeat constructor; cbn [te_work_date]; lia.
  - change (map pe_id (v2_people example_week)) with [1].
    repeat constructor. intros [].
  - change (map pj_id (v2_projects example_week)) with [1].
    repeat constructor. intros [].
Defined.

(** X12: once the page loads, approving or rejecting an entry takes its
    id off the page, and the page keeps loading and lists every other id
    exactly as before. *)
Theorem approve_reject_leaves_queue conn entry_id rows conn' :
  approvals conn = Loaded rows ->
  conn' = fst (approvals_approve conn entry_id)
  \/ conn' = fst (approvals_reject conn entry_id) ->
  exists rows',
    approvals conn' = Loaded rows'
    /\ ~ In entry_id (map a_id rows')
    /\ forall i, i <> entry_id ->
                 (In i (map a_id rows') <-> In i (map a_id rows)).
Proof.
  intros Hrows Hconn'.
  assert (Hshape : exists s,
             s <> "submitted"
             /\ v2_time_entries conn'
                = update_status (fun r => te_id r =? entry_id) s
                                (v2_time_entries conn)).
  { destruct Hconn' as [-> | ->].
    - exists "approved". split; [ discriminate | reflexivity ].
    - exists "draft". split; [ discriminate | reflexivity ]. }
  destruct Hshape as (s & Hs & Hent).
  assert (Hload : submitted_loadable conn)
    by (apply approvals_loads; eauto).
  assert (Hload' : submitted_loadable conn').
  { unfold submitted_loadable in *. rewrite Hent. unfold update_status.
    rewrite Forall_map. revert Hload. apply Forall_impl. intros e He.
    destruct (te_id e =? entry_id); [ | exact He ].
    cbn [set_status te_status]. intros E. congruence. }
  apply approvals_loads in Hload'. destruct Hload' as [rows' Hrows'].
  exists rows'. split; [ exact Hrows' | ].
  pose proof (approvals_ids conn rows Hrows) as Hids.
  pose proof (approvals_ids conn' rows' Hrows') as Hids'.
  split.
  - rewrite Hids'. intros (e' & He' & Hid & Hst).
    rewrite Hent in He'. apply update_status_in in He'.
    destruct He' as (e & He & ->).
    destruct (Z.eqb_spec (te_id e) entry_id) as [E | E].
    + cbn [set_status te_status] in Hst. congruence.
    + contradiction.
  - intros i Hi. rewrite Hids, Hids'. split.
    + intros (e' & He' & Hid & Hst).
      rewrite Hent in He'. apply update_status_in in He'.
      destruct He' as (e & He & ->).
      destruct (Z.eqb_spec (te_id e) entry_id) as [E | E].
      * cbn [set_status te_status] in Hst. congruence.
      * eauto.
    + intros (e & He & Hid & Hst). exists e.
      split; [ | auto ]. rewrite Hent. apply update_status_in.
      exists e. split; [ exact He | ].
      destruct (Z.eqb_spec (te_id e) entry_id) as [E | E];
        [ congruence | reflexivity ].
Qed.

Lemma approve_reject_leaves_queue_witness :
  exists rows',
    approvals (fst (approvals_approve example_week 2)) = Loaded rows'
    /\ ~ In 2 (map a_id rows')
    /\ forall i, i <> 2 ->
                 (In i (map a_id rows')
                  <-> In i (map a_id
                              [mk_approvals_row 2 1 (Some "Ada Lovelace")
                                 (mkdate 2024 1 2) (Num 200) None "submitted"
                                 None None])).
Proof.
  apply (approve_reject_leaves_queue example_week 2
           [mk_approvals_row 2 1 (Some "Ada Lovelace") (mkdate 2024 1 2) (Num 200)
                             None "submitted" None None]).
  - vm_compute. reflexivity.
  - left. reflexivity.
Defined.

(** X13: when the week's dates are computed and the page loaded before,
    POST /time/submit-week puts every draft of that person in that week on
    the approvals page and keeps every entry that was on it. *)
Theorem submit_week_queues conn person_id year week days rows :
  iso_week_dates year week = Ok days ->
  approvals conn = Loaded rows ->
  exists rows',
    approvals (fst (time_submit_week conn person_id year week)) = Loaded rows'
    /\ (forall i, In i (map a_id rows) -> In i (map a_id rows'))
    /\ forall e, In e (v2_time_entries conn) ->
                 te_status e = "draft" ->
                 te_person_id e = person_id ->
                 toordinal (first_of days) <= te_work_date e
                 <= toordinal (last_of days) ->
                 In (te_id e) (map a_id rows').
Proof.
  intros Hdays Hrows.
  assert (Hload : submitted_loadable conn)
    by (apply approvals_loads; eauto).
  pose proof (submitted_loadable_step (fun _ => Raise InvalidDatetimeFormat)
                (fun s => s) conn
                (workflow (submit_week person_id year week)) Hload) as Hload'.
  cbn [handle_any handle] in Hload'.
  apply approvals_loads in Hload'. destruct Hload' as [rows' Hrows'].
  exists rows'. split; [ exact Hrows' | ].
  pose proof (approvals_ids conn rows Hrows) as Hids.
  pose proof (approvals_ids _ rows' Hrows') as Hids'.
  assert (Hent : v2_time_entries (fst (time_submit_week conn person_id year
                                                        week))
                 = update_status
                     (fun r => in_week person_id (toordinal (first_of days))
                                       (toordinal (last_of days)) r
                               && (te_status r =? "draft")%string)
                     "submitted" (v2_time_entries conn)).
  { unfold time_submit_week. rewrite Hdays. reflexivity. }
  split.
  - intros i Hi. apply Hids in Hi. destruct Hi as (e & He & Hid & Hst).
    apply Hids'. exists e. split; [ | auto ].
    rewrite Hent. apply update_status_in. exists e. split; [ exact He | ].
    rewrite Hst. cbn. now rewrite andb_false_r.
  - intros e He Hst Hp Hr. apply Hids'.
    exists (set_status "submitted" e). split; [ | split; reflexivity ].
    rewrite Hent. apply update_status_in. exists e. split; [ exact He | ].
    unfold in_week, between. rewrite Hst, Hp, Z.eqb_refl.
    destruct Hr as [H1 H2]. apply Z.leb_le in H1, H2. now rewrite H1, H2.
Qed.

Lemma submit_week_queues_witness :
  exists rows',
    approvals (fst (time_submit_week
                      (fst (time_add demo_date_in
                              (ensure_v2_schema empty_database)
                              1 "2024-01-02" None float_8 None 2024 1))
                      1 2024 1)) = Loaded rows'
    /\ (forall i, In i (map a_id (@nil approvals_row)) ->
                  In i (map a_id rows'))
    /\ forall e,
         In e (v2_time_entries
                 (fst (time_add demo_date_in (ensure_v2_schema empty_database)
                                1 "2024-01-02" None float_8 None 2024 1))) ->
         te_status e = "draft" ->
         te_person_id e = 1 ->
         toordinal (first_of [mkdate 2024 1 1; mkdate 2024 1 2;
                              mkdate 2024 1 3; mkdate 2024 1 4;
                              mkdate 2024 1 5; mkdate 2024 1 6;
                              mkdate 2024 1 7]) <= te_work_date e
         <= toordinal (last_of [mkdate 2024 1 1; mkdate 2024 1 2;
                                mkdate 2024 1 3; mkdate 2024 1 4;
                                mkdate 2024 1 5; mkdate 2024 1 6;
                                mkdate 2024 1 7]) ->
         In (te_id e) (map a_id rows').
Proof.
  apply (submit_week_queues
           (fst (time_add demo_date_in (ensure_v2_schema empty_database)
                          1 "2024-01-02" None float_8 None 2024 1))
           1 2024 1
           [mkdate 2024 1 1; mkdate 2024 1 2; mkdate 2024 1 3;
            mkdate 2024 1 4; mkdate 2024 1 5; mkdate 2024 1 6;
            mkdate 2024 1 7]
           []).
  - vm_compute. reflexivity.
  - vm_compute. reflexivity.
Defined.

(* ================================================================== *)
(** ** What holds in every state the application reaches *)

Section Reachable.

Variable date_in : string -> result Z.
Variable strip : string -> string.

Lemma seeded_keys_unique : keys_unique (ensure_v2_schema empty_database).
Proof.
  unfold keys_unique. cbn.
  repeat split; repeat constructor; cbn; try lia; intuition.
Qed.

(** X14: in every state the application reaches, by any of its writing
    requests (the five of the workflow, adding and deleting people, adding,
    toggling and deleting projects, the reset), the ids of each table are
    distinct and not above the table's sequence, and no two people share
    an email and no two projects a code. *)
Theorem reachable_any_keys conn :
  reachable_any date_in strip conn -> keys_unique conn.
Proof.
  induction 1 as [ | conn rq _ IH].
  - apply seeded_keys_unique.
  - now apply keys_unique_step.
Qed.

(** X15: in every state the application reaches, every time entry belongs
    to an existing person and its project, if it has one, exists: deleting
    a person takes the person's entries along, deleting a project clears
    the reference. *)
Theorem reachable_any_references conn :
  reachable_any date_in strip conn -> references_hold conn.
Proof.
  induction 1 as [ | conn rq _ IH].
  - constructor.
  - now apply references_hold_step.
Qed.

(** X16: in every state the application reaches, the hours of every time
    entry are NaN or at least 0 and below 1000 (in hundredths: below
    100000). *)
Theorem reachable_any_hours conn :
  reachable_any date_in strip conn -> hours_checked conn.
Proof.
  induction 1 as [ | conn rq _ IH].
  - constructor.
  - now apply hours_checked_step.
Qed.

(** X17: in every state the application reaches, GET /approvals loads its
    rows: an entry may carry a work date Python cannot hold (PostgreSQL
    accepts dates past year 9999), but such an entry is never submitted,
    because no week reaches it; and every status is one of the three. *)
Theorem reachable_any_approvals conn :
  reachable_any date_in strip conn ->
  (exists rows, approvals conn = Loaded rows) /\ statuses_enumerated conn.
Proof.
  intros H. split.
  - apply approvals_loads. induction H as [ | conn rq _ IH].
    + constructor.
    + now apply submitted_loadable_step.
  - induction H as [ | conn rq _ IH].
    + constructor.
    + now apply statuses_enumerated_step.
Qed.

End Reachable.

(** An entry dated past 9999-12-31 can be stored (here by a reader of
    dates that takes "10000-01-01" as the day after 9999-12-31, as
    PostgreSQL does) and approved, and the approvals page still loads. *)
Example approvals_beyond_year_9999 :
  let date_in := fun s => if (s =? "10000-01-01")%string
                          then Ok (_MAXORDINAL + 1)
                          else Raise InvalidDatetimeFormat in
  let c1 := handle_any date_in (fun s => s) (ensure_v2_schema empty_database)
              (workflow (add_entry 1 "10000-01-01" None float_8 None 9999 52)) in
  let c2 := handle_any date_in (fun s => s) c1
              (workflow (submit_week 1 9999 51)) in
  let c3 := handle_any date_in (fun s => s) c2 (workflow (approve 1)) in
  map te_work_date (v2_time_entries c3) = [3652060]
  /\ map te_status (v2_time_entries c2) = ["draft"]
  /\ map te_status (v2_time_entries c3) = ["approved"]
  /\ approvals c3 = Loaded [].
Proof. vm_compute. repeat split. Qed.

Lemma reachable_any_keys_witness :
  keys_unique
    (handle_any demo_date_in (fun s => s)
       (handle_any demo_date_in (fun s => s) (ensure_v2_schema empty_database)
          (workflow (add_entry 1 "2024-01-02" (Some 1) float_8 None 2024 1)))
       (delete_project 1)).
Proof.
  apply (reachable_any_keys demo_date_in (fun s => s)).
  apply reachable_any_step, reachable_any_step, reachable_any_init.
Defined.

Lemma reachable_any_references_witness :
  references_hold
    (handle_any demo_date_in (fun s => s)
       (handle_any demo_date_in (fun s => s) (ensure_v2_schema empty_database)
          (workflow (add_entry 1 "2024-01-02" (Some 1) float_8 None 2024 1)))
       (delete_project 1)).
Proof.
  apply (reachable_any_references demo_date_in (fun s => s)).
  apply reachable_any_step, reachable_any_step, reachable_any_init.
Defined.

Lemma reachable_any_hours_witness :
  hours_checked
    (handle_any demo_date_in (fun s => s)
       (handle_any demo_date_in (fun s => s)
          (handle_any demo_date_in (fun s => s)
             (ensure_v2_schema empty_database)
             (workflow (add_entry 1 "2024-01-02" (Some 1) float_8 None
                                  2024 1)))
          (workflow (add_entry 1 "2024-01-03" None S754_nan None 2024 1)))
       (delete_project 1)).
Proof.
  apply (reachable_any_hours demo_date_in (fun s => s)).
  apply reachable_any_step, reachable_any_step, reachable_any_step,
    reachable_any_init.
Defined.

(** Hours of NaN are reached: POST /time/add with hours=nan stores them,
    and hours of -0.001 are stored as 0.00. *)
Example reachable_any_hours_nan :
  map te_hours
      (v2_time_entries
         (handle_any demo_date_in (fun s => s)
            (handle_any demo_date_in (fun s => s)
               (ensure_v2_schema empty_database)
               (workflow (add_entry 1 "2024-01-03" None S754_nan None
                                    2024 1)))
            (workflow (add_entry 1 "2024-01-03" None
                                 (float_of_thousandths (-1)) None 2024 1))))
  = [NumericNaN; Num 0].
Proof. vm_compute. reflexivity. Qed.

Lemma reachable_any_approvals_witness :
  (exists rows,
      approvals
        (handle_any demo_date_in (fun s => s)
           (handle_any demo_date_in (fun s => s)
              (ensure_v2_schema empty_database)
              (workflow (add_entry 1 "2024-01-02" (Some 1) float_8 None 2024 1)))
           (workflow (submit_week 1 2024 1))) = Loaded rows)
  /\ statuses_enumerated
       (handle_any demo_date_in (fun s => s)
          (handle_any demo_date_in (fun s => s)
             (ensure_v2_schema empty_database)
             (workflow (add_entry 1 "2024-01-02" (Some 1) float_8 None 2024 1)))
          (workflow (submit_week 1 2024 1))).
Proof.
  apply (reachable_any_approvals demo_date_in (fun s => s)).
  apply reachable_any_step, reachable_any_step, reachable_any_init.
Defined.

(* ================================================================== *)
(** ** The my-week page after the workflow requests *)

Section RowOrder.

Lemma insert_sorted_sorted {A : Type} (leb : A -> A -> bool) a l :
  (forall x y, leb x y = false -> leb y x = true) ->
  Sorted (fun x y => leb x y = true) l ->
  Sorted (fun x y => leb x y = true) (insert_sorted leb a l).
Proof.
  intros Htotal. induction 1 as [ | b l Hl IH Hhd]; cbn.
  - repeat constructor.
  - destruct (leb a b) eqn:E.
    + constructor; [ now constructor | now constructor ].
    + constructor; [ exact IH | ].
      destruct l as [ | c l]; cbn.
      * constructor. now apply Htotal.
      * destruct (leb a c); constructor; [ now apply Htotal | ].
        now inversion Hhd.
Qed.

Lemma order_by_sorted {A : Type} (leb : A -> A -> bool) l :
  (forall x y, leb x y = false -> leb y x = true) ->
  (forall x y z, leb x y = true -> leb y z = true -> leb x z = true) ->
  StronglySorted (fun x y => leb x y = true) (order_by leb l).
Proof.
  intros Htotal Htrans. apply Sorted_StronglySorted.
  - intros x y z. apply Htrans.
  - induction l as [ | a l IH]; cbn; [ constructor | ].
    now apply insert_sorted_sorted.
Qed.

Lemma StronglySorted_filter {A : Type} (R : A -> A -> Prop) f l :
  StronglySorted R l -> StronglySorted R (filter f l).
Proof.
  induction 1 as [ | a l Hl IH Ha]; cbn; [ constructor | ].
  destruct (f a); [ | exact IH ].
  constructor; [ exact IH | ].
  rewrite Forall_forall in *. intros x Hx. apply filter_In in Hx.
  now apply Ha.
Qed.

Lemma StronglySorted_map {A B : Type} (R : B -> B -> Prop) (f : A -> B) l :
  StronglySorted (fun x y => R (f x) (f y)) l -> StronglySorted R (map f l).
Proof.
  induction 1 as [ | a l Hl IH Ha]; cbn; constructor; [ exact IH | ].
  now rewrite Forall_map.
Qed.

Lemma StronglySorted_weaken {A : Type} (R R' : A -> A -> Prop) l :
  (forall x y, In x l -> In y l -> R x y -> R' x y) ->
  StronglySorted R l -> StronglySorted R' l.
Proof.
  intros Himp H. induction H as [ | a l Hl IH Ha]; constructor.
  - apply IH. intros x y Hx Hy. apply Himp; now right.
  - rewrite Forall_forall in *. intros x Hx.
    apply Himp; [ now left | now right | now apply Ha ].
Qed.

Lemma StronglySorted_Forall2 {A B : Type} (T : A -> B -> Prop)
    (R : A -> A -> Prop) (R' : B -> B -> Prop) l l' :
  (forall a a' b b', T a b -> T a' b' -> R a a' -> R' b b') ->
  Forall2 T l l' -> StronglySorted R l -> StronglySorted R' l'.
Proof.
  intros Himp H. induction H as [ | a b l l' Hab Hll IH]; intros Hs;
    [ constructor | ].
  inversion Hs as [ | ? ? Hl Ha]; subst. constructor; [ now apply IH | ].
  rewrite Forall_forall in *. intros b' Hb'.
  destruct (Forall2_in_right _ _ _ _ Hll Hb') as (a' & Ha' & Hab').
  apply (Himp a a' b b'); auto.
Qed.

Lemma by_work_date_id_total x y :
  by_work_date_id x y = false -> by_work_date_id y x = true.
Proof.
  unfold by_work_date_id.
  rewrite orb_false_iff, andb_false_iff, orb_true_iff, andb_true_iff,
    !Z.ltb_lt, !Z.ltb_ge, !Z.eqb_eq, !Z.eqb_neq, Z.leb_le, Z.leb_gt. lia.
Qed.

Lemma by_work_date_id_trans x y z :
  by_work_date_id x y = true -> by_work_date_id y z = true ->
  by_work_date_id x z = true.
Proof.
  unfold by_work_date_id.
  rewrite !orb_true_iff, !andb_true_iff, !Z.ltb_lt, !Z.eqb_eq, !Z.leb_le.
  lia.
Qed.

Lemma by_person_date_id_total x y :
  by_person_date_id x y = false -> by_person_date_id y x = true.
Proof.
  unfold by_person_date_id. cbv zeta.
  rewrite !orb_false_iff, !andb_false_iff, !orb_false_iff, !andb_false_iff,
    !orb_true_iff, !andb_true_iff, !orb_true_iff, !andb_true_iff,
    !Z.ltb_lt, !Z.ltb_ge, !Z.eqb_eq, !Z.eqb_neq, !Z.leb_le, !Z.leb_gt. lia.
Qed.

Lemma by_person_date_id_trans x y z :
  by_person_date_id x y = true -> by_person_date_id y z = true ->
  by_person_date_id x z = true.
Proof.
  unfold by_person_date_id. cbv zeta.
  rewrite !orb_true_iff, !andb_true_iff, !orb_true_iff, !andb_true_iff,
    !Z.ltb_lt, !Z.eqb_eq, !Z.leb_le.
  lia.
Qed.

End RowOrder.

Section MyWeekAfter.

Lemma iso_week_dates_nonzero year week days :
  iso_week_dates year week = Ok days -> year <> 0 /\ week <> 0.
Proof.
  unfold iso_week_dates, fromisocalendar, _isoweek_to_gregorian,
    MINYEAR, MAXYEAR. cbv zeta. intros H. split; intros ->.
  - cbn in H. discriminate.
  - destruct ((1 <=? year) && (year <=? 9999)); cbn in H; discriminate.
Qed.

Lemma py_or_some v d : v <> 0 -> py_or (Some v) d = v.
Proof. intros H. unfold py_or. now apply Z.eqb_neq in H; rewrite H. Qed.

(** The page for an explicit person, year and week. *)
Lemma my_week_explicit conn today year week pid days :
  pid <> 0 -> iso_week_dates year week = Ok days ->
  my_week conn today (Some year) (Some week) (Some pid)
  = render_or_fallback "my_week.html"
      (mk_ctx year week days
              (map (fun d =>
                      (d, filter (fun r => date_eqb (r_work_date r) d)
                                 (select_week_rows conn pid (first_of days)
                                                   (last_of days))))
                   days)
              pid
              (running_total
                 (map r_hours
                      (select_week_rows conn pid (first_of days)
                                        (last_of days))))
              (aggregate_status
                 (filter (in_week pid (toordinal (first_of days))
                                  (toordinal (last_of days)))
                         (v2_time_entries conn)))).
Proof.
  intros Hpid Hdays. destruct (iso_week_dates_nonzero _ _ _ Hdays) as [Hy Hw].
  rewrite (my_week_rendered conn today (Some year) (Some week) (Some pid)
             pid days).
  - now rewrite !py_or_some.
  - now apply Z.eqb_neq in Hpid; rewrite Hpid.
  - now rewrite !py_or_some.
Qed.

(** A successful POST /time/add appended the entry. *)
Lemma time_add_ok date_in conn person_id work_date project_id hours notes
    year week r :
  snd (time_add date_in conn person_id work_date project_id hours notes
                year week) = Ok r ->
  exists wd v,
    date_in work_date = Ok wd
    /\ float8_to_numeric_5_2 hours = Ok v
    /\ v2_time_entries
         (fst (time_add date_in conn person_id work_date project_id hours
                        notes year week))
       = v2_time_entries conn
         ++ [mk_entry (v2_time_entries_id_seq conn + 1) person_id project_id
                      wd v notes "draft"]
    /\ v2_projects
         (fst (time_add date_in conn person_id work_date project_id hours
                        notes year week))
       = v2_projects conn.
Proof.
  intros Hok.
  destruct (time_add_shape date_in conn person_id work_date project_id hours
              notes year week)
    as (_ & Hpj & _ & _ & [([e He] & _) | (d & v & Hd & Hv & _ & _ & _ & _
                                         & Hent & _)]).
  - rewrite He in Hok. discriminate.
  - exists d, v. repeat split; assumption.
Qed.

Lemma filter_update_status (f cond : v2_time_entries_row -> bool) s rows :
  (forall e, f (set_status s e) = f e) ->
  filter f (update_status cond s rows) = update_status cond s (filter f rows).
Proof.
  intros Hf. unfold update_status.
  induction rows as [ | e rows IH]; cbn; [ reflexivity | ].
  destruct (cond e) eqn:Ec; rewrite ?Hf; destruct (f e); cbn;
    rewrite ?Ec, ?IH; reflexivity.
Qed.

(** The hint of a week without drafts. *)
Lemma aggregate_status_no_draft entries :
  Forall (fun e => te_status e = "submitted" \/ te_status e = "approved")
         entries ->
  (aggregate_status entries = "draft" <-> entries = [])
  /\ (aggregate_status entries = "approved" <->
      entries <> [] /\ Forall (fun e => te_status e = "approved") entries)
  /\ (aggregate_status entries = "draft"
      \/ aggregate_status entries = "submitted"
      \/ aggregate_status entries = "approved").
Proof.
  intros H.
  assert (Hall : forallb (fun e => (te_status e =? "approved")%string) entries
                 = true
                 <-> Forall (fun e => te_status e = "approved") entries).
  { rewrite forallb_forall, Forall_forall. split; intros Ha e He.
    - now apply String.eqb_eq, Ha.
    - rewrite (Ha e He). reflexivity. }
  assert (Hsome : forallb (fun e => (te_status e =? "approved")%string)
                          entries = false ->
                  existsb (fun e => (te_status e =? "submitted")%string)
                          entries = true).
  { clear Hall. induction H as [ | e l He _ IH]; cbn; [ discriminate | ].
    destruct He as [-> | ->]; cbn; [ reflexivity | exact IH ]. }
  destruct entries as [ | e0 rest].
  - cbn. split; [ | split ].
    + split; reflexivity.
    + split; [ discriminate | ]. intros [Hne _]. now contradiction Hne.
    + now left.
  - unfold aggregate_status.
    destruct (forallb _ (e0 :: rest)) eqn:Ea.
    + split; [ | split ].
      * split; discriminate.
      * split; [ | reflexivity ]. intros _.
        split; [ discriminate | now apply Hall ].
      * right; right; reflexivity.
    + rewrite (Hsome eq_refl). split; [ | split ].
      * split; discriminate.
      * split; [ discriminate | ]. intros [_ Hf]. apply Hall in Hf.
        congruence.
      * right; left; reflexivity.
Qed.

(** Rows sorted by a key, cut into the groups of the keys in ascending
    order and put together again, are the rows. *)
Lemma filter_all {A : Type} (f : A -> bool) l :
  (forall a, In a l -> f a = true) -> filter f l = l.
Proof.
  induction l as [ | a l IH]; cbn; [ reflexivity | ]. intros H.
  rewrite (H a) by now left. f_equal. apply IH. intros b Hb. apply H.
  now right.
Qed.

Lemma split_first_key {A : Type} (key : A -> Z) k l :
  StronglySorted (fun a b => key a <= key b) l ->
  (forall a, In a l -> k <= key a) ->
  l = filter (fun a => key a =? k) l
      ++ filter (fun a => negb (key a =? k)) l.
Proof.
  induction 1 as [ | a l Hl IH Ha]; intros Hk; [ reflexivity | ].
  cbn [filter]. destruct (Z.eqb_spec (key a) k) as [E | E]; cbn [negb].
  - cbn [app]. f_equal. apply IH. intros b Hb. apply Hk. now right.
  - assert (Hlt : k < key a) by (specialize (Hk a (or_introl eq_refl)); lia).
    rewrite Forall_forall in Ha.
    rewrite filter_none, filter_all; [ reflexivity | | ];
      intros b Hb; specialize (Ha b Hb).
    + apply negb_true_iff, Z.eqb_neq. lia.
    + apply Z.eqb_neq. lia.
Qed.

Lemma concat_by_key {A : Type} (key : A -> Z) ks :
  StronglySorted Z.lt ks ->
  forall l,
    StronglySorted (fun a b => key a <= key b) l ->
    (forall a, In a l -> In (key a) ks) ->
    List.concat (map (fun k => filter (fun a => key a =? k) l) ks) = l.
Proof.
  induction 1 as [ | k ks Hks IH Hk]; intros l Hl Hin.
  - destruct l as [ | a l]; [ reflexivity | ].
    destruct (Hin a (or_introl eq_refl)).
  - cbn [map List.concat]. rewrite Forall_forall in Hk.
    transitivity (filter (fun a => key a =? k) l
                  ++ filter (fun a => negb (key a =? k)) l).
    2: { symmetry. apply (split_first_key key k l Hl).
         intros a Ha. destruct (Hin a Ha) as [<- | Hi]; [ lia | ].
         specialize (Hk _ Hi). lia. }
    f_equal.
    rewrite <- (IH (filter (fun a => negb (key a =? k)) l)).
    + f_equal. apply map_ext_in. intros k' Hk'. specialize (Hk k' Hk').
      induction l as [ | a l IHl]; [ reflexivity | ]. cbn [filter].
      destruct (Z.eqb_spec (key a) k) as [E | E]; cbn [negb].
      * destruct (Z.eqb_spec (key a) k'); [ lia | ].
        apply IHl.
        -- now inversion Hl.
        -- intros b Hb. apply Hin. now right.
      * cbn [filter]. destruct (key a =? k'); [ f_equal | ]; apply IHl;
          try (now inversion Hl); intros b Hb; apply Hin; now right.
    + now apply StronglySorted_filter.
    + intros a Ha. apply filter_In in Ha. destruct Ha as [Ha E].
      apply negb_true_iff, Z.eqb_neq in E.
      destruct (Hin a Ha) as [Hi | Hi]; [ now symmetry in Hi | exact Hi ].
Qed.

(** The rows of the page come in the order of their work dates. *)
Lemma select_week_rows_sorted conn pid start end_ :
  StronglySorted
    (fun r r' => toordinal (r_work_date r) <= toordinal (r_work_date r'))
    (select_week_rows conn pid start end_).
Proof.
  unfold select_week_rows. apply StronglySorted_map.
  match goal with
  | |- StronglySorted _ (order_by ?leb ?l) =>
      pose proof (order_by_sorted leb l by_work_date_id_total
                    by_work_date_id_trans) as Hs
  end.
  revert Hs. apply StronglySorted_weaken. intros x y _ _ Hxy.
  cbn [to_week_row r_work_date]. rewrite !toordinal_fromordinal.
  unfold by_work_date_id in Hxy.
  rewrite orb_true_iff, andb_true_iff, Z.ltb_lt, Z.eqb_eq in Hxy. lia.
Qed.

(** So the lists of [by_day], read day after day, are the rows of the
    query in their order. *)
Lemma by_day_concat conn pid days o :
  days = map (fun i => fromordinal (o + i)) range7 ->
  List.concat (map (fun d =>
                 filter (fun r => date_eqb (r_work_date r) d)
                        (select_week_rows conn pid (first_of days)
                                          (last_of days)))
              days)
  = select_week_rows conn pid (first_of days) (last_of days).
Proof.
  intros Ho.
  pose proof (select_week_rows_days conn pid days o Ho) as Hin.
  pose proof (select_week_rows_sorted conn pid (first_of days) (last_of days))
    as Hs.
  set (rows := select_week_rows conn pid (first_of days) (last_of days)) in *.
  clearbody rows.
  transitivity
    (List.concat
       (map (fun k => filter (fun r => toordinal (r_work_date r) =? k) rows)
            (map (fun i => o + i) range7))).
  - rewrite Ho. rewrite !map_map. f_equal. apply map_ext. intros i.
    apply filter_ext_in. intros r Hr. specialize (Hin r Hr).
    rewrite Ho in Hin. apply in_map_iff in Hin.
    destruct Hin as (j & Hj & _). rewrite <- Hj, toordinal_fromordinal.
    destruct (Z.eqb_spec (o + j) (o + i)) as [E | E].
    + rewrite E. apply date_eqb_refl.
    + apply date_eqb_neq. intros H. apply fromordinal_inj in H. contradiction.
  - apply concat_by_key.
    + unfold range7. cbn [map]. repeat constructor; lia.
    + exact Hs.
    + intros r Hr. specialize (Hin r Hr). rewrite Ho in Hin.
      apply in_map_iff in Hin. destruct Hin as (j & Hj & Hjin).
      rewrite <- Hj, toordinal_fromordinal. apply in_map_iff. now exists j.
Qed.

(** What a rendered page was rendered from. *)
Lemma my_week_render_inv conn today year week person_id tpl ctx :
  my_week conn today year week person_id = render_or_fallback tpl ctx ->
  exists pid days,
    iso_week_dates (py_or year (fst (isocalendar today)))
                   (py_or week (snd (isocalendar today))) = Ok days
    /\ NoDup days
    /\ (forall r, In r (select_week_rows conn pid (first_of days)
                                         (last_of days)) ->
                  In (r_work_date r) days)
    /\ ctx = mk_ctx (py_or year (fst (isocalendar today)))
                    (py_or week (snd (isocalendar today)))
                    days
                    (map (fun d =>
                            (d, filter (fun r => date_eqb (r_work_date r) d)
                                       (select_week_rows conn pid
                                          (first_of days) (last_of days))))
                         days)
                    pid
                    (running_total
                       (map r_hours
                            (select_week_rows conn pid (first_of days)
                                              (last_of days))))
                    (aggregate_status
                       (filter (in_week pid (toordinal (first_of days))
                                        (toordinal (last_of days)))
                               (v2_time_entries conn))).
Proof.
  intros H.
  destruct (match person_id with
            | Some v => if v =? 0 then pick_default_person_id conn else Ok v
            | None => pick_default_person_id conn
            end) as [pid | e] eqn:Hp.
  2: { unfold my_week in H. destruct (isocalendar today) as [y w].
       rewrite Hp in H. discriminate. }
  destruct (iso_week_dates (py_or year (fst (isocalendar today)))
                           (py_or week (snd (isocalendar today))))
    as [days | e] eqn:Hdays.
  2: { unfold my_week in H. destruct (isocalendar today) as [y w].
       cbn [fst snd] in Hdays. rewrite Hp, Hdays in H. discriminate. }
  rewrite (my_week_rendered conn today year week person_id pid days Hp Hdays)
    in H.
  injection H as _ <-. exists pid, days.
  destruct (iso_week_dates_ordinals _ _ _ Hdays) as [o Ho].
  split; [ reflexivity | ]. split; [ rewrite Ho; apply week_nodup | ].
  split; [ | reflexivity ].
  now apply (select_week_rows_days conn pid days o).
Qed.

End MyWeekAfter.



(** X19: after POST /time/submit-week for a person and a week, with the
    statuses of the database among the three, the my-week page of that
    person and week shows 'draft' only when the week has no entry,
    'approved' only when it has entries and all are approved, and
    'submitted' otherwise. *)
Theorem submitted_week_hint conn today person_id year week days :
  statuses_enumerated conn ->
  person_id <> 0 ->
  iso_week_dates year week = Ok days ->
  let entries :=
    filter (fun e => (te_person_id e =? person_id)
                     && ((toordinal (first_of days) <=? te_work_date e)
                         && (te_work_date e <=? toordinal (last_of days))))
           (v2_time_entries conn) in
  exists ctx,
    my_week (fst (time_submit_week conn person_id year week)) today
            (Some year) (Some week) (Some person_id)
    = render_or_fallback "my_week.html" ctx
    /\ (c_status_hint ctx = "draft" <-> entries = [])
    /\ (c_status_hint ctx = "approved" <->
        entries <> []
        /\ Forall (fun e => te_status e = "approved") entries)
    /\ (c_status_hint ctx = "draft" \/ c_status_hint ctx = "submitted"
        \/ c_status_hint ctx = "approved").
Proof.
  intros Hst Hpid Hdays. cbv zeta.
  change (fun e => (te_person_id e =? person_id)
                   && ((toordinal (first_of days) <=? te_work_date e)
                       && (te_work_date e <=? toordinal (last_of days))))
    with (in_week person_id (toordinal (first_of days))
                  (toordinal (last_of days))).
  eexists.
  split; [ apply (my_week_explicit _ today year week person_id days Hpid
                                   Hdays) | ].
  cbn [c_status_hint].
  assert (Hent : v2_time_entries (fst (time_submit_week conn person_id year
                                                        week))
                 = update_status
                     (fun r => in_week person_id (toordinal (first_of days))
                                       (toordinal (last_of days)) r
                               && (te_status r =? "draft")%string)
                     "submitted" (v2_time_entries conn)).
  { unfold time_submit_week. rewrite Hdays. reflexivity. }
  rewrite Hent, filter_update_status by reflexivity.
  set (l := filter _ (v2_time_entries conn)).
  assert (Hl : Forall (fun e => in_week person_id (toordinal (first_of days))
                                        (toordinal (last_of days)) e = true
                                /\ enumerated_status (te_status e)) l).
  { subst l. rewrite Forall_forall. intros e He. apply filter_In in He.
    destruct He as [He Hin]. split; [ exact Hin | ].
    unfold statuses_enumerated in Hst. rewrite Forall_forall in Hst. auto. }
  clearbody l.
  set (upd := update_status _ "submitted" l).
  assert (Hupd : Forall (fun e => te_status e = "submitted"
                                  \/ te_status e = "approved") upd).
  { subst upd. unfold update_status. rewrite Forall_map. revert Hl.
    apply Forall_impl. intros e [Hin [Hs | [Hs | Hs]]]; rewrite Hin, Hs; cbn;
      auto. }
  destruct (aggregate_status_no_draft upd Hupd) as (Hd & Ha & Hany).
  assert (Hnil : upd = [] <-> l = []).
  { subst upd. unfold update_status. destruct l; cbn; split; congruence. }
  assert (Happ : Forall (fun e => te_status e = "approved") upd
                 <-> Forall (fun e => te_status e = "approved") l).
  { subst upd. unfold update_status. rewrite Forall_map.
    rewrite !Forall_forall. rewrite Forall_forall in Hl.
    split; intros H e He; specialize (H e He);
      destruct (Hl e He) as [Hin Hs]; rewrite Hin in *; cbn [andb] in *.
    - destruct (String.eqb_spec (te_status e) "draft") as [E | E];
        [ cbn in H; discriminate | exact H ].
    - rewrite H. cbn. exact H. }
  split; [ | split ]; [ | | exact Hany ].
  - now rewrite Hd.
  - rewrite Ha, Happ. rewrite Hnil. reflexivity.
Qed.

Lemma submitted_week_hint_witness :
  exists ctx,
    my_week (fst (time_submit_week
                    (fst (time_add demo_date_in
                            (ensure_v2_schema empty_database)
                            1 "2024-01-02" None float_8 None 2024 1))
                    1 2024 1))
            (mkdate 2024 1 3) (Some 2024) (Some 1) (Some 1)
    = render_or_fallback "my_week.html" ctx
    /\ (c_status_hint ctx = "draft" <->
        filter (fun e => (te_person_id e =? 1)
                         && ((738886 <=? te_work_date e)
                             && (te_work_date e <=? 738892)))
               (v2_time_entries
                  (fst (time_add demo_date_in
                          (ensure_v2_schema empty_database)
                          1 "2024-01-02" None float_8 None 2024 1))) = [])
    /\ (c_status_hint ctx = "approved" <->
        filter (fun e => (te_person_id e =? 1)
                         && ((738886 <=? te_work_date e)
                             && (te_work_date e <=? 738892)))
               (v2_time_entries
                  (fst (time_add demo_date_in
                          (ensure_v2_schema empty_database)
                          1 "2024-01-02" None float_8 None 2024 1))) <> []
        /\ Forall (fun e => te_status e = "approved")
             (filter (fun e => (te_person_id e =? 1)
                               && ((738886 <=? te_work_date e)
                                   && (te_work_date e <=? 738892)))
                     (v2_time_entries
                        (fst (time_add demo_date_in
                                (ensure_v2_schema empty_database)
                                1 "2024-01-02" None float_8 None 2024 1)))))
    /\ (c_status_hint ctx = "draft" \/ c_status_hint ctx = "submitted"
        \/ c_status_hint ctx = "approved").
Proof.
  apply (submitted_week_hint
           (fst (time_add demo_date_in (ensure_v2_schema empty_database)
                          1 "2024-01-02" None float_8 None 2024 1))
           (mkdate 2024 1 3) 1 2024 1
           [mkdate 2024 1 1; mkdate 2024 1 2; mkdate 2024 1 3;
            mkdate 2024 1 4; mkdate 2024 1 5; mkdate 2024 1 6;
            mkdate 2024 1 7]).
  - unfold statuses_enumerated.
    change (v2_time_entries _)
      with [mk_entry 1 1 None 738887 (Num 800) None "draft"].
    repeat constructor.
  - lia.
  - vm_compute. reflexivity.
Defined.

Section AddAndDelete.

Variable date_in : string -> result Z.

(** POST /time/add appends one entry with the next id, or none. *)
Lemma time_add_entries conn person_id work_date project_id hours notes
    year week :
  let conn' := fst (time_add date_in conn person_id work_date project_id
                             hours notes year week) in
  v2_time_entries conn' = v2_time_entries conn
  \/ exists wd v,
       v2_time_entries conn'
       = v2_time_entries conn
         ++ [mk_entry (v2_time_entries_id_seq conn + 1) person_id project_id
                      wd v notes "draft"].
Proof.
  cbv zeta.
  destruct (time_add_shape date_in conn person_id work_date project_id hours
              notes year week)
    as (_ & _ & _ & _ & [(_ & He & _) | (d & v & _ & _ & _ & _ & _ & _
                                        & He & _)]).
  - now left.
  - right. now exists d, v.
Qed.

(** The rows the LEFT JOIN makes of one entry are rows of that entry. *)
Lemma left_join_projects_app entries entries' projects :
  left_join_projects (entries ++ entries') projects
  = left_join_projects entries projects
    ++ left_join_projects entries' projects.
Proof. unfold left_join_projects. apply flat_map_app. Qed.

Lemma left_join_projects_one te projects j :
  In j (left_join_projects [te] projects) -> fst j = te.
Proof.
  unfold left_join_projects. cbn [flat_map]. rewrite app_nil_r.
  destruct (filter _ projects) as [ | p ps].
  - intros [<- | []]. reflexivity.
  - intros H. apply in_map_iff in H. destruct H as (q & <- & _). reflexivity.
Qed.

Lemma aggregate_status_not_approved entries e :
  In e entries -> te_status e <> "approved" ->
  aggregate_status entries <> "approved".
Proof.
  intros He Hs. unfold aggregate_status.
  destruct entries as [ | e0 rest]; [ discriminate | ].
  destruct (forallb _ (e0 :: rest)) eqn:Ea.
  - rewrite forallb_forall in Ea. specialize (Ea e He).
    now apply String.eqb_eq in Ea.
  - destruct (existsb _ _); discriminate.
Qed.

(** X20: after a successful POST /time/add the my-week page of a person
    and a week shows one row more, the row of the new draft with the hours
    as the database rounded them, when the entry is that person's and its
    date lies in the week, and then the week does not show 'approved';
    otherwise the page is what it was.  Primary keys of v2_projects are
    distinct. *)
Theorem time_add_shows_in_week conn today pid year week days
    person_id work_date project_id hours notes y w r :
  NoDup (map pj_id (v2_projects conn)) ->
  pid <> 0 ->
  iso_week_dates year week = Ok days ->
  snd (time_add date_in conn person_id work_date project_id hours notes y w)
  = Ok r ->
  exists wd v ctx ctx',
    date_in work_date = Ok wd
    /\ float8_to_numeric_5_2 hours = Ok v
    /\ my_week conn today (Some year) (Some week) (Some pid)
       = render_or_fallback "my_week.html" ctx
    /\ my_week (fst (time_add date_in conn person_id work_date project_id
                              hours notes y w))
               today (Some year) (Some week) (Some pid)
       = render_or_fallback "my_week.html" ctx'
    /\ if (person_id =? pid)
          && ((toordinal (first_of days) <=? wd)
              && (wd <=? toordinal (last_of days)))
       then
         Permutation
           (map row_columns (List.concat (map snd (c_by_day ctx'))))
           ((v2_time_entries_id_seq conn + 1, fromordinal wd, v, notes,
             "draft")
            :: map row_columns (List.concat (map snd (c_by_day ctx))))
         /\ c_status_hint ctx' <> "approved"
       else ctx' = ctx.
Proof.
  intros Hpk Hpid Hdays Hok.
  destruct (time_add_ok _ _ _ _ _ _ _ _ _ _ Hok)
    as (wd & v & Hwd & Hv & Hent & Hpj).
  exists wd, v. eexists. eexists.
  split; [ exact Hwd | ]. split; [ exact Hv | ].
  split; [ apply (my_week_explicit _ today year week pid days Hpid Hdays) | ].
  split; [ apply (my_week_explicit _ today year week pid days Hpid Hdays) | ].
  set (conn' := fst (time_add date_in conn person_id work_date project_id
                              hours notes y w)) in *.
  set (new := mk_entry (v2_time_entries_id_seq conn + 1) person_id project_id
                       wd v notes "draft") in *.
  assert (Hnew : in_week pid (toordinal (first_of days))
                         (toordinal (last_of days)) new
                 = (person_id =? pid)
                   && ((toordinal (first_of days) <=? wd)
                       && (wd <=? toordinal (last_of days))))
    by reflexivity.
  rewrite <- Hnew.
  destruct (iso_week_dates_ordinals _ _ _ Hdays) as [o Ho].
  destruct (in_week pid (toordinal (first_of days))
                    (toordinal (last_of days)) new) eqn:E.
  - cbn [c_by_day c_status_hint]. rewrite !map_map. cbn [snd].
    rewrite !(by_day_concat _ pid days o Ho).
    rewrite !select_week_rows_ordered by (rewrite ?Hpj; assumption).
    rewrite Hent, filter_app. cbn [filter]. rewrite E.
    split.
    + change (v2_time_entries_id_seq conn + 1, fromordinal wd, v, notes,
              "draft") with (entry_columns new).
      rewrite <- (map_cons entry_columns).
      apply Permutation_map.
      rewrite order_by_perm.
      rewrite <- Permutation_cons_append.
      constructor. symmetry. apply order_by_perm.
    + eapply aggregate_status_not_approved.
      * apply in_or_app. right. now left.
      * cbn. discriminate.
  - assert (Hrows : select_week_rows conn' pid (first_of days) (last_of days)
                    = select_week_rows conn pid (first_of days)
                                       (last_of days)).
    { unfold select_week_rows. rewrite Hent, Hpj, left_join_projects_app,
        filter_app.
      rewrite (filter_none _ (left_join_projects [new] (v2_projects conn))).
      - now rewrite app_nil_r.
      - intros j Hj. apply left_join_projects_one in Hj. now rewrite Hj. }
    rewrite Hrows, Hent, filter_app. cbn [filter]. rewrite E.
    now rewrite app_nil_r.
Qed.

(** X21: in a database whose entry ids came from the sequence, deleting
    the id POST /time/add just handed out gives back the time entries as
    they were before the add, whether the add succeeded or failed. *)
Theorem time_add_then_delete conn person_id work_date project_id hours
    notes year week p y w :
  ids_from_sequence conn ->
  v2_time_entries
    (fst (time_delete
            (fst (time_add date_in conn person_id work_date project_id hours
                           notes year week))
            (v2_time_entries_id_seq conn + 1) p y w))
  = v2_time_entries conn.
Proof.
  intros Hids.
  assert (Hold : delete_where
                   (fun r => te_id r =? v2_time_entries_id_seq conn + 1)
                   (v2_time_entries conn) = v2_time_entries conn).
  { apply delete_where_none. unfold ids_from_sequence in Hids.
    revert Hids. apply Forall_impl. intros e He. apply Z.eqb_neq. lia. }
  unfold time_delete. cbn [fst with_time_entries v2_time_entries].
  destruct (time_add_entries conn person_id work_date project_id hours notes
              year week) as [-> | (wd & v & ->)].
  - exact Hold.
  - unfold delete_where in *. rewrite filter_app, Hold. cbn [filter te_id].
    rewrite Z.eqb_refl. cbn. apply app_nil_r.
Qed.

End AddAndDelete.

Lemma time_add_shows_in_week_witness :
  exists wd v ctx ctx',
    demo_date_in "2024-01-03" = Ok wd
    /\ float8_to_numeric_5_2 float_0_1 = Ok v
    /\ my_week example_week (mkdate 2024 1 3) (Some 2024) (Some 1) (Some 1)
       = render_or_fallback "my_week.html" ctx
    /\ my_week (fst (time_add demo_date_in example_week 1 "2024-01-03" None
                              float_0_1 None 2024 1))
               (mkdate 2024 1 3) (Some 2024) (Some 1) (Some 1)
       = render_or_fallback "my_week.html" ctx'
    /\ if (1 =? 1)
          && ((toordinal (first_of
                 [mkdate 2024 1 1; mkdate 2024 1 2; mkdate 2024 1 3;
                  mkdate 2024 1 4; mkdate 2024 1 5; mkdate 2024 1 6;
                  mkdate 2024 1 7]) <=? wd)
              && (wd <=? toordinal (last_of
                 [mkdate 2024 1 1; mkdate 2024 1 2; mkdate 2024 1 3;
                  mkdate 2024 1 4; mkdate 2024 1 5; mkdate 2024 1 6;
                  mkdate 2024 1 7])))
       then
         Permutation
           (map row_columns (List.concat (map snd (c_by_day ctx'))))
           ((v2_time_entries_id_seq example_week + 1, fromordinal wd, v,
             None, "draft")
            :: map row_columns (List.concat (map snd (c_by_day ctx))))
         /\ c_status_hint ctx' <> "approved"
       else ctx' = ctx.
Proof.
  apply (time_add_shows_in_week demo_date_in example_week (mkdate 2024 1 3)
           1 2024 1
           [mkdate 2024 1 1; mkdate 2024 1 2; mkdate 2024 1 3;
            mkdate 2024 1 4; mkdate 2024 1 5; mkdate 2024 1 6;
            mkdate 2024 1 7]
           1 "2024-01-03" None float_0_1 None 2024 1
           (RedirectResponse (my_week_url 2024 1 1))).
  - vm_compute. repeat constructor. intros [].
  - lia.
  - vm_compute. reflexivity.
  - vm_compute. reflexivity.
Defined.

Lemma time_add_then_delete_witness :
  v2_time_entries
    (fst (time_delete
            (fst (time_add demo_date_in example_week 1 "2024-01-02" None float_2
                           None 2024 1))
            (v2_time_entries_id_seq example_week + 1) 1 2024 1))
  = v2_time_entries example_week.
Proof.
  apply (time_add_then_delete demo_date_in example_week).
  unfold ids_from_sequence.
  change (v2_time_entries example_week)
    with [mk_entry 1 1 (Some 1) 738887 (Num 600) None "approved";
          mk_entry 2 1 None 738887 (Num 200) None "submitted"].
  change (v2_time_entries_id_seq example_week) with 2.
  repeat constructor; cbn; lia.
Defined.

(* ================================================================== *)
(** ** ORDER BY: the order of the rows on the pages *)


(** X22: on every rendered my-week page the rows under a day stand in the
    order of their ids (ORDER BY te.work_date, te.id). *)
Theorem my_week_rows_ordered conn today year week person_id tpl ctx :
  my_week conn today year week person_id = render_or_fallback tpl ctx ->
  Forall (fun dr => StronglySorted (fun r r' => r_id r <= r_id r') (snd dr))
         (c_by_day ctx).
Proof.
  intros H. apply my_week_render_inv in H.
  destruct H as (pid & days & _ & _ & _ & ->).
  cbn [c_by_day]. rewrite Forall_map, Forall_forall. intros d _. cbn [snd].
  unfold select_week_rows. rewrite filter_map_comm.
  apply StronglySorted_map.
  match goal with
  | |- StronglySorted _ (filter ?g (order_by ?leb ?l)) =>
      pose proof (order_by_sorted leb l by_work_date_id_total
                    by_work_date_id_trans) as Hs;
      apply (StronglySorted_filter _ g) in Hs
  end.
  revert Hs. apply StronglySorted_weaken. intros x y Hx Hy Hxy.
  apply filter_In in Hx, Hy. destruct Hx as [_ Hx], Hy as [_ Hy].
  cbn [to_week_row r_work_date r_id] in *.
  apply date_eqb_eq in Hx, Hy. rewrite <- Hy in Hx.
  apply fromordinal_inj in Hx.
  unfold by_work_date_id in Hxy.
  rewrite orb_true_iff, andb_true_iff, Z.ltb_lt, Z.eqb_eq, Z.leb_le in Hxy.
  lia.
Qed.

Lemma my_week_rows_ordered_witness :
  Forall (fun dr => StronglySorted (fun r r' => r_id r <= r_id r') (snd dr))
         (c_by_day
            (mk_ctx 2024 1
               [mkdate 2024 1 1; mkdate 2024 1 2; mkdate 2024 1 3;
                mkdate 2024 1 4; mkdate 2024 1 5; mkdate 2024 1 6;
                mkdate 2024 1 7]
               [(mkdate 2024 1 1, []);
                (mkdate 2024 1 2,
                 [mk_week_row 1 (mkdate 2024 1 2) (Num 600) None "approved"
                              (Some 1) (Some "Internal") (Some "INT");
                  mk_week_row 2 (mkdate 2024 1 2) (Num 200) None "submitted"
                              None None None]);
                (mkdate 2024 1 3, []); (mkdate 2024 1 4, []);
                (mkdate 2024 1 5, []); (mkdate 2024 1 6, []);
                (mkdate 2024 1 7, [])]
               1 (S754_finite false 4503599627370496 (-49)) "submitted")).
Proof.
  apply (my_week_rows_ordered example_week (mkdate 2024 1 3) (Some 2024)
           (Some 1) (Some 1) "my_week.html").
  vm_compute. reflexivity.
Defined.

(** X23: the rows of a loaded approvals page stand in the order of person
    id, then work date, then entry id (ORDER BY te.person_id, te.work_date,
    te.id). *)
Theorem approvals_rows_ordered conn rows :
  approvals conn = Loaded rows ->
  StronglySorted
    (fun r r' =>
       a_person_id r < a_person_id r'
       \/ (a_person_id r = a_person_id r'
           /\ (toordinal (a_work_date r) < toordinal (a_work_date r')
               \/ (toordinal (a_work_date r) = toordinal (a_work_date r')
                   /\ a_id r <= a_id r'))))
    rows.
Proof.
  unfold approvals. intros H. apply load_rows_loaded in H.
  unfold approvals_joined in H.
  match type of H with
  | Forall2 _ (order_by ?leb ?l) _ =>
      pose proof (order_by_sorted leb l by_person_date_id_total
                    by_person_date_id_trans) as Hs
  end.
  revert H Hs. apply StronglySorted_Forall2.
  intros j j' r r' Hr Hr' Hjj'.
  apply load_approvals_row_loaded in Hr, Hr'.
  destruct Hr as [_ Hr], Hr' as [_ Hr'].
  unfold approvals_columns, submitted_columns in Hr, Hr'.
  injection Hr as -> -> -> _ _ _. injection Hr' as -> -> -> _ _ _.
  rewrite !toordinal_fromordinal.
  unfold by_person_date_id in Hjj'. cbv zeta in Hjj'.
  rewrite !orb_true_iff, !andb_true_iff, !orb_true_iff, !andb_true_iff,
    !Z.ltb_lt, !Z.eqb_eq, !Z.leb_le in Hjj'.
  lia.
Qed.

Lemma approvals_rows_ordered_witness :
  StronglySorted
    (fun r r' =>
       a_person_id r < a_person_id r'
       \/ (a_person_id r = a_person_id r'
           /\ (toordinal (a_work_date r) < toordinal (a_work_date r')
               \/ (toordinal (a_work_date r) = toordinal (a_work_date r')
                   /\ a_id r <= a_id r'))))
    [mk_approvals_row 3 1 (Some "Ada Lovelace") (mkdate 2024 1 1) (Num 800)
                      None "submitted" (Some "INT") (Some "Internal");
     mk_approvals_row 2 1 (Some "Ada Lovelace") (mkdate 2024 1 2) (Num 600)
                      None "submitted" None None;
     mk_approvals_row 1 2 (Some "Grace Hopper") (mkdate 2024 1 1) (Num 200)
                      None "submitted" None None].
Proof.
  apply (approvals_rows_ordered example_queue).
  vm_compute. reflexivity.
Defined.

(** X24: approving and rejecting the same entry compose as the last one
    alone, and each is idempotent: the status an entry ends with is the
    one the last request wrote. *)
Theorem approve_reject_last_wins conn entry_id :
  fst (approvals_reject (fst (approvals_approve conn entry_id)) entry_id)
  = fst (approvals_reject conn entry_id)
  /\ fst (approvals_approve (fst (approvals_reject conn entry_id)) entry_id)
     = fst (approvals_approve conn entry_id)
  /\ fst (approvals_approve (fst (approvals_approve conn entry_id)) entry_id)
     = fst (approvals_approve conn entry_id)
  /\ fst (approvals_reject (fst (approvals_reject conn entry_id)) entry_id)
     = fst (approvals_reject conn entry_id).
Proof.
  assert (H : forall s s' rows,
             update_status (fun r => te_id r =? entry_id) s'
               (update_status (fun r => te_id r =? entry_id) s rows)
             = update_status (fun r => te_id r =? entry_id) s' rows).
  { intros s s' rows. unfold update_status. rewrite map_map.
    apply map_ext. intros e.
    destruct (te_id e =? entry_id) eqn:E; cbn [set_status te_id];
      rewrite E; reflexivity. }
  unfold approvals_approve, approvals_reject, with_time_entries.
  cbn [fst v2_people v2_projects v2_time_entries v2_people_id_seq
       v2_projects_id_seq v2_time_entries_id_seq].
  rewrite !H. repeat split.
Qed.
